(** * nf_core/create.py: a shallow embedding of [PipelineCreate]

    The development follows the source file top to bottom:
    - Python strings and the few [str] methods the module calls;
    - Python values, exceptions, and a state-and-exception monad over the
      part of the outside world the module touches (console answers, the
      output file system, the random source, the HTTP endpoint, the log);
    - [create_param_dict], [get_param] and the prompts;
    - [render_template] with its per-file loop body;
    - [make_pipeline_logo] and [download_pipeline_logo];
    - [init_pipeline] and [git_init_pipeline], over a Git library taken
      as it comes;
    - the properties of the specification, claim by claim;
    - further properties of the code, method by method. *)

From Stdlib Require Import ZArith Lia Ascii.
From stdpp Require Import base strings gmap list pretty.

Open Scope Z_scope.

(** ** Python strings

    A Python [str] is modelled as a Rocq [string]: a sequence of
    single-byte characters.  Case mapping is the ASCII one. *)
Module PyStr.

Definition is_lower (c : ascii) : bool :=
  let n := nat_of_ascii c in (97 <=? n)%nat && (n <=? 122)%nat.

Definition is_upper (c : ascii) : bool :=
  let n := nat_of_ascii c in (65 <=? n)%nat && (n <=? 90)%nat.

Definition is_digit (c : ascii) : bool :=
  let n := nat_of_ascii c in (48 <=? n)%nat && (n <=? 57)%nat.

Definition lower_char (c : ascii) : ascii :=
  if is_upper c then ascii_of_nat (nat_of_ascii c + 32) else c.

Definition upper_char (c : ascii) : ascii :=
  if is_lower c then ascii_of_nat (nat_of_ascii c - 32) else c.

(** [s.lower()] *)
Fixpoint lower (s : string) : string :=
  match s with
  | EmptyString => EmptyString
  | String c s' => String (lower_char c) (lower s')
  end.

(** [s.upper()] *)
Fixpoint upper (s : string) : string :=
  match s with
  | EmptyString => EmptyString
  | String c s' => String (upper_char c) (upper s')
  end.

(** [s.startswith(p)] *)
Fixpoint startswith (p s : string) : bool :=
  match p, s with
  | EmptyString, _ => true
  | String _ _, EmptyString => false
  | String a p', String b s' => if decide (a = b) then startswith p' s' else false
  end.

(** [needle in hay] for two strings: substring test. *)
Fixpoint contains (needle hay : string) : bool :=
  startswith needle hay ||
  match hay with
  | EmptyString => false
  | String _ hay' => contains needle hay'
  end.

(** [s.replace(old, new)] for a non-empty [old]: occurrences are found
    left to right and do not overlap.  [skip] counts the characters of
    the occurrence just replaced that are still to be dropped. *)
Fixpoint replace_scan (old new s : string) (skip : nat) : string :=
  match s with
  | EmptyString => EmptyString
  | String c s' =>
      match skip with
      | S k => replace_scan old new s' k
      | O =>
          if startswith old s
          then new +:+ replace_scan old new s' (String.length old - 1)
          else String c (replace_scan old new s' 0)
      end
  end.

(** [s.replace("", new)]: [new] is inserted before every character and
    at the end. *)
Fixpoint intersperse (new s : string) : string :=
  match s with
  | EmptyString => new
  | String c s' => new +:+ String c (intersperse new s')
  end.

Definition replace (old new s : string) : string :=
  match old with
  | EmptyString => intersperse new s
  | String _ _ => replace_scan old new s 0
  end.

(** [s[0]]: indexing the first character; [None] stands for the
    [IndexError] Python raises on the empty string. *)
Definition first_char (s : string) : option ascii :=
  match s with
  | EmptyString => None
  | String c _ => Some c
  end.

(** [s[1:]]: never raises. *)
Definition tail (s : string) : string :=
  match s with
  | EmptyString => EmptyString
  | String _ s' => s'
  end.

Definition all_chars (p : ascii -> bool) : string -> bool :=
  fix go s :=
    match s with
    | EmptyString => true
    | String c s' => p c && go s'
    end.

(** [$] without MULTILINE also matches just before a final newline:
    [chomp] removes that one newline, if any. *)
Fixpoint chomp (s : string) : string :=
  match s with
  | EmptyString => EmptyString
  | String c s' =>
      match s' with
      | EmptyString => if decide (c = "010"%char) then EmptyString else s
      | String _ _ => String c (chomp s')
      end
  end.

End PyStr.

(** ** Python values and exceptions *)

(** The values that occur in the parsed YAML document and in
    [template_params]: [None], booleans, strings and lists of strings. *)
Inductive pyval :=
  | PNone
  | PBool (b : bool)
  | PStr (s : string)
  | PList (l : list string).

Global Instance pyval_eq_dec : EqDecision pyval.
Proof. solve_decision. Defined.

(** The exception classes the module raises, catches or lets through.
    [ConnectionError] is the builtin class named in the [except] clause of
    [download_pipeline_logo]; [RequestException] stands for the classes of
    [requests.exceptions] (its [ConnectionError], [Timeout], ...), which
    derive from [IOError] and are not subclasses of the builtin
    [ConnectionError]; [TemplateError] stands for the errors of the
    template engine. *)
Inductive exn :=
  | KeyError (key : string)
  | IndexError
  | AttributeError
  | TypeError
  | UnicodeDecodeError
  | UserWarning
  | ConnectionError
  | RequestException
  | OSError
  | YAMLError
  | TemplateError
  | SystemExit (code : Z)
  | KeyboardInterrupt.

Global Instance exn_eq_dec : EqDecision exn.
Proof. solve_decision. Defined.

(** [isinstance(e, Exception)]: [SystemExit] and [KeyboardInterrupt]
    derive from [BaseException] only. *)
Definition is_Exception (e : exn) : bool :=
  match e with
  | SystemExit _ | KeyboardInterrupt => false
  | _ => true
  end.

Inductive res (A : Type) :=
  | Ok (a : A)
  | Raise (e : exn).
Arguments Ok {A} a.
Arguments Raise {A} e.

(** [str(v)], as used by f-strings.  The [repr] of a list element is
    rendered with single quotes and no escaping. *)
Definition py_repr_str (s : string) : string := "'" +:+ s +:+ "'".

Fixpoint py_join (sep : string) (l : list string) : string :=
  match l with
  | [] => ""
  | [x] => x
  | x :: l' => x +:+ sep +:+ py_join sep l'
  end.

Definition py_str (v : pyval) : string :=
  match v with
  | PNone => "None"
  | PBool true => "True"
  | PBool false => "False"
  | PStr s => s
  | PList l => "[" +:+ py_join ", " (py_repr_str <$> l) +:+ "]"
  end.

(** ** Paths ([os.path], POSIX flavour) *)
Module Path.

Definition is_slash (c : ascii) : bool := bool_decide (c = "/"%char).

(** [os.path.join(a, b)] *)
Definition endswith_slash : string -> bool :=
  fix go s :=
    match s with
    | EmptyString => false
    | String c EmptyString => is_slash c
    | String _ s' => go s'
    end.

Definition join (a b : string) : string :=
  if PyStr.startswith "/" b then b
  else if bool_decide (a = "") || endswith_slash a then a +:+ b
  else a +:+ "/" +:+ b.

(** [p[:p.rfind("/") + 1]] *)
Fixpoint head (p : string) : string :=
  match p with
  | EmptyString => EmptyString
  | String c p' =>
      if PyStr.contains "/" p' then String c (head p')
      else if is_slash c then "/" else EmptyString
  end.

(** [s.rstrip("/")] *)
Fixpoint rstrip_slash (s : string) : string :=
  match s with
  | EmptyString => EmptyString
  | String c s' =>
      match rstrip_slash s' with
      | EmptyString => if is_slash c then EmptyString else String c EmptyString
      | r => String c r
      end
  end.

(** [os.path.dirname(p)] *)
Definition dirname (p : string) : string :=
  let h := head p in
  if PyStr.all_chars is_slash h then h else rstrip_slash h.

(** The chain [dirname p], [dirname (dirname p)], ... up to, and not
    including, the empty path or the root. *)
Fixpoint parents_fuel (fuel : nat) (p : string) : list string :=
  match fuel with
  | O => []
  | S n =>
      let d := dirname p in
      if PyStr.all_chars is_slash d then [] else d :: parents_fuel n d
  end.

Definition parents (p : string) : list string :=
  parents_fuel (String.length p) p.

End Path.

(** ** The outside world *)

Inductive level := DEBUG | INFO | WARNING | ERROR.

(** What a run does that can be observed from outside, in order: log
    records, questions put to the user, sleeps and HTTP requests. *)
Inductive event :=
  | Log (l : level) (msg : string)
  | Ask (question : string)
  | Sleep (secs : Z)
  | HttpGet (url : string).

Global Instance level_eq_dec : EqDecision level.
Proof. solve_decision. Defined.
Global Instance event_eq_dec : EqDecision event.
Proof. solve_decision. Defined.

(** A regular file: its bytes and its permission bits. *)
Record file := File { f_content : string; f_mode : Z }.

Inductive node :=
  | NDir
  | NFile (f : file).

(** An entry of the template tree as [glob] returns it: the path relative
    to the template directory, and for a file its bytes and [st_mode]. *)
Inductive tnode :=
  | TDir
  | TFile (content : string) (st_mode : Z).

(** Outcome of [env.get_template(template_fn).render(object_attrs)]: the
    rendered text, or one of the exceptions the [except] clauses of
    [render_template] tell apart (the last stands for every other subclass
    of [Exception], e.g. a template syntax error). *)
Inductive render_result :=
  | Rendered (text : string)
  | RenderAttributeError
  | RenderUnicodeDecodeError
  | RenderOtherException.

(** Outcome of [requests.get(url, timeout=180)]. *)
Inductive http_result :=
  | Response (status_code : Z) (content : string)
  | HttpRaise (e : exn).

(** The mutable part: the file system outside the template tree, the
    answers the user will still type, how many random numbers and HTTP
    requests were consumed, and the events so far (oldest first). *)
Record world := World {
  w_fs : gmap string node;
  w_texts : list string;
  w_confirms : list bool;
  w_checkboxes : list (list string);
  w_draws : nat;
  w_requests : nat;
  w_trace : list event;
}.

(** The fixed part: what the module reads from its collaborators.
    [is_file_binary] is [nf_core.utils.is_file_binary] and [nf_core_version]
    is [nf_core.__version__]; neither is defined in create.py.
    [template_tree] is the result of [glob("**/*")] on the template
    directory, with paths relative to it.  [yaml_safe_load path] is
    [yaml.safe_load(open(path))], a mapping when it succeeds.
    [random_source k] is the entropy behind the [k]-th call of
    [random.randint], and [requests_get url k] the answer to the [k]-th
    request of the run. *)
Record env := Env {
  nf_core_version : string;
  cwd : string;
  template_dir : string;
  template_tree : list (string * tnode);
  is_file_binary : string -> bool;
  jinja_render : string -> gmap string pyval -> render_result;
  yaml_safe_load : string -> res (gmap string pyval);
  new_file_mode : Z;
  random_source : nat -> Z;
  requests_get : string -> nat -> http_result;
}.

(** ** The state-and-exception monad *)

Definition M (A : Type) : Type := world -> res A * world.

Definition ret {A} (a : A) : M A := fun w => (Ok a, w).

Definition bind {A B} (m : M A) (k : A -> M B) : M B :=
  fun w =>
    match m w with
    | (Ok a, w') => k a w'
    | (Raise e, w') => (Raise e, w')
    end.

Definition raise {A} (e : exn) : M A := fun w => (Raise e, w).

Definition lift {A} (r : res A) : M A := fun w => (r, w).

(** [try: m except <classes accepted by handles>: handler] *)
Definition try_except {A} (m : M A) (handles : exn -> bool) (handler : exn -> M A) : M A :=
  fun w =>
    match m w with
    | (Ok a, w') => (Ok a, w')
    | (Raise e, w') => if handles e then handler e w' else (Raise e, w')
    end.

Declare Scope py_scope.
Delimit Scope py_scope with py.
Notation "x <- m ;; k" := (bind m (fun x => k))
  (at level 100, m at next level, right associativity) : py_scope.
Notation "m ;;; k" := (bind m (fun _ => k))
  (at level 100, right associativity) : py_scope.
Open Scope py_scope.

Definition emit (e : event) : M unit :=
  fun w => (Ok tt, World (w_fs w) (w_texts w) (w_confirms w) (w_checkboxes w)
                         (w_draws w) (w_requests w) (w_trace w ++ [e])).

Definition log (l : level) (msg : string) : M unit := emit (Log l msg).

Definition get_fs : M (gmap string node) := fun w => (Ok (w_fs w), w).

Definition set_fs (fs : gmap string node) : M unit :=
  fun w => (Ok tt, World fs (w_texts w) (w_confirms w) (w_checkboxes w)
                         (w_draws w) (w_requests w) (w_trace w)).

(** [questionary.text(q).unsafe_ask()]: the next typed answer; when the
    user has no answer left the session is interrupted. *)
Definition ask_text (q : string) : M string :=
  emit (Ask q) ;;;
  fun w =>
    match w_texts w with
    | [] => (Raise KeyboardInterrupt, w)
    | a :: rest =>
        (Ok a, World (w_fs w) rest (w_confirms w) (w_checkboxes w)
                     (w_draws w) (w_requests w) (w_trace w))
    end.

(** [questionary.confirm(q).unsafe_ask()] *)
Definition ask_confirm (q : string) : M bool :=
  emit (Ask q) ;;;
  fun w =>
    match w_confirms w with
    | [] => (Raise KeyboardInterrupt, w)
    | a :: rest =>
        (Ok a, World (w_fs w) (w_texts w) rest (w_checkboxes w)
                     (w_draws w) (w_requests w) (w_trace w))
    end.

(** [questionary.checkbox(q, choices).unsafe_ask()]: the values of the
    choices ticked; a choice is a label and a value. *)
Definition ask_checkbox (q : string) (choices : list (string * string)) : M (list string) :=
  emit (Ask q) ;;;
  fun w =>
    match w_checkboxes w with
    | [] => (Raise KeyboardInterrupt, w)
    | a :: rest =>
        (Ok (filter (fun v => v ∈ choices.*2) a),
         World (w_fs w) (w_texts w) (w_confirms w) rest
               (w_draws w) (w_requests w) (w_trace w))
    end.

(** ** File-system calls

    The calls are modelled on an output tree they succeed on: paths are
    not empty, no path is used both as a file and as a directory, and
    permission or disk errors do not occur.  The template tree is kept
    apart from this file system ([template_tree] in [env]): the run reads
    the one and writes the other. *)
Module Os.

Definition S_IMODE (m : Z) : Z := Z.land m 4095.

(** [os.path.exists(p)] *)
Definition exists_ (p : string) : M bool :=
  fs <- get_fs ;; ret (bool_decide (is_Some (fs !! p))).

Definition mkdir_missing (d : string) (fs : gmap string node) : gmap string node :=
  match fs !! d with
  | Some _ => fs
  | None => <[d := NDir]> fs
  end.

(** [os.makedirs(p)] and [os.makedirs(p, exist_ok=True)]: [p] and every
    missing parent become directories. *)
Definition makedirs (p : string) : M unit :=
  fs <- get_fs ;;
  set_fs (foldr mkdir_missing fs (p :: Path.parents p)).

(** [with open(p, "w") as fh: fh.write(text)] (and mode ["wb"]): an
    existing file keeps its permission bits, a new one gets the
    process default. *)
Definition write_file (new_mode : Z) (p : string) (text : string) : M unit :=
  fs <- get_fs ;;
  let mode :=
    match fs !! p with
    | Some (NFile f) => f_mode f
    | _ => new_mode
    end in
  set_fs (<[p := NFile (File text mode)]> fs).

(** [shutil.copy(src, dst)] for a template file: contents, then
    permission bits. *)
Definition copy (content : string) (st_mode : Z) (dst : string) : M unit :=
  fs <- get_fs ;;
  set_fs (<[dst := NFile (File content (S_IMODE st_mode))]> fs).

(** [os.chmod(p, mode)] *)
Definition chmod (p : string) (mode : Z) : M unit :=
  fs <- get_fs ;;
  match fs !! p with
  | Some (NFile f) => set_fs (<[p := NFile (File (f_content f) (S_IMODE mode))]> fs)
  | Some NDir => ret tt
  | None => raise OSError
  end.

End Os.

(** ** Parameter resolution: [create_param_dict] and its helpers *)

(** [re.match(r"^[a-z]+$", s)] *)
Definition match_wf_name (s : string) : bool :=
  let t := PyStr.chomp s in
  negb (bool_decide (t = "")) && PyStr.all_chars PyStr.is_lower t.

Definition is_prefix_head (c : ascii) : bool :=
  PyStr.is_lower c || PyStr.is_upper c || bool_decide (c = "_"%char).

Definition is_prefix_tail (c : ascii) : bool :=
  PyStr.is_lower c || PyStr.is_upper c || PyStr.is_digit c ||
  bool_decide (c = "-"%char) || bool_decide (c = "_"%char).

(** [re.match(r"^[a-zA-Z_][a-zA-Z0-9-_]*$", s)] *)
Definition match_prefix (s : string) : bool :=
  match PyStr.chomp s with
  | EmptyString => false
  | String c t => is_prefix_head c && PyStr.all_chars is_prefix_tail t
  end.

(** [str(p)] for an optional path, as an f-string prints it. *)
Definition path_str (p : option string) : string :=
  match p with
  | Some s => s
  | None => "None"
  end.

Definition of_option (o : option string) : pyval :=
  match o with
  | Some s => PStr s
  | None => PNone
  end.

(** [key in v] for a string [key]: membership in a list, substring of a
    string, [TypeError] on a value that is not iterable. *)
Definition py_in (key : string) (v : pyval) : res bool :=
  match v with
  | PList l => Ok (bool_decide (key ∈ l))
  | PStr s => Ok (PyStr.contains key s)
  | PNone | PBool _ => Raise TypeError
  end.

(** [d[key]] *)
Definition getitem (d : gmap string pyval) (key : string) : res pyval :=
  match d !! key with
  | Some v => Ok v
  | None => Raise (KeyError key)
  end.

(** The body of a [while not re.match(...)] prompt loop: [fuel] bounds the
    number of further questions; the callers pass the number of answers
    still to come, after which [ask_text] itself interrupts the run. *)
Fixpoint ask_until (valid : string -> bool) (err question : string)
    (fuel : nat) (answer : string) : M string :=
  if valid answer then ret answer
  else
    log ERROR err ;;;
    answer' <- ask_text question ;;
    match fuel with
    | O => raise KeyboardInterrupt
    | S n => ask_until valid err question n answer'
    end.

Definition pending_texts : M nat := fun w => (Ok (length (w_texts w)), w).

Definition prompt_wf_name : M string :=
  wf_name <- ask_text "Workflow name" ;;
  n <- pending_texts ;;
  ask_until match_wf_name
    "[red]Invalid workflow name: must be lowercase without punctuation."
    "Please provide a new workflow name" n wf_name.

Definition prompt_wf_description : M string := ask_text "Description".

Definition prompt_wf_author : M string := ask_text "Author".

(** [getattr(self, f"prompt_wf_{param_name}")()] *)
Definition prompt_wf (param_name : string) : M string :=
  if decide (param_name = "name") then prompt_wf_name
  else if decide (param_name = "description") then prompt_wf_description
  else if decide (param_name = "author") then prompt_wf_author
  else raise AttributeError.

Definition get_param (param_name : string) (passed_value : option string)
    (template_yaml : gmap string pyval) (template_yaml_path : option string) : M pyval :=
  passed_value <-
    (if bool_decide (is_Some (template_yaml !! param_name)) then
       (if passed_value is Some _ then
          log INFO ("overriding --" +:+ param_name +:+ " with name found in "
                    +:+ path_str template_yaml_path)
        else ret tt) ;;;
       lift (getitem template_yaml "name")
     else ret (of_option passed_value)) ;;
  match passed_value with
  | PNone => s <- prompt_wf param_name ;; ret (PStr s)
  | v => ret v
  end.

Definition template_areas : list (string * string) :=
  [("GitHub CI", "ci"); ("GitHub badges", "github_badges"); ("iGenomes config", "igenomes")].

Definition customize_template (template_areas : list (string * string))
    : M (gmap string pyval) :=
  prefix <- ask_text "Pipeline prefix" ;;
  n <- pending_texts ;;
  prefix <- ask_until match_prefix
    "[red]Pipeline prefix cannot start with digit or hyphen and cannot contain punctuation.[/red]"
    "Please provide a new pipeline prefix" n prefix ;;
  skip <- ask_checkbox "Skip template areas?" template_areas ;;
  ret (<["skip" := PList skip]> (<["prefix" := PStr prefix]> ∅)).

(** [.lower()] and [.replace()] are methods of [str] only. *)
Definition as_str (v : pyval) : res string :=
  match v with
  | PStr s => Ok s
  | _ => Raise AttributeError
  end.

Definition res_bind {A B} (r : res A) (k : A -> res B) : res B :=
  match r with
  | Ok a => k a
  | Raise e => Raise e
  end.

(** [for t_area_key in (t_area["value"] for t_area in template_areas):
    param_dict[t_area_key] = t_area_key not in template_yaml.get("skip", [])] *)
Definition set_areas (skip : pyval) (param_dict : gmap string pyval)
    : res (gmap string pyval) :=
  foldl (fun acc t_area_key =>
           res_bind acc (fun param_dict =>
           res_bind (py_in t_area_key skip) (fun skipped =>
           Ok (<[t_area_key := PBool (negb skipped)]> param_dict))))
        (Ok param_dict) (template_areas.*2).

(** Lines 101-118 of create.py: everything that is computed from the
    resolved fields, without any further interaction. *)
Definition derive_params (param_dict template_yaml : gmap string pyval)
    (version : pyval) : res (gmap string pyval) :=
  let prefix := default (PStr "nf-core") (template_yaml !! "prefix") in
  let param_dict := <["prefix" := prefix]> param_dict in
  let param_dict := <["skip" := PList []]> param_dict in
  let skip := default (PList []) (template_yaml !! "skip") in
  res_bind (set_areas skip param_dict) (fun param_dict =>
  res_bind (getitem param_dict "name") (fun name =>
  res_bind (as_str name) (fun name =>
  let short_name :=
    PyStr.replace "/" "-"
      (PyStr.replace (py_str prefix +:+ "/") ""
         (PyStr.replace "/\s+/" "-" (PyStr.lower name))) in
  let param_dict := <["short_name" := PStr short_name]> param_dict in
  let name := py_str prefix +:+ "/" +:+ short_name in
  let param_dict := <["name" := PStr name]> param_dict in
  let name_noslash := PyStr.replace "/" "-" name in
  let param_dict := <["name_noslash" := PStr name_noslash]> param_dict in
  res_bind (as_str prefix) (fun prefix_s =>
  let prefix_nodash := PyStr.replace "-" "" prefix_s in
  let param_dict := <["prefix_nodash" := PStr prefix_nodash]> param_dict in
  let param_dict := <["name_docker" := PStr (PyStr.replace prefix_s prefix_nodash name)]> param_dict in
  let param_dict := <["logo_light" := PStr (name_noslash +:+ "_logo_light.png")]> param_dict in
  let param_dict := <["logo_dark" := PStr (name_noslash +:+ "_logo_dark.png")]> param_dict in
  let param_dict := <["version" := version]> param_dict in
  let param_dict := <["branded" := PBool (bool_decide (prefix = PStr "nf-core"))]> param_dict in
  Ok param_dict)))).

Section Resolver.

Variable E : env.

Definition create_param_dict (name description author version : option string)
    (outdir template_yaml_path : option string) : M (gmap string pyval) :=
  template_yaml <-
    match template_yaml_path with
    | Some p => lift (yaml_safe_load E p)
    | None => ret ∅
    end ;;
  name <- get_param "name" name template_yaml template_yaml_path ;;
  description <- get_param "description" description template_yaml template_yaml_path ;;
  author <- get_param "author" author template_yaml template_yaml_path ;;
  let param_dict : gmap string pyval :=
    <["author" := author]> (<["description" := description]> (<["name" := name]> ∅)) in
  version <-
    (if bool_decide (is_Some (template_yaml !! "version")) then
       (if version is Some _ then
          log INFO ("Overriding --version with version found in "
                    +:+ path_str template_yaml_path)
        else ret tt) ;;;
       lift (getitem template_yaml "version")
     else ret (of_option version)) ;;
  let param_dict := <["version" := version]> param_dict in
  template_yaml <-
    match template_yaml_path with
    | None =>
        customize <- ask_confirm "Do you want to customize which parts of the template are used?" ;;
        if customize : bool then
          chosen <- customize_template template_areas ;;
          ret (chosen ∪ template_yaml)
        else ret template_yaml
    | Some _ => ret template_yaml
    end ;;
  lift (derive_params param_dict template_yaml version).

Record PipelineCreate := Self {
  template_params : gmap string pyval;
  no_git : bool;
  force : bool;
  outdir : string;
}.

(** [PipelineCreate.__init__] *)
Definition init (name description author version : option string)
    (no_git force : bool) (outdir template_yaml_path : option string) : M PipelineCreate :=
  params <- create_param_dict name description author version outdir template_yaml_path ;;
  outdir <-
    match outdir with
    | None =>
        name_noslash <- lift (getitem params "name_noslash") ;;
        ret (Path.join (cwd E) (py_str name_noslash))
    | Some o => ret o
    end ;;
  ret (Self params no_git force outdir).

End Resolver.

(** ** Observing a run *)

Definition result_of {A} (m : M A) (w : world) : res A := (m w).1.
Definition world_after {A} (m : M A) (w : world) : world := (m w).2.

(** The events a computation adds are those after the ones already there. *)
Definition new_events {A} (m : M A) (w : world) : list event :=
  drop (length (w_trace w)) (w_trace (world_after m w)).

Definition is_get (e : event) : bool :=
  match e with
  | HttpGet _ => true
  | _ => false
  end.

(** Number of HTTP requests in a trace. *)
Fixpoint count_gets (tr : list event) : nat :=
  match tr with
  | [] => 0
  | e :: tr' => ((if is_get e then 1 else 0) + count_gets tr')%nat
  end.

(** For every HTTP request of a trace, in order: the sleep that precedes
    it since the previous request, if there is one.  [pending] is the
    sleep seen since the last request. *)
Fixpoint sleeps_before_gets (pending : option Z) (tr : list event) : list (option Z) :=
  match tr with
  | [] => []
  | Sleep secs :: tr' => sleeps_before_gets (Some secs) tr'
  | HttpGet _ :: tr' => pending :: sleeps_before_gets None tr'
  | _ :: tr' => sleeps_before_gets pending tr'
  end.

(** ** Materialization: [render_template] *)

Fixpoint for_each {A} (l : list A) (body : A -> M unit) : M unit :=
  match l with
  | [] => ret tt
  | x :: l' => body x ;;; for_each l' body
  end.

Definition ignore_strs : list string :=
  [".pyc"; "__pycache__"; ".pyo"; ".pyd"; ".DS_Store"; ".egg"].

Definition skippable_paths : list (string * string) :=
  [("ci", ".github/workflows/"); ("igenomes", "conf/igenomes.config")].

(** [v[0].upper()] followed by [v[1:]], inside an f-string. *)
Definition capitalized (v : pyval) : res string :=
  match v with
  | PStr s =>
      match PyStr.first_char s with
      | Some c => Ok (String (PyStr.upper_char c) (PyStr.tail s))
      | None => Raise IndexError
      end
  | PList [] => Raise IndexError
  | PList (x :: l) => Ok (PyStr.upper x +:+ py_str (PList l))
  | PNone | PBool _ => Raise TypeError
  end.

(** The dict literal [rename_files] of [render_template]. *)
Definition rename_files (params : gmap string pyval) : res (gmap string string) :=
  res_bind (getitem params "short_name") (fun short_name =>
  let workflow := "workflows/" +:+ py_str short_name +:+ ".nf" in
  res_bind (capitalized short_name) (fun cap =>
  let lib := "lib/Workflow" +:+ cap +:+ ".groovy" in
  Ok (<["lib/WorkflowPipeline.groovy" := lib]>
      (<["workflows/pipeline.nf" := workflow]> ∅)))).

Definition png_magic : string :=
  String "137" ("PNG" +:+ String "013" (String "010" (String "026" (String "010" "")))).

Definition max_attempts : Z := 10.

Section Materializer.

Variable E : env.

(** [list(glob("**/*")) + list(glob("*"))]: every entry of the tree,
    then the top-level entries once more. *)
Definition template_files : list (string * tnode) :=
  template_tree E ++ filter (fun e => negb (PyStr.contains "/" e.1)) (template_tree E).

Definition output_path_of (outdir : string) (renames : gmap string string)
    (template_fn : string) : string :=
  match renames !! template_fn with
  | Some renamed => Path.join outdir renamed
  | None => Path.join outdir template_fn
  end.

(** The [try] block of the loop body. *)
Definition render_to (template_fn template_fn_path output_path : string)
    (object_attrs : gmap string pyval) : M unit :=
  (if is_file_binary E template_fn_path then raise AttributeError else ret tt) ;;;
  log DEBUG ("Rendering template file: '" +:+ template_fn +:+ "'") ;;;
  rendered_output <-
    match jinja_render E template_fn object_attrs with
    | Rendered text => ret text
    | RenderAttributeError => raise AttributeError
    | RenderUnicodeDecodeError => raise UnicodeDecodeError
    | RenderOtherException => raise TemplateError
    end ;;
  log DEBUG ("Writing to output file: '" +:+ output_path +:+ "'") ;;;
  Os.write_file (new_file_mode E) output_path rendered_output.

(** The two [except] clauses of the loop body.  The source appends the
    text of the exception to either message; exceptions carry no text
    here. *)
Definition copy_instead (content : string) (st_mode : Z) (output_path : string)
    (e : exn) : M unit :=
  match e with
  | AttributeError | UnicodeDecodeError =>
      log DEBUG ("Copying file without Jinja: '" +:+ output_path +:+ "'") ;;;
      Os.copy content st_mode output_path
  | _ =>
      log ERROR ("Copying raw file as error rendering with Jinja: '" +:+ output_path +:+ "'") ;;;
      Os.copy content st_mode output_path
  end.

(** One iteration of [for template_fn_path_obj in template_files]. *)
Definition process_entry (outdir : string) (object_attrs : gmap string pyval)
    (renames : gmap string string) (entry : string * tnode) : M unit :=
  let template_fn := entry.1 in
  let template_fn_path := Path.join (template_dir E) template_fn in
  match entry.2 with
  | TDir => ret tt
  | TFile content st_mode =>
      if existsb (fun s => PyStr.contains s template_fn_path) ignore_strs then
        log DEBUG ("Ignoring '" +:+ template_fn_path +:+ "' in jinja2 template creation")
      else
        let output_path := output_path_of outdir renames template_fn in
        Os.makedirs (Path.dirname output_path) ;;;
        try_except
          (render_to template_fn template_fn_path output_path object_attrs)
          is_Exception
          (copy_instead content st_mode output_path) ;;;
        Os.chmod output_path st_mode
  end.

Definition randint (a b : Z) : M Z :=
  fun w => (Ok (a + random_source E (w_draws w) mod (b - a + 1)),
            World (w_fs w) (w_texts w) (w_confirms w) (w_checkboxes w)
                  (S (w_draws w)) (w_requests w) (w_trace w)).

Definition http_get (url : string) : M (Z * string) :=
  emit (HttpGet url) ;;;
  fun w =>
    let w' := World (w_fs w) (w_texts w) (w_confirms w) (w_checkboxes w)
                    (w_draws w) (S (w_requests w)) (w_trace w) in
    match requests_get E url (w_requests w) with
    | Response status_code content => (Ok (status_code, content), w')
    | HttpRaise e => (Raise e, w')
    end.

(** [imghdr.what(img_fn) == "png"] *)
Definition imghdr_is_png (img_fn : string) : M bool :=
  fs <- get_fs ;;
  match fs !! img_fn with
  | Some (NFile f) => ret (PyStr.startswith png_magic (f_content f))
  | _ => raise OSError
  end.

(** The [while attempt < max_attempts] loop of [download_pipeline_logo];
    [remaining] is [max_attempts - attempt].  [log.warning(e)] prints the
    text of the exception, for which ["request failed"] stands. *)
Fixpoint download_attempts (remaining : nat) (url img_fn : string)
    (attempt retry_delay : Z) : M unit :=
  match remaining with
  | O => ret tt
  | S remaining' =>
      (if 0 <? retry_delay then
         log INFO ("Waiting " +:+ pretty retry_delay +:+ " seconds before next image fetch attempt") ;;;
         emit (Sleep retry_delay)
       else ret tt) ;;;
      let attempt := attempt + 1 in
      r <- randint 1 100 ;;
      let retry_delay := r * attempt in
      log DEBUG ("Fetching logo '" +:+ img_fn +:+ "' (attempt " +:+ pretty attempt +:+ ")") ;;;
      fetched <-
        try_except
          (r <- http_get url ;;
           if bool_decide (r.1 ≠ 200) then raise UserWarning else ret (Some r.2))
          (fun e => bool_decide (e = ConnectionError ∨ e = UserWarning))
          (fun e =>
             log WARNING "request failed" ;;;
             log ERROR "Connection error - retrying" ;;;
             ret None) ;;
      match fetched with
      | None => download_attempts remaining' url img_fn attempt retry_delay
      | Some content =>
          Os.write_file (new_file_mode E) img_fn content ;;;
          is_png <- imghdr_is_png img_fn ;;
          if is_png : bool then ret tt
          else
            log ERROR "Logo from the website didn't look like an image" ;;;
            download_attempts remaining' url img_fn attempt retry_delay
      end
  end.

Definition download_pipeline_logo (url img_fn : string) : M unit :=
  Os.makedirs (Path.dirname img_fn) ;;;
  download_attempts (Z.to_nat max_attempts) url img_fn 0 0.

Definition make_pipeline_logo (self : PipelineCreate) : M unit :=
  let params := template_params self in
  short_name <- lift (getitem params "short_name") ;;
  let logo_url := "https://nf-co.re/logo/" +:+ py_str short_name +:+ "?theme=light" in
  log DEBUG ("Fetching logo from " +:+ logo_url) ;;;
  outdir_param <- lift (getitem params "outdir") ;;
  name_noslash <- lift (getitem params "name_noslash") ;;
  let email_logo_path :=
    py_str outdir_param +:+ "/assets/" +:+ py_str name_noslash +:+ "_logo_light.png" in
  download_pipeline_logo (logo_url +:+ "&w=400") email_logo_path ;;;
  for_each ["dark"; "light"] (fun theme =>
    let readme_logo_url := logo_url +:+ "?w=600&theme=" +:+ theme in
    outdir_param <- lift (getitem params "outdir") ;;
    name_noslash <- lift (getitem params "name_noslash") ;;
    let readme_logo_path :=
      py_str outdir_param +:+ "/docs/images/" +:+ py_str name_noslash
      +:+ "_logo_" +:+ theme +:+ ".png" in
    download_pipeline_logo readme_logo_url readme_logo_path).

(** [render_template] returns the object as the call leaves it:
    [object_attrs] is an alias of [self.template_params], so the
    assignment of [nf_core_version] is visible in the object. *)
Definition render_template (self : PipelineCreate) : M PipelineCreate :=
  name <- lift (getitem (template_params self) "name") ;;
  log INFO ("Creating new nf-core pipeline: '" +:+ py_str name +:+ "'") ;;;
  dest_exists <- Os.exists_ (outdir self) ;;
  (if dest_exists : bool then
     if force self then
       outdir_param <- lift (getitem (template_params self) "outdir") ;;
       log WARNING ("Output directory '" +:+ py_str outdir_param
                    +:+ "' exists - continuing as --force specified")
     else
       outdir_param <- lift (getitem (template_params self) "outdir") ;;
       log ERROR ("Output directory '" +:+ py_str outdir_param +:+ "' exists!") ;;;
       log INFO "Use -f / --force to overwrite existing files" ;;;
       raise (SystemExit 1)
   else Os.makedirs (outdir self)) ;;;
  let object_attrs := <["nf_core_version" := PStr (nf_core_version E)]> (template_params self) in
  let self := Self object_attrs (no_git self) (force self) (outdir self) in
  let template_files := template_files in
  renames <- lift (rename_files (template_params self)) ;;
  let skippable_paths := skippable_paths in
  for_each template_files (process_entry (outdir self) object_attrs renames) ;;;
  make_pipeline_logo self ;;;
  ret self.

(** ** Vocabulary of the properties *)

Definition ignored (template_fn : string) : bool :=
  existsb (fun s => PyStr.contains s (Path.join (template_dir E) template_fn)) ignore_strs.

Definition fallback_logged (output_path : string) (tr : list event) : Prop :=
  Log DEBUG ("Copying file without Jinja: '" +:+ output_path +:+ "'") ∈ tr ∨
  Log ERROR ("Copying raw file as error rendering with Jinja: '" +:+ output_path +:+ "'") ∈ tr.

Definition retried (e : exn) : bool :=
  bool_decide (e = ConnectionError ∨ e = UserWarning).

(** How an attempt ends, read off the answer of the endpoint. *)
Inductive attempt_outcome :=
  | Succeeds
  | Retries
  | Escapes (e : exn).

Definition outcome_of (r : http_result) : attempt_outcome :=
  match r with
  | HttpRaise e => if retried e then Retries else Escapes e
  | Response status_code content =>
      if bool_decide (status_code ≠ 200) then Retries
      else if PyStr.startswith png_magic content then Succeeds
      else Retries
  end.

(** The value [random.randint(1, 100)] takes at the [k]-th draw. *)
Definition draw (k : nat) : Z := 1 + random_source E k mod 100.

Definition attempt_events (url img_fn : string) (attempt retry_delay : Z)
    (r : http_result) : list event :=
  (if 0 <? retry_delay then
     [Log INFO ("Waiting " +:+ pretty retry_delay +:+ " seconds before next image fetch attempt");
      Sleep retry_delay]
   else []) ++
  [Log DEBUG ("Fetching logo '" +:+ img_fn +:+ "' (attempt " +:+ pretty (attempt + 1) +:+ ")");
   HttpGet url] ++
  match r with
  | HttpRaise e =>
      if retried e then [Log WARNING "request failed"; Log ERROR "Connection error - retrying"]
      else []
  | Response status_code content =>
      if bool_decide (status_code ≠ 200)
      then [Log WARNING "request failed"; Log ERROR "Connection error - retrying"]
      else if PyStr.startswith png_magic content then []
      else [Log ERROR "Logo from the website didn't look like an image"]
  end.

Definition attempt_fs (img_fn : string) (r : http_result)
    (fs : gmap string node) : gmap string node :=
  match r with
  | HttpRaise _ => fs
  | Response status_code content =>
      if bool_decide (status_code ≠ 200) then fs
      else
        <[img_fn := NFile (File content
                             match fs !! img_fn with
                             | Some (NFile f) => f_mode f
                             | _ => new_file_mode E
                             end)]> fs
  end.

Definition after_attempt (url img_fn : string) (attempt retry_delay : Z) (w : world) : world :=
  let r := requests_get E url (w_requests w) in
  World (attempt_fs img_fn r (w_fs w)) (w_texts w) (w_confirms w) (w_checkboxes w)
        (S (w_draws w)) (S (w_requests w))
        (w_trace w ++ attempt_events url img_fn attempt retry_delay r).

(** The sleeps the loop is expected to make before its [m] next
    requests: [first] before the next one, then the delay computed in
    each attempt before the attempt that follows it. *)
Fixpoint expected_sleeps (d : nat) (attempt : Z) (first : option Z) (m : nat) : list (option Z) :=
  match m with
  | O => []
  | S m' => first :: expected_sleeps (S d) (attempt + 1) (Some (draw d * (attempt + 1))) m'
  end.

(** [render_template] from the line after the output-directory check
    to its end. *)
Definition walk_and_logos (self : PipelineCreate) : M PipelineCreate :=
  let object_attrs := <["nf_core_version" := PStr (nf_core_version E)]> (template_params self) in
  let self := Self object_attrs (no_git self) (force self) (outdir self) in
  renames <- lift (rename_files (template_params self)) ;;
  for_each template_files (process_entry (outdir self) object_attrs renames) ;;;
  make_pipeline_logo self ;;;
  ret self.

Definition with_fs (fs : gmap string node) (w : world) : world :=
  World fs (w_texts w) (w_confirms w) (w_checkboxes w) (w_draws w) (w_requests w) (w_trace w).

Definition with_events (tr : list event) (w : world) : world :=
  World (w_fs w) (w_texts w) (w_confirms w) (w_checkboxes w) (w_draws w) (w_requests w)
        (w_trace w ++ tr).


(** A computation leaves every existing regular file as it is and creates
    none. *)
Definition same_files (fs fs' : gmap string node) : Prop :=
  forall p f, fs' !! p = Some (NFile f) <-> fs !! p = Some (NFile f).

End Materializer.

(** [entry] is a regular file of the template that the loop writes to
    [output_path]. *)
Definition emitted_to (E : env) (outdir : string) (renames : gmap string string)
    (output_path : string) (entry : string * tnode) : bool :=
  match entry.2 with
  | TDir => false
  | TFile _ _ =>
      negb (ignored E entry.1) &&
      bool_decide (output_path_of outdir renames entry.1 = output_path)
  end.

(** The [st_mode] of the last entry of [entries] written to
    [output_path], if any is. *)
Fixpoint last_st_mode (E : env) (outdir : string) (renames : gmap string string)
    (output_path : string) (entries : list (string * tnode)) : option Z :=
  match entries with
  | [] => None
  | entry :: entries' =>
      match last_st_mode E outdir renames output_path entries' with
      | Some m => Some m
      | None =>
          if emitted_to E outdir renames output_path entry then
            match entry.2 with
            | TFile _ st_mode => Some st_mode
            | TDir => None
            end
          else None
      end
  end.

(** ** The remaining methods: [init_pipeline] and [git_init_pipeline]

    The calls into GitPython are taken as they come: each is a
    computation on the world, given the path of the repository. *)
Record git_lib := GitLib {
  repo_init : string -> M unit;
  git_add_all : string -> M unit;
  index_commit : string -> string -> M unit;
  git_branch : string -> string -> M unit;
}.

Definition nl : string := String "010" "".

Section Pipeline.

Variable E : env.
Variable G : git_lib.

Definition git_init_pipeline (self : PipelineCreate) : M unit :=
  log INFO "Initialising pipeline git repository" ;;;
  repo_init G (outdir self) ;;;
  git_add_all G (outdir self) ;;;
  index_commit G (outdir self)
    ("initial template build from nf-core/tools, version " +:+ nf_core_version E) ;;;
  git_branch G (outdir self) "TEMPLATE" ;;;
  git_branch G (outdir self) "dev" ;;;
  outdir_param <- lift (getitem (template_params self) "outdir") ;;
  log INFO ("Done. Remember to add a remote and push to GitHub:" +:+ nl
            +:+ "[white on grey23] cd " +:+ py_str outdir_param +:+ " " +:+ nl
            +:+ " git remote add origin git@github.com:USERNAME/REPO_NAME.git " +:+ nl
            +:+ " git push --all origin                                       ") ;;;
  log INFO "This will also push your newly created dev branch and the TEMPLATE branch for syncing.".

Definition init_pipeline (self : PipelineCreate) : M unit :=
  self <- render_template E self ;;
  (if no_git self then ret tt else git_init_pipeline self) ;;;
  log INFO ("[green bold]!!!!!! IMPORTANT !!!!!!" +:+ nl +:+ nl
            +:+ "[green not bold]If you are interested in adding your pipeline to the nf-core community," +:+ nl
            +:+ "PLEASE COME AND TALK TO US IN THE NF-CORE SLACK BEFORE WRITING ANY CODE!" +:+ nl +:+ nl
            +:+ "[default]Please read: [link=https://nf-co.re/developers/adding_pipelines#join-the-community]https://nf-co.re/developers/adding_pipelines#join-the-community[/link]").

End Pipeline.

(** ** More vocabulary *)

(** The answers left once the first one accepted by [valid] is read. *)
Fixpoint after_first_valid (valid : string -> bool) (answers : list string) : list string :=
  match answers with
  | [] => []
  | a :: rest => if valid a then rest else after_first_valid valid rest
  end.

(** What a prompt loop returns on the answers to come. *)
Definition first_valid (valid : string -> bool) (answers : list string) : res string :=
  match List.find valid answers with
  | Some a => Ok a
  | None => Raise KeyboardInterrupt
  end.

(** [s] has no ["-"]. *)
Definition no_hyphen (s : string) : bool :=
  PyStr.all_chars (fun c => negb (bool_decide (c = "-"%char))) s.

(** The seconds slept in a trace. *)
Fixpoint total_sleep (tr : list event) : Z :=
  match tr with
  | [] => 0
  | Sleep secs :: tr' => secs + total_sleep tr'
  | _ :: tr' => total_sleep tr'
  end.

(** The most the loop can still sleep after the pending delay, with
    [remaining] attempts to go after attempt number [attempt]: the delay
    computed in the last attempt is never slept. *)
Fixpoint sleep_budget (remaining : nat) (attempt : Z) : Z :=
  match remaining with
  | O => 0
  | S remaining' =>
      match remaining' with
      | O => 0
      | S _ => 100 * (attempt + 1) + sleep_budget remaining' (attempt + 1)
      end
  end.

(** The URLs requested in a trace, in order. *)
Fixpoint gets_of (tr : list event) : list string :=
  match tr with
  | [] => []
  | HttpGet url :: tr' => url :: gets_of tr'
  | _ :: tr' => gets_of tr'
  end.


(** A computation only adds events to the trace, and no request among
    them. *)
Definition no_request {A} (m : M A) : Prop :=
  forall w, exists tr, w_trace (world_after m w) = w_trace w ++ tr /\ gets_of tr = [].

(** The longest sleep of a trace may take [bound] seconds. *)
Definition sleeps_within (bound : Z) (tr : list event) : Prop :=
  forall secs, Sleep secs ∈ tr -> 1 <= secs <= bound.




(** No call into the Git library raises. *)
Definition git_never_fails (G : git_lib) : Prop :=
  (forall p w, result_of (repo_init G p) w = Ok tt) /\
  (forall p w, result_of (git_add_all G p) w = Ok tt) /\
  (forall p msg w, result_of (index_commit G p msg) w = Ok tt) /\
  (forall p b w, result_of (git_branch G p b) w = Ok tt).

(** No question is put to the user in a trace. *)
Definition no_question (tr : list event) : Prop := forall q, Ask q ∉ tr.

(** A computation removes no path from the file system. *)
Definition paths_kept {A} (m : M A) : Prop :=
  forall w p, is_Some (w_fs w !! p) -> is_Some (w_fs (world_after m w) !! p).

(** A GitPython that does nothing. *)
Definition quiet_git : git_lib :=
  GitLib (fun _ => ret tt) (fun _ => ret tt) (fun _ _ => ret tt) (fun _ _ => ret tt).

(** The user types two names that are refused, then ["rnaseq"]. *)
Definition world_typing : world :=
  World ∅ ["RNAseq"; "rna-seq"; "rnaseq"; "left over"] [true] [["ci"; "docs"]] 0 0 [].

(** Every request is answered with a PNG. *)
Definition always_png : string -> nat -> http_result :=
  fun _ _ => Response 200 (png_magic +:+ "logo").

(** Every request is answered with a page that is not an image. *)
Definition always_html : string -> nat -> http_result :=
  fun _ k => Response 200 ("<html>" +:+ pretty (Z.of_nat k) +:+ "</html>").

(** ** Sample collaborators and inputs

    A small template tree, a YAML document that skips two areas, and a
    few endpoints, for running the model. *)

Definition sample_tree : list (string * tnode) :=
  [(".github", TDir);
   (".github/workflows", TDir);
   (".github/workflows/ci.yml", TFile "name: {{ name }} CI" 33188);
   ("conf", TDir);
   ("conf/igenomes.config", TFile "params { genomes { } }" 33188);
   ("workflows", TDir);
   ("workflows/pipeline.nf", TFile "workflow {{ short_name }} { }" 33261);
   ("assets", TDir);
   ("assets/sample.png", TFile png_magic 33188);
   ("README.md", TFile "# {{ name }}" 33188)].

Definition sample_yaml : gmap string pyval :=
  <["skip" := PList ["ci"; "igenomes"]]>
    (<["prefix" := PStr "acme"]>
       (<["author" := PStr "Ada"]>
          (<["description" := PStr "An analysis pipeline"]>
             (<["name" := PStr "foo"]> ∅)))).

(** A document that gives a description and no name. *)
Definition unnamed_yaml : gmap string pyval :=
  <["description" := PStr "An analysis pipeline"]> ∅.

(** A document that leaves the prefix at its default. *)
Definition plain_yaml : gmap string pyval :=
  <["name" := PStr "rnaseq"]> ∅.

Definition sample_env (endpoint : string -> nat -> http_result) : env :=
  {| nf_core_version := "2.5dev";
     cwd := "/home/ada";
     template_dir := "/site-packages/nf_core/pipeline-template";
     template_tree := sample_tree;
     is_file_binary := fun path => PyStr.contains ".png" path;
     jinja_render := fun template_fn attrs => Rendered ("<rendered " +:+ template_fn +:+ ">");
     yaml_safe_load := fun path =>
       if decide (path = "template.yml") then Ok sample_yaml
       else if decide (path = "plain.yml") then Ok plain_yaml
       else Raise OSError;
     new_file_mode := 420;
     random_source := fun _ => 0;
     requests_get := endpoint |}.

(** The endpoint cannot be reached: [requests] raises its own
    [ConnectionError]. *)
Definition unreachable : string -> nat -> http_result :=
  fun _ _ => HttpRaise RequestException.

Definition always_404 : string -> nat -> http_result :=
  fun _ _ => Response 404 "".

(** Three failures of three kinds, then a PNG. *)
Definition fourth_time_lucky : string -> nat -> http_result :=
  fun _ k =>
    match k with
    | 0%nat => Response 503 ""
    | 1%nat => HttpRaise ConnectionError
    | 2%nat => Response 200 "<html>not an image</html>"
    | _ => Response 200 (png_magic +:+ "logo")
    end.

Definition empty_world : world := World ∅ [] [] [] 0 0 [].

(** The directory ["out"] is already there. *)
Definition world_with_out : world := World (<["out" := NDir]> ∅) [] [] [] 0 0 [].

(** [PipelineCreate(None, None, None, outdir="out", force=force,
    template_yaml_path=path)] followed by [render_template()]. *)
Definition create_and_render (E : env) (force : bool) (path : string) : M PipelineCreate :=
  self <- init E None (Some "A pipeline") (Some "Ada") (Some "1.0dev") false force
            (Some "out") (Some path) ;;
  render_template E self.

(** The object [__init__] builds in [create_and_render], and the world it
    leaves. *)
Definition run_init (E : env) (force : bool) (path : string) (w : world)
    : res PipelineCreate * world :=
  init E None (Some "A pipeline") (Some "Ada") (Some "1.0dev") false force
    (Some "out") (Some path) w.

Definition built (E : env) (force : bool) (path : string) (w : world) : PipelineCreate :=
  match (run_init E force path w).1 with
  | Ok self => self
  | Raise _ => Self ∅ false force ""
  end.

(** An object whose [template_params] also hold ["outdir"], which
    [__init__] never stores. *)
Definition self_with_outdir : PipelineCreate :=
  Self (<["outdir" := PStr "out"]>
          (<["branded" := PBool false]>
             (<["prefix" := PStr "acme"]>
                (<["name_noslash" := PStr "acme-foo"]>
                   (<["short_name" := PStr "foo"]>
                      (<["name" := PStr "acme/foo"]> ∅))))))
       false false "out".

(** The user is asked whether to customize the template and declines. *)
Definition world_declining : world := World ∅ [] [false] [] 0 0 [].



(** [r] is a normal return. *)
Definition is_ok {A} (r : res A) : bool :=
  match r with
  | Ok _ => true
  | Raise _ => false
  end.

(** What [customize_template] returns on [world_typing]. *)
Definition typed_customization : gmap string pyval :=
  <["skip" := PList ["ci"]]> (<["prefix" := PStr "RNAseq"]> ∅).

(** The user asks to customize, types a prefix that is refused and one
    that is accepted, and ticks one area. *)
Definition world_customizing : world :=
  World ∅ ["9lives"; "acme"] [true] [["igenomes"; "docs"]] 0 0 [].

(** A GitPython whose every call fails. *)
Definition failing_git : git_lib :=
  GitLib (fun _ => raise OSError) (fun _ => raise OSError)
         (fun _ _ => raise OSError) (fun _ _ => raise OSError).

(** [self_with_outdir] created with [no_git]. *)
Definition self_no_git : PipelineCreate :=
  Self (template_params self_with_outdir) true false "out".

(** A file of the user's is in the destination. *)
Definition world_with_notes : world :=
  World (<["out/notes.txt" := NFile (File "keep me" 420)]> (<["out" := NDir]> ∅))
        [] [] [] 0 0 [].

(** [create_param_dict] for the document ["template.yml"]. *)
Definition run_with_document (E : env) : res (gmap string pyval) * world :=
  create_param_dict E None None None (Some "1.0dev") (Some "out") (Some "template.yml")
    empty_world.

(** [create_param_dict] for a name passed directly, on world [w]. *)
Definition run_with_name (E : env) (w : world) : res (gmap string pyval) * world :=
  create_param_dict E (Some "rnaseq") (Some "A pipeline") (Some "Ada") (Some "1.0dev")
    None None w.

Definition params_of (run : res (gmap string pyval) * world) : gmap string pyval :=
  match run.1 with
  | Ok params => params
  | Raise _ => ∅
  end.

(** [PipelineCreate("rnaseq", "A pipeline", "Ada")] by a user who
    declines to customize. *)
Definition init_default (E : env) : res PipelineCreate * world :=
  init E (Some "rnaseq") (Some "A pipeline") (Some "Ada") (Some "1.0dev") false false
    None None world_declining.

Definition self_default (E : env) : PipelineCreate :=
  match (init_default E).1 with
  | Ok self => self
  | Raise _ => Self ∅ false false ""
  end.


(** ** Two sentences of the specification, as they are written *)

(** "Before each attempt after the first, sleep for a backoff duration
    computed as random(1,100) * attempt_number", the attempt number being
    that of the attempt about to be made: entry [k] of the list of sleeps
    precedes attempt number [k + 1]. *)
Definition sleeps_as_specified (E : env) (url img_fn : string) (w : world) : Prop :=
  let sleeps := sleeps_before_gets None (new_events (download_pipeline_logo E url img_fn) w) in
  (forall x, sleeps !! 0%nat = Some x -> x = None) /\
  (forall (k : nat) x, (1 <= k)%nat -> sleeps !! k = Some x ->
     exists r, 1 <= r <= 100 /\ x = Some (r * Z.of_nat (k + 1))).


(** [s] has no ["/"]. *)
Definition no_slash (s : string) : bool :=
  PyStr.all_chars (fun c => negb (Path.is_slash c)) s.

(** * Properties *)

(** ** The string and path functions on examples *)

Example replace_ex1 : PyStr.replace "/" "-" "nf-core/rnaseq" = "nf-core-rnaseq".
Proof. reflexivity. Qed.

Example replace_ex2 : PyStr.replace "aa" "b" "aaaaa" = "bba".
Proof. reflexivity. Qed.

Example replace_ex3 : PyStr.replace "" "-" "abc" = "-a-b-c-".
Proof. reflexivity. Qed.

Example lower_ex : PyStr.lower "NF-Core/RNAseq" = "nf-core/rnaseq".
Proof. reflexivity. Qed.

Example chomp_ex : PyStr.chomp ("abc" +:+ String "010" "") = "abc".
Proof. reflexivity. Qed.

Example join_ex1 : Path.join "out" "workflows/pipeline.nf" = "out/workflows/pipeline.nf".
Proof. reflexivity. Qed.

Example join_ex2 : Path.join "out/" "a" = "out/a" /\ Path.join "out" "/a" = "/a".
Proof. split; reflexivity. Qed.

Example dirname_ex :
  Path.dirname "/a/b/c.txt" = "/a/b" /\ Path.dirname "c.txt" = "" /\
  Path.dirname "/c" = "/" /\ Path.dirname "a//b" = "a".
Proof. repeat split; reflexivity. Qed.

Example parents_ex : Path.parents "/tmp/x/out" = ["/tmp/x"; "/tmp"].
Proof. reflexivity. Qed.

(** ** Running a computation *)

Section MaterializerFacts.

Variable E : env.

(** What one iteration of the loop does to a regular file that is not
    ignored: it always completes, and leaves at the output path either
    the rendered text or the bytes of the template file, with the
    permission bits of the template file. *)
Lemma process_entry_file outdir attrs renames template_fn content st_mode w :
  ignored E template_fn = false ->
  let out := output_path_of outdir renames template_fn in
  let m := process_entry E outdir attrs renames (template_fn, TFile content st_mode) in
  let written :=
    if is_file_binary E (Path.join (template_dir E) template_fn) then content
    else match jinja_render E template_fn attrs with
         | Rendered text => text
         | _ => content
         end in
  result_of m w = Ok tt /\
  w_fs (world_after m w) =
    <[out := NFile (File written (Os.S_IMODE st_mode))]>
      (foldr Os.mkdir_missing (w_fs w) (Path.dirname out :: Path.parents (Path.dirname out))) /\
  (is_file_binary E (Path.join (template_dir E) template_fn) = true \/
   (forall text, jinja_render E template_fn attrs <> Rendered text) ->
   exists tr, w_trace (world_after m w) = w_trace w ++ tr /\ fallback_logged out tr).
Proof.
  intros Hign out m written. subst m written.
  unfold ignored in Hign.
  unfold result_of, world_after, process_entry. cbn [fst snd].
  rewrite Hign.
  fold out.
  unfold bind, Os.makedirs, try_except, render_to, bind, get_fs, set_fs. cbn.
  destruct (is_file_binary E (Path.join (template_dir E) template_fn)) eqn:Hbin; cbn.
  - unfold Os.chmod, bind, get_fs. cbn. rewrite lookup_insert_eq. cbn.
    rewrite insert_insert_eq. repeat split.
    intros _. eexists. split; [reflexivity|]. left. set_solver.
  - destruct (jinja_render E template_fn attrs) eqn:Hr; cbn;
      unfold Os.chmod, bind, get_fs; cbn; rewrite lookup_insert_eq; cbn;
      rewrite insert_insert_eq; (repeat split);
      try (intros [?|Hno]; [done | exfalso; by eapply Hno]);
      intros _; eexists; (split; [rewrite <- !app_assoc; reflexivity|]).
    + left. set_solver.
    + left. set_solver.
    + right. set_solver.
Qed.

(** The loop over the template files never raises. *)
Lemma process_entry_ok outdir attrs renames entry w :
  result_of (process_entry E outdir attrs renames entry) w = Ok tt.
Proof.
  destruct entry as [template_fn [|content st_mode]].
  - reflexivity.
  - destruct (ignored E template_fn) eqn:Hign.
    + unfold result_of, process_entry. cbn [fst snd].
      unfold ignored in Hign. rewrite Hign. reflexivity.
    + by apply process_entry_file.
Qed.

Lemma for_each_entries_ok outdir attrs renames entries w :
  result_of (for_each entries (process_entry E outdir attrs renames)) w = Ok tt.
Proof.
  revert w. induction entries as [|entry entries IH]; intros w; [reflexivity|].
  unfold result_of in *. cbn [for_each]. unfold bind at 1.
  pose proof (process_entry_ok outdir attrs renames entry w) as Hok.
  unfold result_of in Hok.
  destruct (process_entry E outdir attrs renames entry w) as [r w1].
  cbn in Hok. subst r. apply IH.
Qed.

(** *** One attempt of the download loop *)

Lemma download_attempts_step remaining url img_fn attempt retry_delay w :
  download_attempts E (S remaining) url img_fn attempt retry_delay w =
  let w' := after_attempt E url img_fn attempt retry_delay w in
  match outcome_of (requests_get E url (w_requests w)) with
  | Succeeds => (Ok tt, w')
  | Escapes e => (Raise e, w')
  | Retries =>
      download_attempts E remaining url img_fn (attempt + 1)
        (draw E (w_draws w) * (attempt + 1)) w'
  end.
Proof.
  cbn [download_attempts]. unfold after_attempt, attempt_events, attempt_fs, outcome_of, draw.
  unfold bind, try_except, http_get, randint, log, emit, bind, ret, raise,
    Os.write_file, imghdr_is_png, get_fs, set_fs, bind, ret.
  generalize (PyStr.startswith png_magic); intros is_png.
  destruct (0 <? retry_delay); cbn;
    (destruct (requests_get E url (w_requests w)) as [status_code content|e]; cbn;
     [ destruct (bool_decide (status_code ≠ 200)); cbn;
       [ rewrite <- ?app_assoc; reflexivity
       | rewrite lookup_insert_eq; cbn;
         destruct (is_png content); cbn;
         rewrite <- ?app_assoc; reflexivity ]
     | unfold retried; destruct (bool_decide (e = ConnectionError ∨ e = UserWarning)); cbn;
       rewrite <- ?app_assoc; reflexivity ]).
Qed.

Lemma count_gets_app tr1 tr2 : count_gets (tr1 ++ tr2) = (count_gets tr1 + count_gets tr2)%nat.
Proof. induction tr1 as [|e tr1 IH]; cbn; [reflexivity | rewrite IH; lia]. Qed.

Lemma count_gets_attempt url img_fn attempt retry_delay r :
  count_gets (attempt_events url img_fn attempt retry_delay r) = 1%nat.
Proof.
  unfold attempt_events. rewrite !count_gets_app.
  generalize (PyStr.startswith png_magic); intros is_png.
  destruct (0 <? retry_delay), r as [status_code content|e]; cbn;
    repeat case_match; reflexivity.
Qed.

Lemma after_attempt_requests url img_fn attempt retry_delay w :
  w_requests (after_attempt E url img_fn attempt retry_delay w) = S (w_requests w).
Proof. reflexivity. Qed.

Lemma after_attempt_draws url img_fn attempt retry_delay w :
  w_draws (after_attempt E url img_fn attempt retry_delay w) = S (w_draws w).
Proof. reflexivity. Qed.

(** As long as the endpoint keeps failing in a way the loop retries,
    the loop goes on: after [k] such attempts it is where it started,
    [k] requests later. *)
Lemma download_attempts_retries k : forall remaining url img_fn attempt retry_delay w,
  (forall i, (i < k)%nat -> outcome_of (requests_get E url (w_requests w + i)) = Retries) ->
  exists attempt' retry_delay' w',
    download_attempts E (k + remaining) url img_fn attempt retry_delay w =
      download_attempts E remaining url img_fn attempt' retry_delay' w' /\
    w_requests w' = (w_requests w + k)%nat /\
    exists tr, w_trace w' = w_trace w ++ tr /\ count_gets tr = k.
Proof.
  induction k as [|k IH]; intros remaining url img_fn attempt retry_delay w Hfail.
  - exists attempt, retry_delay, w. split; [reflexivity|]. split; [lia|].
    exists []. by rewrite app_nil_r.
  - cbn [Nat.add]. rewrite download_attempts_step. cbn zeta.
    rewrite <- (Nat.add_0_r (w_requests w)), (Hfail 0%nat) by lia.
    rewrite Nat.add_0_r.
    set (w1 := after_attempt E url img_fn attempt retry_delay w).
    destruct (IH remaining url img_fn (attempt + 1) (draw E (w_draws w) * (attempt + 1)) w1)
      as (attempt' & retry_delay' & w' & Heq & Hreq & tr & Htr & Hcount).
    { intros i Hi. subst w1. rewrite after_attempt_requests.
      replace (S (w_requests w) + i)%nat with (w_requests w + S i)%nat by lia.
      apply Hfail. lia. }
    exists attempt', retry_delay', w'. split; [exact Heq|].
    split; [rewrite Hreq; subst w1; rewrite after_attempt_requests; lia|].
    eexists. split.
    + rewrite Htr. subst w1. cbn [after_attempt w_trace]. rewrite <- app_assoc. reflexivity.
    + rewrite count_gets_app, count_gets_attempt, Hcount. reflexivity.
Qed.

(** The loop issues at most [remaining] requests, whatever the endpoint
    answers. *)
Lemma download_attempts_bound remaining : forall url img_fn attempt retry_delay w,
  exists tr,
    w_trace (world_after (download_attempts E remaining url img_fn attempt retry_delay) w)
      = w_trace w ++ tr /\
    (count_gets tr <= remaining)%nat.
Proof.
  induction remaining as [|remaining IH]; intros url img_fn attempt retry_delay w.
  - exists []. split; [by rewrite app_nil_r | cbn; lia].
  - unfold world_after. rewrite download_attempts_step. cbn zeta.
    set (w1 := after_attempt E url img_fn attempt retry_delay w).
    assert (Hone : exists tr, w_trace w1 = w_trace w ++ tr /\ count_gets tr = 1%nat).
    { eexists. split; [reflexivity|]. apply count_gets_attempt. }
    destruct Hone as (tr1 & Htr1 & Hc1).
    destruct (outcome_of (requests_get E url (w_requests w))).
    + exists tr1. cbn. split; [done | lia].
    + destruct (IH url img_fn (attempt + 1) (draw E (w_draws w) * (attempt + 1)) w1)
        as (tr & Htr & Hc).
      exists (tr1 ++ tr). unfold world_after in Htr. rewrite Htr, Htr1, <- app_assoc.
      split; [done|]. rewrite count_gets_app. lia.
    + exists tr1. cbn. split; [done | lia].
Qed.


Lemma download_pipeline_logo_unfold url img_fn w :
  download_pipeline_logo E url img_fn w =
  download_attempts E 10 url img_fn 0 0
    (World (foldr Os.mkdir_missing (w_fs w) (Path.dirname img_fn :: Path.parents (Path.dirname img_fn)))
           (w_texts w) (w_confirms w) (w_checkboxes w) (w_draws w) (w_requests w) (w_trace w)).
Proof. reflexivity. Qed.

Lemma draw_range k : 1 <= draw E k <= 100.
Proof. unfold draw. pose proof (Z.mod_pos_bound (random_source E k) 100). lia. Qed.

Lemma sleeps_attempt_events url img_fn attempt retry_delay r rest pending :
  sleeps_before_gets pending (attempt_events url img_fn attempt retry_delay r ++ rest) =
  (if 0 <? retry_delay then Some retry_delay else pending) :: sleeps_before_gets None rest.
Proof.
  unfold attempt_events.
  generalize (PyStr.startswith png_magic); intros is_png.
  destruct (0 <? retry_delay), r as [status_code content|e]; cbn;
    repeat case_match; reflexivity.
Qed.

Lemma download_attempts_sleeps remaining : forall url img_fn attempt retry_delay w,
  0 <= attempt ->
  exists tr,
    w_trace (world_after (download_attempts E remaining url img_fn attempt retry_delay) w)
      = w_trace w ++ tr /\
    forall pending,
      sleeps_before_gets pending tr =
      expected_sleeps E (w_draws w) attempt
        (if 0 <? retry_delay then Some retry_delay else pending) (count_gets tr).
Proof.
  induction remaining as [|remaining IH]; intros url img_fn attempt retry_delay w Hatt.
  - exists []. split; [by rewrite app_nil_r | reflexivity].
  - unfold world_after. rewrite download_attempts_step. cbn zeta.
    set (r := requests_get E url (w_requests w)).
    set (w1 := after_attempt E url img_fn attempt retry_delay w).
    assert (Hstop : forall pending,
      sleeps_before_gets pending (attempt_events url img_fn attempt retry_delay r) =
      expected_sleeps E (w_draws w) attempt
        (if 0 <? retry_delay then Some retry_delay else pending)
        (count_gets (attempt_events url img_fn attempt retry_delay r))).
    { intros pending. rewrite count_gets_attempt.
      rewrite <- (app_nil_r (attempt_events _ _ _ _ _)), sleeps_attempt_events.
      reflexivity. }
    destruct (outcome_of r).
    + eexists. split; [reflexivity | exact Hstop].
    + destruct (IH url img_fn (attempt + 1) (draw E (w_draws w) * (attempt + 1)) w1
                  ltac:(lia)) as (tr & Htr & Hsl).
      exists (attempt_events url img_fn attempt retry_delay r ++ tr).
      unfold world_after in Htr. rewrite Htr. subst w1. cbn [after_attempt w_trace].
      fold r. rewrite <- app_assoc. split; [reflexivity|].
      intros pending. rewrite sleeps_attempt_events, count_gets_app, count_gets_attempt.
      cbn [Nat.add expected_sleeps]. f_equal.
      rewrite (Hsl None). cbn [after_attempt w_draws].
      pose proof (draw_range (w_draws w)).
      replace (0 <? draw E (w_draws w) * (attempt + 1)) with true
        by (symmetry; apply Z.ltb_lt; nia).
      reflexivity.
    + eexists. split; [reflexivity | exact Hstop].
Qed.

Lemma expected_sleeps_length d attempt first m :
  length (expected_sleeps E d attempt first m) = m.
Proof. revert d attempt first. induction m; intros; cbn; [done | by rewrite IHm]. Qed.

Lemma expected_sleeps_later m : forall d attempt first k x,
  expected_sleeps E d attempt first m !! S k = Some x ->
  x = Some (draw E (d + k) * (attempt + 1 + Z.of_nat k)).
Proof.
  induction m as [|m IH]; intros d attempt first k x H; [discriminate|].
  cbn in H. destruct m as [|m]; [discriminate|].
  destruct k as [|k].
  - cbn in H. injection H as <-. by rewrite Nat.add_0_r, Z.add_0_r.
  - apply IH in H. subst x. f_equal. f_equal; [f_equal|]; lia.
Qed.

(** *** The download loop as a whole *)

Lemma download_logo_at_most_10 url img_fn w :
  (count_gets (new_events (download_pipeline_logo E url img_fn) w) <= 10)%nat.
Proof.
  unfold new_events, world_after. rewrite download_pipeline_logo_unfold.
  match goal with |- context [download_attempts E 10 url img_fn 0 0 ?w0] =>
    destruct (download_attempts_bound 10 url img_fn 0 0 w0) as (tr & Htr & Hc) end.
  unfold world_after in Htr. rewrite Htr. cbn [w_trace].
  by rewrite drop_app_length.
Qed.

(** An endpoint that fails [n < 10] times in a way the loop retries and
    then answers 200 with a PNG: [n + 1] requests, and the file holds
    that answer. *)
Lemma download_logo_succeeds_after (n : nat) url img_fn w content :
  (n < 10)%nat ->
  (forall i, (i < n)%nat -> outcome_of (requests_get E url (w_requests w + i)) = Retries) ->
  requests_get E url (w_requests w + n) = Response 200 content ->
  PyStr.startswith png_magic content = true ->
  result_of (download_pipeline_logo E url img_fn) w = Ok tt /\
  count_gets (new_events (download_pipeline_logo E url img_fn) w) = S n /\
  exists mode,
    w_fs (world_after (download_pipeline_logo E url img_fn) w) !! img_fn
      = Some (NFile (File content mode)).
Proof.
  intros Hn Hfail Hlast Hpng.
  unfold result_of, new_events, world_after. rewrite download_pipeline_logo_unfold.
  match goal with |- context [download_attempts E 10 url img_fn 0 0 ?w0] => set (w1 := w0) end.
  destruct (download_attempts_retries n (10 - n) url img_fn 0 0 w1 Hfail)
    as (attempt' & delay' & w2 & Heq & Hreq & tr & Htr & Hcount).
  replace (n + (10 - n))%nat with 10%nat in Heq by lia. rewrite Heq.
  destruct (10 - n)%nat as [|left] eqn:Hleft; [lia|].
  rewrite download_attempts_step. cbn zeta.
  rewrite Hreq. change (w_requests w1) with (w_requests w). rewrite Hlast.
  unfold outcome_of. rewrite Hpng. cbn [bool_decide decide_rel]. 
  rewrite bool_decide_eq_false_2 by (intros H; by apply H).
  cbn [fst snd]. repeat split.
  - cbn [after_attempt w_trace]. rewrite Htr. change (w_trace w1) with (w_trace w).
    rewrite <- app_assoc, drop_app_length, count_gets_app, count_gets_attempt. lia.
  - cbn [after_attempt w_fs]. rewrite Hreq. change (w_requests w1) with (w_requests w).
    rewrite Hlast. unfold attempt_fs.
    rewrite bool_decide_eq_false_2 by (intros H; by apply H).
    eexists. apply lookup_insert_eq.
Qed.

(** An endpoint that fails ten times in a way the loop retries: ten
    requests, and the call returns normally. *)
Lemma download_logo_exhausted url img_fn w :
  (forall i, (i < 10)%nat -> outcome_of (requests_get E url (w_requests w + i)) = Retries) ->
  result_of (download_pipeline_logo E url img_fn) w = Ok tt /\
  count_gets (new_events (download_pipeline_logo E url img_fn) w) = 10%nat.
Proof.
  intros Hfail.
  unfold result_of, new_events, world_after. rewrite download_pipeline_logo_unfold.
  match goal with |- context [download_attempts E 10 url img_fn 0 0 ?w0] => set (w1 := w0) end.
  destruct (download_attempts_retries 10 0 url img_fn 0 0 w1 Hfail)
    as (attempt' & delay' & w2 & Heq & Hreq & tr & Htr & Hcount).
  cbn [Nat.add] in Heq. rewrite Heq. cbn [download_attempts ret fst snd].
  split; [reflexivity|].
  rewrite Htr. change (w_trace w1) with (w_trace w). by rewrite drop_app_length.
Qed.

(** C4, where the code departs from it: an exception of [requests.get]
    that is neither the builtin [ConnectionError] nor [UserWarning] is not
    caught by the [except] clause; the call makes that one request and the
    exception leaves [download_pipeline_logo].  [requests] reports a
    connection failure with its own [requests.exceptions.ConnectionError],
    which is such an exception. *)
Theorem download_logo_request_exception_escapes url img_fn w e :
  requests_get E url (w_requests w) = HttpRaise e ->
  retried e = false ->
  result_of (download_pipeline_logo E url img_fn) w = Raise e /\
  count_gets (new_events (download_pipeline_logo E url img_fn) w) = 1%nat.
Proof.
  intros Hget Hnot.
  unfold result_of, new_events, world_after. rewrite download_pipeline_logo_unfold.
  rewrite download_attempts_step. cbn zeta. cbn [w_requests].
  rewrite Hget. unfold outcome_of. rewrite Hnot. cbn [fst snd].
  split; [reflexivity|].
  cbn [after_attempt w_trace w_requests]. rewrite Hget.
  by rewrite drop_app_length, count_gets_attempt.
Qed.

(** C9, as the code has it: no sleep precedes the first request, and the
    sleep before request number [k + 1] (for [k >= 1]) is the value
    [random.randint(1, 100)] took during attempt [k], times [k]: the
    multiplier is the number of the attempt just made. *)
Theorem sleep_is_draw_times_previous_attempt url img_fn w :
  let sleeps := sleeps_before_gets None (new_events (download_pipeline_logo E url img_fn) w) in
  length sleeps = count_gets (new_events (download_pipeline_logo E url img_fn) w) /\
  (forall x, sleeps !! 0%nat = Some x -> x = None) /\
  (forall (k : nat) x, (1 <= k)%nat -> sleeps !! k = Some x ->
     x = Some (draw E (w_draws w + (k - 1)) * Z.of_nat k) /\
     1 <= draw E (w_draws w + (k - 1)) <= 100).
Proof.
  cbn zeta. unfold new_events, world_after. rewrite download_pipeline_logo_unfold.
  match goal with |- context [download_attempts E 10 url img_fn 0 0 ?w0] =>
    destruct (download_attempts_sleeps 10 url img_fn 0 0 w0 ltac:(lia)) as (tr & Htr & Hsl) end.
  unfold world_after in Htr. rewrite Htr. cbn [w_trace w_draws] in *.
  rewrite drop_app_length, (Hsl None). change (0 <? 0) with false. cbn match.
  split; [apply expected_sleeps_length|]. split.
  - intros x. destruct (count_gets tr); cbn; congruence.
  - intros k x Hk Hx. split; [|apply draw_range].
    destruct k as [|k]; [lia|]. apply expected_sleeps_later in Hx.
    subst x. f_equal. replace (S k - 1)%nat with k by lia. f_equal. lia.
Qed.

End MaterializerFacts.

(** ** Parameter resolution *)

(** The fuel of a prompt loop is never what stops it: with at least as
    much fuel as there are answers to come, the loop ends on a valid
    answer or on the interruption of [ask_text]. *)
Lemma ask_until_fuel valid err question fuel : forall fuel' answer w,
  (length (w_texts w) <= fuel)%nat ->
  (length (w_texts w) <= fuel')%nat ->
  ask_until valid err question fuel answer w = ask_until valid err question fuel' answer w.
Proof.
  induction fuel as [|fuel IH]; intros fuel' answer w Hf Hf'.
  - destruct (w_texts w) as [|? ?] eqn:Htexts; [|cbn in Hf; lia].
    destruct fuel'; cbn [ask_until]; destruct (valid answer); try reflexivity;
      unfold bind, log, emit, ask_text, bind, emit; cbn; by rewrite Htexts.
  - destruct fuel' as [|fuel'].
    + destruct (w_texts w) as [|? ?] eqn:Htexts; [|cbn in Hf'; lia].
      cbn [ask_until]; destruct (valid answer); try reflexivity;
        unfold bind, log, emit, ask_text, bind, emit; cbn; by rewrite Htexts.
    + cbn [ask_until]. destruct (valid answer); [reflexivity|].
      unfold bind, log, emit, ask_text, bind, emit.
      cbn [fst snd w_fs w_texts w_confirms w_checkboxes w_draws w_requests w_trace].
      destruct (w_texts w) as [|a rest] eqn:Htexts; [reflexivity|].
      apply IH; cbn in *; lia.
Qed.

Lemma bind_Ok_inv {A B} (m : M A) (k : A -> M B) w b w' :
  bind m k w = (Ok b, w') -> exists a w1, m w = (Ok a, w1) /\ k a w1 = (Ok b, w').
Proof.
  unfold bind. destruct (m w) as [[a|e] w1]; intros H; [eauto | discriminate].
Qed.

Lemma lift_Ok_inv {A} (r : res A) w a w' : lift r w = (Ok a, w') -> r = Ok a /\ w' = w.
Proof. unfold lift. intros H. by injection H as -> ->. Qed.

Lemma res_bind_Ok_inv {A B} (r : res A) (k : A -> res B) b :
  res_bind r k = Ok b -> exists a, r = Ok a /\ k a = Ok b.
Proof. destruct r as [a|e]; cbn; intros H; [eauto | discriminate]. Qed.

Lemma as_str_Ok_inv v s : as_str v = Ok s -> v = PStr s.
Proof. destruct v; cbn; intros H; try discriminate. by injection H as ->. Qed.

(** The loop over the template areas sets the area keys and no other. *)
Lemma set_areas_other skip param_dict areas key :
  set_areas skip param_dict = Ok areas ->
  key ∉ template_areas.*2 ->
  areas !! key = param_dict !! key.
Proof.
  unfold set_areas. generalize (template_areas.*2). intros keys.
  revert param_dict. induction keys as [|k keys IH]; intros param_dict H Hkey.
  - cbn in H. by injection H as <-.
  - cbn [foldl] in H. cbn [res_bind] in H.
    destruct (py_in k skip) as [skipped|e] eqn:Hin; cbn [res_bind] in H.
    + rewrite (IH _ H) by set_solver. apply lookup_insert_ne. set_solver.
    + exfalso. clear -H. induction keys as [|k' keys IH']; cbn in H; [discriminate | auto].
Qed.

(** The fields [derive_params] computes, read back from its result. *)
Lemma derive_params_fields param_dict template_yaml version params :
  derive_params param_dict template_yaml version = Ok params ->
  exists prefix short_name,
    default (PStr "nf-core") (template_yaml !! "prefix") = PStr prefix /\
    params !! "prefix" = Some (PStr prefix) /\
    params !! "short_name" = Some (PStr short_name) /\
    params !! "name" = Some (PStr (prefix +:+ "/" +:+ short_name)) /\
    params !! "name_noslash"
      = Some (PStr (PyStr.replace "/" "-" (prefix +:+ "/" +:+ short_name))) /\
    params !! "branded" = Some (PBool (bool_decide (prefix = "nf-core"))) /\
    params !! "outdir" = param_dict !! "outdir".
Proof.
  unfold derive_params. intros H.
  apply res_bind_Ok_inv in H as (areas & Hareas & H).
  apply res_bind_Ok_inv in H as (name & _ & H).
  apply res_bind_Ok_inv in H as (name_s & _ & H).
  apply res_bind_Ok_inv in H as (prefix & Hprefix & H).
  apply as_str_Ok_inv in Hprefix. rewrite Hprefix in H. cbn [py_str] in H.
  injection H as <-.
  assert (Hother : forall key, key ∉ template_areas.*2 ->
            areas !! key =
            (<["skip" := PList []]> (<["prefix" := PStr prefix]> param_dict)) !! key).
  { intros key Hkey. rewrite <- Hprefix. by apply (set_areas_other _ _ _ key Hareas). }
  assert (Hkeys : forall key, key <> "ci" -> key <> "github_badges" -> key <> "igenomes" ->
            key ∉ template_areas.*2).
  { intros key ? ? ? Hin. cbn in Hin.
    repeat (apply elem_of_cons in Hin as [?|Hin]; [done|]). by apply elem_of_nil in Hin. }
  exists prefix. eexists. split; [exact Hprefix|].
  split; [|split; [|split; [|split; [|split]]]].
  - rewrite !lookup_insert_ne by done. rewrite Hother by (by apply Hkeys).
    by simplify_map_eq.
  - by simplify_map_eq.
  - by simplify_map_eq.
  - by simplify_map_eq.
  - simplify_map_eq. f_equal. f_equal. apply bool_decide_ext. split; congruence.
  - rewrite !lookup_insert_ne by done. rewrite Hother by (by apply Hkeys).
    by simplify_map_eq.
Qed.

Section ResolverFacts.

Variable E : env.

(** What [create_param_dict] returns was computed by [derive_params] from
    a dict that holds the four resolved fields only. *)
Lemma create_param_dict_derived name description author version outdir path w params w' :
  create_param_dict E name description author version outdir path w = (Ok params, w') ->
  exists param_dict template_yaml v,
    derive_params param_dict template_yaml v = Ok params /\
    param_dict !! "outdir" = None.
Proof.
  unfold create_param_dict. intros H.
  apply bind_Ok_inv in H as (yaml & w1 & _ & H).
  apply bind_Ok_inv in H as (name_v & w2 & _ & H).
  apply bind_Ok_inv in H as (description_v & w3 & _ & H).
  apply bind_Ok_inv in H as (author_v & w4 & _ & H).
  apply bind_Ok_inv in H as (version_v & w5 & _ & H).
  apply bind_Ok_inv in H as (yaml' & w6 & _ & H).
  apply lift_Ok_inv in H as [H _].
  eexists _, _, _. split; [exact H|]. by simplify_map_eq.
Qed.

(** The dict built by [create_param_dict] has no ["outdir"] entry. *)
Lemma create_param_dict_no_outdir name description author version outdir path w params w' :
  create_param_dict E name description author version outdir path w = (Ok params, w') ->
  params !! "outdir" = None.
Proof.
  intros H. apply create_param_dict_derived in H as (pd & yaml & v & H & Hno).
  apply derive_params_fields in H as (prefix & short & _ & _ & _ & _ & _ & _ & Hout).
  congruence.
Qed.

Lemma init_no_outdir name description author version no_git force outdir path w self w' :
  init E name description author version no_git force outdir path w = (Ok self, w') ->
  template_params self !! "outdir" = None.
Proof.
  unfold init. intros H.
  apply bind_Ok_inv in H as (params & w1 & Hparams & H).
  apply bind_Ok_inv in H as (od & w2 & _ & H).
  injection H as <- _. cbn. by eapply create_param_dict_no_outdir.
Qed.

End ResolverFacts.

(** *** Strings without a slash *)

Lemma replace_slash_cons c s :
  PyStr.replace "/" "-" (String c s) =
  if Path.is_slash c then String "-" (PyStr.replace "/" "-" s)
  else String c (PyStr.replace "/" "-" s).
Proof.
  unfold PyStr.replace, Path.is_slash. cbn [PyStr.replace_scan PyStr.startswith].
  destruct (decide ("/"%char = c)) as [<-|Hne].
  - rewrite bool_decide_eq_true_2 by done. by destruct s.
  - rewrite bool_decide_eq_false_2 by congruence. reflexivity.
Qed.

Lemma replace_slash_no_slash s : no_slash s = true -> PyStr.replace "/" "-" s = s.
Proof.
  induction s as [|c s IH]; [reflexivity|].
  unfold no_slash. cbn [PyStr.all_chars]. intros [Hc Hs]%andb_true_iff.
  rewrite replace_slash_cons. apply negb_true_iff in Hc. rewrite Hc.
  f_equal. by apply IH.
Qed.

Lemma replace_slash_app a b :
  no_slash a = true ->
  PyStr.replace "/" "-" (a +:+ "/" +:+ b) = a +:+ "-" +:+ PyStr.replace "/" "-" b.
Proof.
  induction a as [|c a IH].
  - intros _. change ("" +:+ "/" +:+ b) with (String "/" b).
    by rewrite replace_slash_cons.
  - unfold no_slash. cbn [PyStr.all_chars]. intros [Hc Ha]%andb_true_iff.
    change (String c a +:+ "/" +:+ b) with (String c (a +:+ "/" +:+ b)).
    rewrite replace_slash_cons. apply negb_true_iff in Hc. rewrite Hc.
    change (String c a +:+ "-" +:+ PyStr.replace "/" "-" b)
      with (String c (a +:+ "-" +:+ PyStr.replace "/" "-" b)).
    f_equal. by apply IH.
Qed.

Lemma all_chars_impl (P Q : ascii -> bool) s :
  (forall c, P c = true -> Q c = true) ->
  PyStr.all_chars P s = true -> PyStr.all_chars Q s = true.
Proof.
  intros HPQ. induction s as [|c s IH]; [done|].
  cbn. intros [Hc Hs]%andb_true_iff. apply andb_true_iff. auto.
Qed.

Lemma chomp_all_chars (P : ascii -> bool) s :
  P "010"%char = true -> PyStr.all_chars P (PyStr.chomp s) = true -> PyStr.all_chars P s = true.
Proof.
  intros Hnl. induction s as [|c s IH]; [done|].
  cbn [PyStr.chomp]. destruct s as [|c' s].
  - destruct (decide (c = "010"%char)) as [->|]; [|done].
    intros _. cbn. by rewrite Hnl.
  - cbn [PyStr.all_chars] in *. intros [Hc Hs]%andb_true_iff.
    apply andb_true_iff. split; [done|]. by apply IH.
Qed.

Lemma match_wf_name_no_slash s : match_wf_name s = true -> no_slash s = true.
Proof.
  unfold match_wf_name, no_slash. intros [_ H]%andb_true_iff.
  apply chomp_all_chars; [reflexivity|].
  revert H. apply all_chars_impl. intros c Hc.
  destruct (Path.is_slash c) eqn:Hs; [|done].
  apply bool_decide_eq_true in Hs. subst c. discriminate.
Qed.

Lemma match_prefix_no_slash s : match_prefix s = true -> no_slash s = true.
Proof.
  unfold match_prefix, no_slash. intros H.
  apply chomp_all_chars; [reflexivity|].
  destruct (PyStr.chomp s) as [|c t]; [discriminate|].
  apply andb_true_iff in H as [Hc Ht]. cbn [PyStr.all_chars]. apply andb_true_iff. split.
  - destruct (Path.is_slash c) eqn:Hs; [|done].
    apply bool_decide_eq_true in Hs. subst c. discriminate.
  - revert Ht. apply all_chars_impl. intros c' Hc'.
    destruct (Path.is_slash c') eqn:Hs; [|done].
    apply bool_decide_eq_true in Hs. subst c'. discriminate.
Qed.

Section ResolverClaims.

Variable E : env.

(** C5: in every parameter set [create_param_dict] returns, with a prefix
    and a short name that match their patterns, [name] is the prefix, a
    slash and the short name, and [name_noslash] is [name] with every slash
    replaced by a hyphen, that is, the prefix, a hyphen and the short
    name. *)
Theorem name_is_prefix_slash_short_name
    name description author version outdir path w params w' prefix short_name :
  create_param_dict E name description author version outdir path w = (Ok params, w') ->
  params !! "prefix" = Some (PStr prefix) ->
  params !! "short_name" = Some (PStr short_name) ->
  match_prefix prefix = true ->
  match_wf_name short_name = true ->
  params !! "name" = Some (PStr (prefix +:+ "/" +:+ short_name)) /\
  params !! "name_noslash" = Some (PStr (PyStr.replace "/" "-" (prefix +:+ "/" +:+ short_name))) /\
  PyStr.replace "/" "-" (prefix +:+ "/" +:+ short_name) = prefix +:+ "-" +:+ short_name.
Proof.
  intros Hrun Hprefix Hshort Hvp Hvs.
  apply create_param_dict_derived in Hrun as (pd & yaml & v & Hrun & _).
  apply derive_params_fields in Hrun
    as (prefix' & short' & _ & Hp & Hs & Hname & Hnoslash & _ & _).
  assert (prefix' = prefix) as -> by congruence.
  assert (short' = short_name) as -> by congruence.
  repeat split; [done..|].
  rewrite replace_slash_app by by apply match_prefix_no_slash.
  f_equal. f_equal. by apply replace_slash_no_slash, match_wf_name_no_slash.
Qed.

End ResolverClaims.

(** ** Materialization as a whole *)

Section RenderFacts.

Variable E : env.

(** The output-directory check of [render_template], case by case. *)
Lemma render_template_cases self w name :
  template_params self !! "name" = Some name ->
  let w1 := with_events
              [Log INFO ("Creating new nf-core pipeline: '" +:+ py_str name +:+ "'")] w in
  render_template E self w =
  match w_fs w !! outdir self with
  | Some _ =>
      match template_params self !! "outdir" with
      | None => (Raise (KeyError "outdir"), w1)
      | Some outdir_param =>
          if force self then
            walk_and_logos E self
              (with_events [Log WARNING ("Output directory '" +:+ py_str outdir_param
                                         +:+ "' exists - continuing as --force specified")] w1)
          else
            (Raise (SystemExit 1),
             with_events [Log ERROR ("Output directory '" +:+ py_str outdir_param +:+ "' exists!");
                          Log INFO "Use -f / --force to overwrite existing files"] w1)
      end
  | None =>
      walk_and_logos E self
        (with_fs (foldr Os.mkdir_missing (w_fs w) (outdir self :: Path.parents (outdir self))) w1)
  end.
Proof.
  intros Hname. cbn zeta.
  unfold render_template, walk_and_logos, with_events, with_fs.
  unfold bind at 1. unfold lift at 1, getitem at 1. rewrite Hname.
  unfold bind at 1. unfold log at 1, emit at 1.
  unfold bind at 1. unfold Os.exists_ at 1, bind at 1, get_fs at 1, ret at 1.
  cbn [w_fs w_trace w_texts w_confirms w_checkboxes w_draws w_requests].
  destruct (w_fs w !! outdir self) as [nd|] eqn:Hfs.
  - rewrite bool_decide_eq_true_2 by eauto.
    destruct (force self) eqn:Hforce; unfold bind at 1; unfold bind at 1;
      unfold lift at 1, getitem at 1;
      destruct (template_params self !! "outdir") as [od|]; try reflexivity.
    all: unfold log, emit, bind, raise; cbn; rewrite <- ?app_assoc; reflexivity.
  - rewrite bool_decide_eq_false_2 by (intros [? ?]; discriminate).
    unfold bind at 1. unfold Os.makedirs at 1, bind at 1, get_fs at 1, set_fs at 1.
    cbn [w_fs w_trace w_texts w_confirms w_checkboxes w_draws w_requests].
    reflexivity.
Qed.

(** *** Requests are never removed from the trace *)


















(** *** Directories and files *)

Lemma mkdir_missing_same_files d fs : same_files fs (Os.mkdir_missing d fs).
Proof.
  intros p f. unfold Os.mkdir_missing.
  destruct (fs !! d) eqn:Hd; [done|].
  destruct (decide (d = p)) as [->|Hne].
  - rewrite lookup_insert_eq, Hd. split; intros; discriminate.
  - by rewrite lookup_insert_ne.
Qed.

Lemma makedirs_same_files dirs fs : same_files fs (foldr Os.mkdir_missing fs dirs).
Proof.
  induction dirs as [|d dirs IH]; cbn [foldr]; [done|].
  intros p f. rewrite <- (IH p f). apply mkdir_missing_same_files.
Qed.

Lemma mkdir_missing_keeps d fs p : is_Some (fs !! p) -> is_Some (Os.mkdir_missing d fs !! p).
Proof.
  intros Hp. unfold Os.mkdir_missing. destruct (fs !! d) eqn:Hd; [done|].
  destruct (decide (d = p)) as [->|Hne]; [by rewrite lookup_insert_eq|].
  by rewrite lookup_insert_ne.
Qed.

Lemma mkdir_missing_self d fs : is_Some (Os.mkdir_missing d fs !! d).
Proof.
  unfold Os.mkdir_missing. destruct (fs !! d) eqn:Hd; [by rewrite Hd|].
  by rewrite lookup_insert_eq.
Qed.

(** After [os.makedirs(p)], [p] and each of its parents exist. *)
Lemma makedirs_creates dirs fs d :
  d ∈ dirs -> is_Some (foldr Os.mkdir_missing fs dirs !! d).
Proof.
  induction dirs as [|d' dirs IH]; cbn [foldr]; [by intros ?%not_elem_of_nil|].
  intros [->|Hin]%elem_of_cons.
  - apply mkdir_missing_self.
  - by apply mkdir_missing_keeps, IH.
Qed.

(** The walk, seen from one output path: if some entry is written there,
    the path ends as a regular file with the permission bits of the last
    such entry; otherwise the regular file there, if any, is untouched. *)
Lemma walk_last_mode outdir attrs renames entries : forall w p,
  let fs' := w_fs (world_after (for_each entries (process_entry E outdir attrs renames)) w) in
  match last_st_mode E outdir renames p entries with
  | Some st_mode => exists f, fs' !! p = Some (NFile f) /\ f_mode f = Os.S_IMODE st_mode
  | None => forall f, fs' !! p = Some (NFile f) <-> w_fs w !! p = Some (NFile f)
  end.
Proof.
  induction entries as [|entry entries IH]; intros w p; cbn zeta.
  - cbn. done.
  - unfold world_after. cbn [for_each last_st_mode].
    pose proof (process_entry_ok E outdir attrs renames entry w) as Hok.
    unfold result_of in Hok.
    destruct (process_entry E outdir attrs renames entry w) as [r w1] eqn:Hstep.
    cbn in Hok. subst r.
    assert (Hrun :
      (process_entry E outdir attrs renames entry ;;;
       for_each entries (process_entry E outdir attrs renames)) w =
      for_each entries (process_entry E outdir attrs renames) w1)
      by (unfold bind at 1; by rewrite Hstep).
    rewrite Hrun. clear Hrun.
    specialize (IH w1 p). cbn zeta in IH. unfold world_after in IH.
    destruct (last_st_mode E outdir renames p entries) as [m|]; [exact IH|].
    assert (Hw1 : w1 = world_after (process_entry E outdir attrs renames entry) w)
      by (unfold world_after; by rewrite Hstep).
    destruct entry as [template_fn [|content st_mode]]; unfold emitted_to; cbn [fst snd].
    + intros f. rewrite IH. cbn in Hstep. by injection Hstep as <-.
    + destruct (ignored E template_fn) eqn:Hign; cbn [negb andb].
      * intros f. rewrite IH. unfold process_entry in Hstep. cbn [fst snd] in Hstep.
        unfold ignored in Hign. rewrite Hign in Hstep. by injection Hstep as <-.
      * destruct (process_entry_file E outdir attrs renames template_fn content st_mode w Hign)
          as (_ & Hfs & _). cbn zeta in Hfs. rewrite <- Hw1 in Hfs.
        case_bool_decide as Hout.
        -- eexists. rewrite IH, Hfs, Hout, lookup_insert_eq. split; reflexivity.
        -- intros f. rewrite IH, Hfs, lookup_insert_ne by done.
           apply makedirs_same_files.
Qed.

Lemma last_st_mode_emitted outdir renames p entries entry :
  entry ∈ entries ->
  emitted_to E outdir renames p entry = true ->
  is_Some (last_st_mode E outdir renames p entries).
Proof.
  induction entries as [|e entries IH]; [by intros ?%not_elem_of_nil|].
  intros [<-|Hin]%elem_of_cons Hem; cbn [last_st_mode].
  - destruct (last_st_mode E outdir renames p entries); [eauto|].
    rewrite Hem. unfold emitted_to in Hem. destruct (entry.2); [discriminate | eauto].
  - destruct (IH Hin Hem) as [m ->]. eauto.
Qed.

(** When all the entries written to a path carry the same [st_mode],
    that is the one the path ends with. *)
Lemma last_st_mode_agree outdir renames p entries st_mode last :
  (forall template_fn content st_mode',
     (template_fn, TFile content st_mode') ∈ entries ->
     emitted_to E outdir renames p (template_fn, TFile content st_mode') = true ->
     st_mode' = st_mode) ->
  last_st_mode E outdir renames p entries = Some last ->
  last = st_mode.
Proof.
  induction entries as [|[template_fn nd] entries IH]; intros Hall Hlast; [discriminate|].
  cbn [last_st_mode] in Hlast.
  destruct (last_st_mode E outdir renames p entries) as [m|] eqn:Hrest.
  - injection Hlast as <-. apply IH; [|done].
    intros fn c m' Hin. apply Hall. by apply elem_of_cons; right.
  - destruct (emitted_to E outdir renames p (template_fn, nd)) eqn:Hem; [|discriminate].
    destruct nd as [|content m']; [discriminate|]. cbn in Hlast. injection Hlast as <-.
    apply (Hall template_fn content); [by apply elem_of_cons; left | exact Hem].
Qed.

(** Every regular file of the template that is not ignored is in the
    output after the walk, whatever the parameters say about areas. *)
Lemma walk_writes_every_file outdir attrs renames entries w template_fn content st_mode :
  (template_fn, TFile content st_mode) ∈ entries ->
  ignored E template_fn = false ->
  exists f,
    w_fs (world_after (for_each entries (process_entry E outdir attrs renames)) w)
      !! output_path_of outdir renames template_fn = Some (NFile f).
Proof.
  intros Hin Hign.
  pose proof (walk_last_mode outdir attrs renames entries w
                (output_path_of outdir renames template_fn)) as Hwalk.
  cbn zeta in Hwalk.
  destruct (last_st_mode_emitted outdir renames
              (output_path_of outdir renames template_fn) entries _ Hin) as [m Hm].
  { unfold emitted_to. cbn [fst snd]. rewrite Hign. cbn. by apply bool_decide_eq_true. }
  rewrite Hm in Hwalk. destruct Hwalk as (f & Hf & _). eauto.
Qed.

(** *** From the check to the logos *)

Lemma rename_files_nonempty params s c :
  params !! "short_name" = Some (PStr s) ->
  PyStr.first_char s = Some c ->
  rename_files params =
  Ok (<["lib/WorkflowPipeline.groovy" :=
          "lib/Workflow" +:+ String (PyStr.upper_char c) (PyStr.tail s) +:+ ".groovy"]>
        (<["workflows/pipeline.nf" := "workflows/" +:+ s +:+ ".nf"]> ∅)).
Proof.
  intros Hs Hc. unfold rename_files, getitem. rewrite Hs. cbn [res_bind capitalized].
  rewrite Hc. reflexivity.
Qed.

Lemma rename_files_empty params :
  params !! "short_name" = Some (PStr "") -> rename_files params = Raise IndexError.
Proof. intros Hs. unfold rename_files, getitem. rewrite Hs. reflexivity. Qed.

Lemma walk_and_logos_empty_short_name self w :
  template_params self !! "short_name" = Some (PStr "") ->
  walk_and_logos E self w = (Raise IndexError, w).
Proof.
  intros Hs. unfold walk_and_logos. cbn [template_params].
  rewrite rename_files_empty by (by rewrite lookup_insert_ne).
  reflexivity.
Qed.





End RenderFacts.

(** * The claims of the specification *)

Section Claims.

Variable E : env.

Lemma init_has_name name description author version no_git force outdir path w self w' :
  init E name description author version no_git force outdir path w = (Ok self, w') ->
  is_Some (template_params self !! "name").
Proof.
  unfold init. intros H.
  apply bind_Ok_inv in H as (params & w1 & Hparams & H).
  apply bind_Ok_inv in H as (od & w2 & _ & H).
  injection H as <- _. cbn.
  apply create_param_dict_derived in Hparams as (pd & yaml & v & Hd & _).
  apply derive_params_fields in Hd as (prefix & short & _ & _ & _ & Hname & _).
  rewrite Hname. eauto.
Qed.

(** A destination that does not exist yet is created with its parents
    before the walk starts. *)
Lemma fresh_destination_created self w name :
  template_params self !! "name" = Some name ->
  w_fs w !! outdir self = None ->
  exists w1,
    render_template E self w = walk_and_logos E self w1 /\
    forall d, d ∈ outdir self :: Path.parents (outdir self) -> is_Some (w_fs w1 !! d).
Proof.
  intros Hname Hfresh. rewrite (render_template_cases E self w name Hname), Hfresh.
  eexists. split; [reflexivity|]. intros d Hd. cbn [with_fs w_fs].
  by apply makedirs_creates.
Qed.

(** With an ["outdir"] entry in [template_params] the check does what it
    is written for: without [force] the run logs the error and exits with
    status 1, leaving the files alone; with [force] it logs a warning and
    goes on. *)
Lemma existing_destination_without_force_exits self w name outdir_param :
  template_params self !! "name" = Some name ->
  template_params self !! "outdir" = Some outdir_param ->
  is_Some (w_fs w !! outdir self) ->
  force self = false ->
  result_of (render_template E self) w = Raise (SystemExit 1) /\
  w_fs (world_after (render_template E self) w) = w_fs w /\
  Log ERROR ("Output directory '" +:+ py_str outdir_param +:+ "' exists!")
    ∈ new_events (render_template E self) w.
Proof.
  intros Hname Ho [nd Hnd] Hforce. unfold result_of, new_events, world_after.
  rewrite (render_template_cases E self w name Hname), Hnd, Ho, Hforce.
  cbn [fst snd with_events w_fs w_trace]. repeat split.
  rewrite <- app_assoc, drop_app_length. set_solver.
Qed.

Lemma existing_destination_with_force_proceeds self w name outdir_param :
  template_params self !! "name" = Some name ->
  template_params self !! "outdir" = Some outdir_param ->
  is_Some (w_fs w !! outdir self) ->
  force self = true ->
  render_template E self w =
  walk_and_logos E self
    (with_events
       [Log INFO ("Creating new nf-core pipeline: '" +:+ py_str name +:+ "'");
        Log WARNING ("Output directory '" +:+ py_str outdir_param
                     +:+ "' exists - continuing as --force specified")] w).
Proof.
  intros Hname Ho [nd Hnd] Hforce.
  rewrite (render_template_cases E self w name Hname), Hnd, Ho, Hforce.
  unfold with_events. cbn [w_fs w_texts w_confirms w_checkboxes w_draws w_requests w_trace].
  by rewrite <- app_assoc.
Qed.

(** C3, where the code departs from it: on an object built by [__init__],
    an existing output directory makes [render_template] raise
    [KeyError("outdir")] while it formats the log message, with and
    without [force]: nothing is written, no warning or error is logged,
    the run neither proceeds nor exits with status 1. *)
Theorem existing_destination_raises_KeyError
    name description author version no_git force outdir_arg path w0 self w :
  init E name description author version no_git force outdir_arg path w0 = (Ok self, w) ->
  is_Some (w_fs w !! outdir self) ->
  result_of (render_template E self) w = Raise (KeyError "outdir") /\
  w_fs (world_after (render_template E self) w) = w_fs w /\
  forall l msg, Log l msg ∈ new_events (render_template E self) w -> l = INFO.
Proof.
  intros Hinit [nd Hnd].
  destruct (init_has_name _ _ _ _ _ _ _ _ _ _ _ Hinit) as [nm Hname].
  pose proof (init_no_outdir E _ _ _ _ _ _ _ _ _ _ _ Hinit) as Hno.
  unfold result_of, new_events, world_after.
  rewrite (render_template_cases E self w nm Hname), Hnd, Hno. cbn [fst snd with_events w_fs w_trace].
  repeat split. intros l msg. rewrite drop_app_length.
  intros Hin%list_elem_of_singleton. by injection Hin as -> _.
Qed.


(** C7: after the iteration for a regular file that is not ignored, the
    output file has the permission bits of the template file, whether it
    was rendered or copied; and after the whole loop every output path
    has the permission bits of the last template file written to it,
    which are those of the file itself when no template file with other
    bits is written to the same path. *)
Theorem output_mode_mirrors_template outdir attrs renames template_fn content st_mode w :
  ignored E template_fn = false ->
  let out := output_path_of outdir renames template_fn in
  let m := process_entry E outdir attrs renames (template_fn, TFile content st_mode) in
  (exists f, w_fs (world_after m w) !! out = Some (NFile f) /\
             f_mode f = Os.S_IMODE st_mode) /\
  (forall entries w0,
     (template_fn, TFile content st_mode) ∈ entries ->
     exists f last,
       last_st_mode E outdir renames out entries = Some last /\
       w_fs (world_after (for_each entries (process_entry E outdir attrs renames)) w0) !! out
         = Some (NFile f) /\
       f_mode f = Os.S_IMODE last /\
       ((forall template_fn' content' st_mode',
           (template_fn', TFile content' st_mode') ∈ entries ->
           emitted_to E outdir renames out (template_fn', TFile content' st_mode') = true ->
           st_mode' = st_mode) ->
        f_mode f = Os.S_IMODE st_mode)).
Proof.
  intros Hign out m.
  destruct (process_entry_file E outdir attrs renames template_fn content st_mode w Hign)
    as (_ & Hfs & _).
  cbn zeta in Hfs. fold out m in Hfs. split.
  - eexists. rewrite Hfs, lookup_insert_eq. split; reflexivity.
  - intros entries w0 Hin.
    destruct (last_st_mode_emitted E outdir renames out entries _ Hin) as [last Hlast].
    { unfold emitted_to. cbn [fst snd]. rewrite Hign. cbn. by apply bool_decide_eq_true. }
    pose proof (walk_last_mode E outdir attrs renames entries w0 out) as Hwalk.
    cbn zeta in Hwalk. rewrite Hlast in Hwalk. destruct Hwalk as (f & Hf & Hmode).
    exists f, last. split; [done|]. split; [done|]. split; [done|].
    intros Hall. rewrite Hmode. f_equal.
    by eapply last_st_mode_agree.
Qed.



End Claims.

Section SkipFacts.

Variable E : env.

Lemma template_tree_in_template_files entry :
  entry ∈ template_tree E -> entry ∈ template_files E.
Proof. intros Hin. unfold template_files. apply elem_of_app. by left. Qed.

(** On an object without the ["outdir"] entry the run ends in
    [make_pipeline_logo], with the files as the walk left them. *)
Lemma walk_and_logos_no_outdir self w s c :
  template_params self !! "short_name" = Some (PStr s) ->
  PyStr.first_char s = Some c ->
  template_params self !! "outdir" = None ->
  exists renames,
    rename_files (template_params self) = Ok renames /\
    result_of (walk_and_logos E self) w = Raise (KeyError "outdir") /\
    w_fs (world_after (walk_and_logos E self) w) =
    w_fs (world_after
            (for_each (template_files E)
               (process_entry E (outdir self)
                  (<["nf_core_version" := PStr (nf_core_version E)]> (template_params self))
                  renames)) w).
Proof.
  intros Hs Hc Hno. eexists. split; [by apply (rename_files_nonempty _ s c)|].
  set (attrs := <["nf_core_version" := PStr (nf_core_version E)]> (template_params self)).
  match goal with |- context [process_entry E (outdir self) attrs ?r] => set (renames := r) end.
  destruct (for_each (template_files E) (process_entry E (outdir self) attrs renames) w)
    as [r w1] eqn:Hwalk.
  pose proof (for_each_entries_ok E (outdir self) attrs renames (template_files E) w) as Hok.
  unfold result_of in Hok. rewrite Hwalk in Hok. cbn in Hok. subst r.
  assert (Hrun : walk_and_logos E self w =
                 (Raise (KeyError "outdir"),
                  with_events [Log DEBUG ("Fetching logo from https://nf-co.re/logo/"
                                          +:+ s +:+ "?theme=light")] w1)).
  { unfold walk_and_logos. cbn [template_params outdir]. fold attrs.
    erewrite rename_files_nonempty; [|by (subst attrs; rewrite lookup_insert_ne)|exact Hc].
    fold renames. unfold bind at 1. unfold lift at 1. unfold bind at 1. rewrite Hwalk.
    unfold bind at 1. unfold make_pipeline_logo. cbn [template_params].
    unfold bind, lift, getitem, log, emit. subst attrs.
    rewrite !lookup_insert_ne by done. rewrite Hs, Hno. reflexivity. }
  unfold result_of, world_after. rewrite Hrun, Hwalk. split; reflexivity.
Qed.

(** No parameter keeps a template file out of the output: on every
    object [__init__] builds with a non-empty short name, a run into a
    fresh directory writes each regular file of the template that is not
    ignored, those of the skipped areas included. *)
Lemma every_template_file_is_written
    name description author version no_git force outdir_arg path w0 self w s c
    template_fn content st_mode :
  init E name description author version no_git force outdir_arg path w0 = (Ok self, w) ->
  w_fs w !! outdir self = None ->
  template_params self !! "short_name" = Some (PStr s) ->
  PyStr.first_char s = Some c ->
  (template_fn, TFile content st_mode) ∈ template_tree E ->
  ignored E template_fn = false ->
  exists renames f,
    rename_files (template_params self) = Ok renames /\
    w_fs (world_after (render_template E self) w)
      !! output_path_of (outdir self) renames template_fn = Some (NFile f).
Proof.
  intros Hinit Hfresh Hs Hc Hin Hign.
  destruct (init_has_name E _ _ _ _ _ _ _ _ _ _ _ Hinit) as [nm Hname].
  pose proof (init_no_outdir E _ _ _ _ _ _ _ _ _ _ _ Hinit) as Hno.
  unfold world_after. rewrite (render_template_cases E self w nm Hname), Hfresh.
  match goal with |- context [walk_and_logos E self ?w1] =>
    destruct (walk_and_logos_no_outdir self w1 s c Hs Hc Hno) as (renames & Hren & _ & Hfs) end.
  exists renames. unfold world_after in Hfs. rewrite Hfs.
  edestruct walk_writes_every_file as [f Hf];
    [by apply template_tree_in_template_files | exact Hign |].
  exists f. split; [exact Hren | exact Hf].
Qed.

(** C1, where the code departs from it: on an object [__init__] builds,
    a regular template file under the path of a disabled area ([ci] or
    [igenomes] recorded as [False] in the parameters) is written all the
    same by a run into a fresh directory: the loop never consults
    [skippable_paths]. *)
Theorem skipped_area_files_are_written
    name description author version no_git force outdir_arg path w0 self w s c
    area_key area_path template_fn content st_mode :
  init E name description author version no_git force outdir_arg path w0 = (Ok self, w) ->
  w_fs w !! outdir self = None ->
  template_params self !! "short_name" = Some (PStr s) ->
  PyStr.first_char s = Some c ->
  (area_key, area_path) ∈ skippable_paths ->
  template_params self !! area_key = Some (PBool false) ->
  PyStr.startswith area_path template_fn = true ->
  (template_fn, TFile content st_mode) ∈ template_tree E ->
  ignored E template_fn = false ->
  exists renames f,
    rename_files (template_params self) = Ok renames /\
    w_fs (world_after (render_template E self) w)
      !! output_path_of (outdir self) renames template_fn = Some (NFile f).
Proof.
  intros Hinit Hfresh Hs Hc _ _ _ Hin Hign.
  by eapply every_template_file_is_written.
Qed.

End SkipFacts.

(** ** The claims on the sample inputs *)

(** Whenever the YAML document defines [param_name], [get_param] returns
    the entry ["name"] of the document. *)
Lemma get_param_returns_name_entry param_name passed_value template_yaml path w v s :
  template_yaml !! param_name = Some v ->
  template_yaml !! "name" = Some (PStr s) ->
  result_of (get_param param_name passed_value template_yaml path) w = Ok (PStr s).
Proof.
  intros Hdef Hname. unfold result_of, get_param.
  rewrite bool_decide_eq_true_2 by eauto.
  unfold bind, lift, getitem, log, emit, ret. rewrite Hname.
  destruct passed_value; reflexivity.
Qed.

(** C2, where the code departs from it: whenever the document defines
    the field asked for, [get_param] returns the document's ["name"]
    entry, whatever the document gives for the field itself, and raises
    [KeyError("name")] when the document has no ["name"]. *)
Theorem get_param_reads_the_name_entry param_name passed_value template_yaml path w v :
  template_yaml !! param_name = Some v ->
  (forall s, template_yaml !! "name" = Some (PStr s) ->
     result_of (get_param param_name passed_value template_yaml path) w = Ok (PStr s)) /\
  (template_yaml !! "name" = None ->
     result_of (get_param param_name passed_value template_yaml path) w
       = Raise (KeyError "name")).
Proof.
  intros Hdef. split.
  - intros s Hname. by eapply get_param_returns_name_entry.
  - intros Hname. unfold result_of, get_param.
    rewrite bool_decide_eq_true_2 by eauto.
    unfold bind, lift, getitem, log, emit, ret. rewrite Hname.
    destruct passed_value; reflexivity.
Qed.

Lemma get_param_reads_the_name_entry_witness :
  sample_yaml !! "description" = Some (PStr "An analysis pipeline") /\
  sample_yaml !! "name" = Some (PStr "foo") /\
  result_of (get_param "description" None sample_yaml (Some "template.yml")) empty_world
    = Ok (PStr "foo") /\
  unnamed_yaml !! "description" = Some (PStr "An analysis pipeline") /\
  unnamed_yaml !! "name" = None /\
  result_of (get_param "description" None unnamed_yaml (Some "template.yml")) empty_world
    = Raise (KeyError "name").
Proof.
  split; [reflexivity|]. split; [reflexivity|]. split; [|split; [reflexivity|split; [reflexivity|]]].
  - apply (proj1 (get_param_reads_the_name_entry "description" None sample_yaml
                    (Some "template.yml") empty_world (PStr "An analysis pipeline")
                    eq_refl)).
    reflexivity.
  - apply (proj2 (get_param_reads_the_name_entry "description" None unnamed_yaml
                    (Some "template.yml") empty_world (PStr "An analysis pipeline")
                    eq_refl)).
    reflexivity.
Defined.

Lemma skipped_area_files_are_written_witness :
  let E := sample_env unreachable in
  let self := built E false "template.yml" empty_world in
  let w := (run_init E false "template.yml" empty_world).2 in
  run_init E false "template.yml" empty_world = (Ok self, w) /\
  sample_yaml !! "skip" = Some (PList ["ci"; "igenomes"]) /\
  template_params self !! "ci" = Some (PBool false) /\
  template_params self !! "igenomes" = Some (PBool false) /\
  (exists renames f,
     rename_files (template_params self) = Ok renames /\
     w_fs (world_after (render_template E self) w)
       !! output_path_of (outdir self) renames ".github/workflows/ci.yml" = Some (NFile f)) /\
  w_fs (world_after (render_template E self) w) !! "out/.github/workflows/ci.yml"
    = Some (NFile (File "<rendered .github/workflows/ci.yml>" 420)) /\
  w_fs (world_after (render_template E self) w) !! "out/conf/igenomes.config"
    = Some (NFile (File "<rendered conf/igenomes.config>" 420)).
Proof.
  cbn zeta.
  assert (Hinit : run_init (sample_env unreachable) false "template.yml" empty_world
                  = (Ok (built (sample_env unreachable) false "template.yml" empty_world),
                     (run_init (sample_env unreachable) false "template.yml" empty_world).2))
    by (vm_compute; reflexivity).
  split; [exact Hinit|]. split; [reflexivity|].
  split; [vm_compute; reflexivity|]. split; [vm_compute; reflexivity|].
  split; [|split; vm_compute; reflexivity].
  apply (skipped_area_files_are_written (sample_env unreachable)
           None (Some "A pipeline") (Some "Ada") (Some "1.0dev") false false
           (Some "out") (Some "template.yml") empty_world _ _ "foo" "f"%char
           "ci" ".github/workflows/" ".github/workflows/ci.yml" "name: {{ name }} CI" 33188
           Hinit).
  - vm_compute; reflexivity.
  - vm_compute; reflexivity.
  - reflexivity.
  - unfold skippable_paths. set_solver.
  - vm_compute; reflexivity.
  - reflexivity.
  - unfold sample_env, template_tree, sample_tree. set_solver.
  - reflexivity.
Defined.

Lemma existing_destination_raises_KeyError_witness :
  let E := sample_env unreachable in
  let self := built E true "template.yml" world_with_out in
  let w := (run_init E true "template.yml" world_with_out).2 in
  run_init E true "template.yml" world_with_out = (Ok self, w) /\
  force self = true /\
  is_Some (w_fs w !! outdir self) /\
  result_of (render_template E self) w = Raise (KeyError "outdir") /\
  w_fs (world_after (render_template E self) w) = w_fs w.
Proof.
  cbn zeta.
  assert (Hinit : run_init (sample_env unreachable) true "template.yml" world_with_out
                  = (Ok (built (sample_env unreachable) true "template.yml" world_with_out),
                     (run_init (sample_env unreachable) true "template.yml" world_with_out).2))
    by (vm_compute; reflexivity).
  assert (Hdest : is_Some
            (w_fs (run_init (sample_env unreachable) true "template.yml" world_with_out).2
               !! outdir (built (sample_env unreachable) true "template.yml" world_with_out)))
    by (vm_compute; eauto).
  split; [exact Hinit|]. split; [vm_compute; reflexivity|]. split; [exact Hdest|].
  destruct (existing_destination_raises_KeyError _ _ _ _ _ _ _ _ _ _ _ _ Hinit Hdest)
    as (Hres & Hfs & _).
  split; [exact Hres | exact Hfs].
Defined.

Lemma download_logo_request_exception_escapes_witness :
  let E := sample_env unreachable in
  requests_get E "https://nf-co.re/logo/foo?theme=light&w=400" (w_requests empty_world)
    = HttpRaise RequestException /\
  retried RequestException = false /\
  result_of (download_pipeline_logo E "https://nf-co.re/logo/foo?theme=light&w=400"
               "out/assets/acme-foo_logo_light.png") empty_world
    = Raise RequestException /\
  count_gets (new_events (download_pipeline_logo E "https://nf-co.re/logo/foo?theme=light&w=400"
                            "out/assets/acme-foo_logo_light.png") empty_world) = 1%nat.
Proof.
  cbn zeta. split; [reflexivity|]. split; [reflexivity|].
  apply (download_logo_request_exception_escapes (sample_env unreachable)); reflexivity.
Defined.

Lemma name_is_prefix_slash_short_name_witness :
  let E := sample_env unreachable in
  let run := create_param_dict E None None None (Some "1.0dev") (Some "out")
               (Some "template.yml") empty_world in
  let params := match run.1 with Ok p => p | Raise _ => ∅ end in
  run = (Ok params, run.2) /\
  match_prefix "acme" = true /\
  match_wf_name "foo" = true /\
  params !! "name" = Some (PStr "acme/foo") /\
  params !! "name_noslash" = Some (PStr (PyStr.replace "/" "-" "acme/foo")) /\
  PyStr.replace "/" "-" "acme/foo" = "acme-foo".
Proof.
  cbn zeta. split; [vm_compute; reflexivity|]. split; [reflexivity|]. split; [reflexivity|].
  eapply (name_is_prefix_slash_short_name (sample_env unreachable)
            None None None (Some "1.0dev") (Some "out") (Some "template.yml") empty_world
            _ _ "acme" "foo"); vm_compute; reflexivity.
Defined.


Lemma output_mode_mirrors_template_witness :
  let E := sample_env unreachable in
  let m := process_entry E "out" ∅ ∅ ("workflows/pipeline.nf", TFile "workflow" 33261) in
  ignored E "workflows/pipeline.nf" = false /\
  Os.S_IMODE 33261 = 493 /\
  exists f,
    w_fs (world_after m empty_world) !! "out/workflows/pipeline.nf" = Some (NFile f) /\
    f_mode f = Os.S_IMODE 33261.
Proof.
  cbn zeta. split; [reflexivity|]. split; [reflexivity|].
  exact (proj1 (output_mode_mirrors_template (sample_env unreachable) "out" ∅ ∅
                  "workflows/pipeline.nf" "workflow" 33261 empty_world eq_refl)).
Defined.



Lemma sleep_is_draw_times_previous_attempt_witness :
  let E := sample_env always_404 in
  let sleeps :=
    sleeps_before_gets None
      (new_events (download_pipeline_logo E "https://nf-co.re/logo/foo" "out/logo.png")
         empty_world) in
  sleeps !! 1%nat = Some (Some 1) /\
  Some 1 = Some (draw E (w_draws empty_world + (1 - 1)) * Z.of_nat 1).
Proof.
  cbn zeta. split; [vm_compute; reflexivity|].
  apply (proj2 (proj2 (sleep_is_draw_times_previous_attempt (sample_env always_404)
                         "https://nf-co.re/logo/foo" "out/logo.png" empty_world))
           1%nat (Some 1)); [lia | vm_compute; reflexivity].
Defined.

(** C9 as the specification words it fails: with every draw equal to 1
    the sleep before the second attempt is 1 second, which is not a
    number between 1 and 100 times 2. *)
Lemma sleeps_as_specified_fails :
  ~ sleeps_as_specified (sample_env always_404) "https://nf-co.re/logo/foo" "out/logo.png"
      empty_world.
Proof.
  intros [_ Hlater].
  destruct (Hlater 1%nat (Some 1)) as (r & Hr & Heq); [lia | vm_compute; reflexivity |].
  injection Heq as Heq. lia.
Qed.


(** * Further properties of the code *)

(** ** The prompts *)

Lemma ask_text_run q w :
  ask_text q w =
  match w_texts w with
  | [] => (Raise KeyboardInterrupt, with_events [Ask q] w)
  | a :: rest =>
      (Ok a, World (w_fs w) rest (w_confirms w) (w_checkboxes w) (w_draws w) (w_requests w)
                   (w_trace w ++ [Ask q]))
  end.
Proof. unfold ask_text, bind, emit, with_events. cbn. by destruct (w_texts w). Qed.

(** A prompt loop reads answers up to the first valid one, which it
    returns; without one the session is interrupted at the last
    question. *)
Lemma ask_until_first_valid valid err question texts : forall fuel answer w,
  w_texts w = texts ->
  (length texts <= fuel)%nat ->
  exists w',
    ask_until valid err question fuel answer w = (first_valid valid (answer :: texts), w') /\
    w_texts w' = after_first_valid valid (answer :: texts).
Proof.
  induction texts as [|a texts IH]; intros fuel answer w Htexts Hfuel.
  - unfold first_valid. cbn [List.find after_first_valid].
    destruct fuel; cbn [ask_until]; destruct (valid answer) eqn:Hv;
      try (by exists w);
      unfold bind at 1; unfold log, emit; unfold bind at 1; rewrite ask_text_run;
      cbn [w_texts]; rewrite Htexts; eexists; split; reflexivity.
  - destruct fuel as [|fuel]; [cbn in Hfuel; lia|].
    unfold first_valid in *.
    cbn [ask_until List.find after_first_valid]. destruct (valid answer) eqn:Hv.
    + by exists w.
    + unfold bind at 1. unfold log, emit. unfold bind at 1. rewrite ask_text_run.
      cbn [w_texts]. rewrite Htexts.
      apply IH; [reflexivity | cbn in Hfuel; lia].
Qed.

Lemma first_valid_Ok valid answers s : first_valid valid answers = Ok s -> valid s = true.
Proof.
  unfold first_valid. destruct (List.find valid answers) as [a|] eqn:Hfind; [|discriminate].
  intros H. injection H as <-. by apply List.find_some in Hfind as [_ ?].
Qed.

(** X1: [prompt_wf_name] returns the first answer that matches [^[a-z]+$],
    never another one, leaves the answers after it for the next question,
    and is interrupted when no answer matches. *)
Theorem prompt_wf_name_first_valid w :
  result_of prompt_wf_name w = first_valid match_wf_name (w_texts w) /\
  w_texts (world_after prompt_wf_name w) = after_first_valid match_wf_name (w_texts w) /\
  (forall s, result_of prompt_wf_name w = Ok s -> match_wf_name s = true).
Proof.
  assert (Hrun : exists w',
    prompt_wf_name w = (first_valid match_wf_name (w_texts w), w') /\
    w_texts w' = after_first_valid match_wf_name (w_texts w)).
  { unfold prompt_wf_name. unfold bind at 1. rewrite ask_text_run.
    destruct (w_texts w) as [|a rest] eqn:Htexts;
      [eexists; split; [reflexivity | exact Htexts]|].
    unfold bind at 1. unfold pending_texts at 1. cbn [w_texts].
    apply ask_until_first_valid; [reflexivity | lia]. }
  destruct Hrun as (w' & Hrun & Hleft). unfold result_of, world_after. rewrite Hrun.
  cbn [fst snd]. split; [reflexivity|]. split; [exact Hleft|].
  intros s Hs. by eapply first_valid_Ok.
Qed.

(** X2: [customize_template] returns a dict with exactly the two entries
    ["prefix"] and ["skip"]: the prefix is the first answer that matches
    the prefix pattern, and the skip list holds values of the areas
    offered only. *)
Theorem customize_template_valid areas w d :
  result_of (customize_template areas) w = Ok d ->
  exists prefix skip,
    d = <["skip" := PList skip]> (<["prefix" := PStr prefix]> ∅) /\
    first_valid match_prefix (w_texts w) = Ok prefix /\
    match_prefix prefix = true /\
    forall key, key ∈ skip -> key ∈ areas.*2.
Proof.
  unfold result_of, customize_template. unfold bind at 1. rewrite ask_text_run.
  destruct (w_texts w) as [|a rest] eqn:Htexts; [discriminate|].
  unfold bind at 1. unfold pending_texts at 1. cbn [w_texts].
  unfold bind at 1.
  match goal with |- context [ask_until ?v ?e ?q ?n a ?w0] =>
    destruct (ask_until_first_valid v e q rest n a w0 eq_refl ltac:(lia))
      as (w1 & Hrun & _) end.
  rewrite Hrun. destruct (first_valid match_prefix (a :: rest)) as [prefix|e] eqn:Hfirst;
    [|discriminate].
  unfold bind at 1. unfold ask_checkbox, bind, emit. cbn [fst snd w_checkboxes].
  destruct (w_checkboxes w1) as [|ticked more]; [discriminate|].
  cbn. intros H. injection H as <-.
  exists prefix. eexists. split; [reflexivity|]. split; [reflexivity|].
  split; [by eapply first_valid_Ok|].
  intros key Hkey. by apply list_elem_of_filter in Hkey as [? _].
Qed.

(** ** Resolution of the fields *)

(** X3: [get_param] never returns [None]: a value that is [None] after the
    document was consulted is replaced by the answer to a prompt.  When
    the document does not define the field, a value passed directly is
    returned as it is, and nothing is asked or logged. *)
Theorem get_param_never_none param_name passed_value template_yaml path w :
  (forall v, result_of (get_param param_name passed_value template_yaml path) w = Ok v ->
     v <> PNone) /\
  (forall s, template_yaml !! param_name = None -> passed_value = Some s ->
     get_param param_name passed_value template_yaml path w = (Ok (PStr s), w)).
Proof.
  split.
  - intros v. unfold result_of, get_param. unfold bind at 1.
    match goal with |- context [(if ?c then ?a else ?b) w] =>
      destruct ((if c then a else b) w) as [[pv|e] w1] end; [|discriminate].
    destruct pv; cbn; try (intros H; injection H as <-; discriminate).
    unfold bind. destruct (prompt_wf param_name w1) as [[s|e] w2]; cbn;
      [intros H; injection H as <-; discriminate | discriminate].
  - intros s Hno ->. unfold get_param.
    rewrite bool_decide_eq_false_2 by (rewrite Hno; intros [? ?]; discriminate).
    reflexivity.
Qed.

Lemma not_area_key key :
  key <> "ci" -> key <> "github_badges" -> key <> "igenomes" -> key ∉ template_areas.*2.
Proof.
  intros ? ? ? Hin. cbn in Hin.
  repeat (apply elem_of_cons in Hin as [?|Hin]; [done|]). by apply elem_of_nil in Hin.
Qed.

(** The loop over the template areas gives every area its flag: true
    exactly when the area is not in the skip value. *)
Lemma set_areas_flags skip param_dict areas key :
  set_areas skip param_dict = Ok areas ->
  key ∈ template_areas.*2 ->
  exists skipped, py_in key skip = Ok skipped /\ areas !! key = Some (PBool (negb skipped)).
Proof.
  unfold set_areas. cbn [template_areas fmap list_fmap snd foldl].
  destruct (py_in "ci" skip) as [b1|] eqn:H1; cbn [res_bind]; [|discriminate].
  destruct (py_in "github_badges" skip) as [b2|] eqn:H2; cbn [res_bind]; [|discriminate].
  destruct (py_in "igenomes" skip) as [b3|] eqn:H3; cbn [res_bind]; [|discriminate].
  intros H Hkey. injection H as <-.
  repeat (apply elem_of_cons in Hkey as [->|Hkey]; [eexists; split; [eassumption|]; by simplify_map_eq|]).
  by apply elem_of_nil in Hkey.
Qed.

(** Everything [derive_params] computes, in one equation. *)
Lemma derive_params_inv param_dict template_yaml version params :
  derive_params param_dict template_yaml version = Ok params ->
  exists prefix name areas,
    default (PStr "nf-core") (template_yaml !! "prefix") = PStr prefix /\
    param_dict !! "name" = Some (PStr name) /\
    set_areas (default (PList []) (template_yaml !! "skip"))
      (<["skip" := PList []]> (<["prefix" := PStr prefix]> param_dict)) = Ok areas /\
    let short_name :=
      PyStr.replace "/" "-"
        (PyStr.replace (prefix +:+ "/") ""
           (PyStr.replace "/\s+/" "-" (PyStr.lower name))) in
    let name_noslash := PyStr.replace "/" "-" (prefix +:+ "/" +:+ short_name) in
    params =
    <["branded" := PBool (bool_decide (prefix = "nf-core"))]>
      (<["version" := version]>
         (<["logo_dark" := PStr (name_noslash +:+ "_logo_dark.png")]>
            (<["logo_light" := PStr (name_noslash +:+ "_logo_light.png")]>
               (<["name_docker" :=
                    PStr (PyStr.replace prefix (PyStr.replace "-" "" prefix)
                            (prefix +:+ "/" +:+ short_name))]>
                  (<["prefix_nodash" := PStr (PyStr.replace "-" "" prefix)]>
                     (<["name_noslash" := PStr name_noslash]>
                        (<["name" := PStr (prefix +:+ "/" +:+ short_name)]>
                           (<["short_name" := PStr short_name]> areas)))))))).
Proof.
  unfold derive_params. intros H.
  apply res_bind_Ok_inv in H as (areas & Hareas & H).
  apply res_bind_Ok_inv in H as (name & Hname & H).
  apply res_bind_Ok_inv in H as (name_s & Hstr & H).
  apply res_bind_Ok_inv in H as (prefix & Hprefix & H).
  apply as_str_Ok_inv in Hprefix. apply as_str_Ok_inv in Hstr. subst name.
  rewrite Hprefix in H, Hareas. cbn [py_str] in H. injection H as <-.
  exists prefix, name_s, areas. split; [exact Hprefix|]. split; [|split; [exact Hareas|]].
  - unfold getitem in Hname. destruct (areas !! "name") as [nm|] eqn:Hn; [|discriminate].
    injection Hname as ->.
    rewrite (set_areas_other _ _ _ "name" Hareas) in Hn by (by apply not_area_key).
    by rewrite !lookup_insert_ne in Hn by done.
  - cbn zeta. f_equal. f_equal. apply bool_decide_ext. split; congruence.
Qed.

Section ResolverMore.

Variable E : env.

(** The steps of [create_param_dict], read back from a normal return:
    the document consulted, the version resolved from it, and the dict
    the derived fields were computed from. *)
Lemma create_param_dict_inv name description author version outdir_arg path w params w' :
  create_param_dict E name description author version outdir_arg path w = (Ok params, w') ->
  exists document customized name_v description_v author_v version_v,
    match path with
    | Some p => yaml_safe_load E p = Ok document /\ customized = document
    | None => document = ∅
    end /\
    (exists wa wb, get_param "name" name document path wa = (Ok name_v, wb)) /\
    version_v = default (of_option version) (document !! "version") /\
    derive_params
      (<["version" := version_v]>
         (<["author" := author_v]> (<["description" := description_v]> (<["name" := name_v]> ∅))))
      customized version_v = Ok params.
Proof.
  unfold create_param_dict. intros H.
  apply bind_Ok_inv in H as (document & w1 & Hdoc & H).
  apply bind_Ok_inv in H as (name_v & w2 & Hname & H).
  apply bind_Ok_inv in H as (description_v & w3 & _ & H).
  apply bind_Ok_inv in H as (author_v & w4 & _ & H).
  apply bind_Ok_inv in H as (version_v & w5 & Hversion & H).
  apply bind_Ok_inv in H as (customized & w6 & Hcust & H).
  apply lift_Ok_inv in H as [H _].
  exists document, customized, name_v, description_v, author_v, version_v.
  split; [|split; [eauto|split; [|exact H]]].
  - destruct path as [p|].
    + apply lift_Ok_inv in Hdoc as [Hdoc _]. split; [exact Hdoc|].
      unfold ret in Hcust. by injection Hcust as ->.
    + unfold ret in Hdoc. by injection Hdoc as <-.
  - destruct (document !! "version") as [v|] eqn:Hv.
    + rewrite bool_decide_eq_true_2 in Hversion by eauto.
      apply bind_Ok_inv in Hversion as (? & w7 & _ & Hversion).
      apply lift_Ok_inv in Hversion as [Hversion _].
      unfold getitem in Hversion. rewrite Hv in Hversion. by injection Hversion as <-.
    + rewrite bool_decide_eq_false_2 in Hversion by (intros [? ?]; discriminate).
      unfold ret in Hversion. by injection Hversion as <-.
Qed.

(** X4: The version is the document's when the document gives one, and the
    value passed otherwise, [None] included: no prompt and no default
    stand in for it. *)
Theorem version_from_document_or_argument
    name description author version outdir_arg path w params w' :
  create_param_dict E name description author version outdir_arg path w = (Ok params, w') ->
  match path with
  | Some p =>
      exists document,
        yaml_safe_load E p = Ok document /\
        params !! "version" = Some (default (of_option version) (document !! "version"))
  | None => params !! "version" = Some (of_option version)
  end.
Proof.
  intros H. apply create_param_dict_inv in H
    as (document & customized & nv & dv & av & vv & Hdoc & _ & Hv & Hd).
  apply derive_params_inv in Hd as (prefix & nm & areas & _ & _ & _ & ->).
  destruct path as [p|].
  - destruct Hdoc as [Hdoc _]. exists document. split; [exact Hdoc|].
    subst vv. by simplify_map_eq.
  - subst document vv. by simplify_map_eq.
Qed.

(** X5: With a document, each template area is enabled exactly when its key
    is not in the document's skip list (every area when there is no
    list); the ["skip"] entry of the parameters is the empty list
    whatever the document says. *)
Theorem areas_enabled_unless_skipped
    name description author version outdir_arg p w params w' document skip :
  create_param_dict E name description author version outdir_arg (Some p) w = (Ok params, w') ->
  yaml_safe_load E p = Ok document ->
  default (PList []) (document !! "skip") = PList skip ->
  params !! "skip" = Some (PList []) /\
  forall key, key ∈ template_areas.*2 ->
    params !! key = Some (PBool (bool_decide (key ∉ skip))).
Proof.
  intros H Hload Hskip. apply create_param_dict_inv in H
    as (document' & customized & nv & dv & av & vv & [Hdoc ->] & _ & _ & Hd).
  assert (document' = document) as -> by congruence.
  apply derive_params_inv in Hd as (prefix & nm & areas & _ & _ & Hareas & ->).
  rewrite Hskip in Hareas. split.
  - rewrite !lookup_insert_ne by done.
    rewrite (set_areas_other _ _ _ "skip" Hareas) by (by apply not_area_key).
    by simplify_map_eq.
  - intros key Hkey.
    destruct (set_areas_flags _ _ _ key Hareas Hkey) as (skipped & Hin & Hflag).
    cbn in Hin. injection Hin as <-.
    assert (Hne : key <> "branded" /\ key <> "version" /\ key <> "logo_dark" /\
                  key <> "logo_light" /\ key <> "name_docker" /\ key <> "prefix_nodash" /\
                  key <> "name_noslash" /\ key <> "name" /\ key <> "short_name").
    { cbn in Hkey. repeat (apply elem_of_cons in Hkey as [->|Hkey]; [by repeat split|]).
      by apply elem_of_nil in Hkey. }
    destruct Hne as (? & ? & ? & ? & ? & ? & ? & ? & ?).
    rewrite !lookup_insert_ne by done. rewrite Hflag. f_equal. f_equal.
    unfold bool_decide. repeat case_decide; done.
Qed.

End ResolverMore.

(** ** The derived names *)

Lemma all_chars_app (P : ascii -> bool) a b :
  PyStr.all_chars P (a +:+ b) = PyStr.all_chars P a && PyStr.all_chars P b.
Proof.
  induction a as [|c a IH]; [reflexivity|].
  change (String c a +:+ b) with (String c (a +:+ b)). cbn [PyStr.all_chars].
  by rewrite IH, andb_assoc.
Qed.

Lemma replace_char_cons c new a s :
  PyStr.replace (String c "") new (String a s) =
  if decide (c = a) then new +:+ PyStr.replace (String c "") new s
  else String a (PyStr.replace (String c "") new s).
Proof.
  unfold PyStr.replace. cbn [PyStr.replace_scan PyStr.startswith].
  destruct (decide (c = a)); [|reflexivity]. by destruct s.
Qed.

(** Replacing every occurrence of a character by a text without it
    leaves no occurrence. *)
Lemma replace_char_gone c new s :
  PyStr.all_chars (fun x => negb (bool_decide (x = c))) new = true ->
  PyStr.all_chars (fun x => negb (bool_decide (x = c)))
    (PyStr.replace (String c "") new s) = true.
Proof.
  intros Hnew. induction s as [|a s IH]; [reflexivity|].
  rewrite replace_char_cons. destruct (decide (c = a)) as [->|Hne].
  - by rewrite all_chars_app, Hnew, IH.
  - cbn [PyStr.all_chars]. rewrite IH, andb_true_r.
    by rewrite bool_decide_eq_false_2 by congruence.
Qed.

Lemma no_slash_app a b : no_slash (a +:+ b) = no_slash a && no_slash b.
Proof. apply all_chars_app. Qed.

Ltac lookup_inserted :=
  repeat (rewrite lookup_insert_ne by done); apply lookup_insert_eq.

Section DerivedNames.

Variable E : env.

(** X6: Whatever name and prefix come in, the short name and [name_noslash]
    come out without any ["/"], so that the two logo file names built on
    [name_noslash] are plain file names; and [prefix_nodash] has no
    ["-"]. *)
Theorem derived_names_have_no_separator
    name description author version outdir_arg path w params w' :
  create_param_dict E name description author version outdir_arg path w = (Ok params, w') ->
  exists short_name name_noslash prefix_nodash,
    params !! "short_name" = Some (PStr short_name) /\
    no_slash short_name = true /\
    params !! "name_noslash" = Some (PStr name_noslash) /\
    no_slash name_noslash = true /\
    params !! "logo_light" = Some (PStr (name_noslash +:+ "_logo_light.png")) /\
    params !! "logo_dark" = Some (PStr (name_noslash +:+ "_logo_dark.png")) /\
    no_slash (name_noslash +:+ "_logo_light.png") = true /\
    no_slash (name_noslash +:+ "_logo_dark.png") = true /\
    params !! "prefix_nodash" = Some (PStr prefix_nodash) /\
    no_hyphen prefix_nodash = true.
Proof.
  intros H. apply create_param_dict_inv in H
    as (document & customized & nv & dv & av & vv & _ & _ & _ & Hd).
  apply derive_params_inv in Hd as (prefix & nm & areas & _ & _ & _ & ->).
  cbn zeta.
  set (short_name := PyStr.replace "/" "-"
         (PyStr.replace (prefix +:+ "/") "" (PyStr.replace "/\s+/" "-" (PyStr.lower nm)))).
  set (name_noslash := PyStr.replace "/" "-" (prefix +:+ "/" +:+ short_name)).
  exists short_name, name_noslash, (PyStr.replace "-" "" prefix).
  assert (Hslash : forall s, no_slash (PyStr.replace "/" "-" s) = true).
  { intros s. apply (replace_char_gone "/"%char "-" s). reflexivity. }
  split; [by lookup_inserted|]. split; [apply Hslash|].
  split; [by lookup_inserted|]. split; [apply Hslash|].
  split; [by lookup_inserted|]. split; [by lookup_inserted|].
  split; [rewrite no_slash_app; apply andb_true_iff; split; [apply Hslash | reflexivity]|].
  split; [rewrite no_slash_app; apply andb_true_iff; split; [apply Hslash | reflexivity]|].
  split; [by lookup_inserted|].
  apply (replace_char_gone "-"%char "" prefix). reflexivity.
Qed.

End DerivedNames.

(** ** The download loop, further *)

Ltac not_among Hin :=
  repeat (apply elem_of_cons in Hin as [Hin|Hin]; [discriminate|]);
  by apply elem_of_nil in Hin.

Section DownloadMore.

Variable E : env.

Lemma total_sleep_app tr1 tr2 : total_sleep (tr1 ++ tr2) = total_sleep tr1 + total_sleep tr2.
Proof.
  induction tr1 as [|e tr1 IH]; [reflexivity|].
  destruct e; cbn [app total_sleep]; rewrite IH; lia.
Qed.

Lemma total_sleep_attempt url img_fn attempt retry_delay r :
  total_sleep (attempt_events url img_fn attempt retry_delay r) =
  if 0 <? retry_delay then retry_delay else 0.
Proof.
  unfold attempt_events. rewrite !total_sleep_app.
  generalize (PyStr.startswith png_magic); intros is_png.
  destruct (0 <? retry_delay), r as [status_code content|e]; cbn;
    repeat case_match; cbn; lia.
Qed.

Lemma sleep_in_attempt url img_fn attempt retry_delay r secs :
  Sleep secs ∈ attempt_events url img_fn attempt retry_delay r ->
  secs = retry_delay /\ 0 < retry_delay.
Proof.
  unfold attempt_events.
  generalize (PyStr.startswith png_magic); intros is_png.
  rewrite !elem_of_app. intros [Hin | [Hin | Hin]].
  - destruct (0 <? retry_delay) eqn:Hd; [|not_among Hin].
    apply elem_of_cons in Hin as [Hin|Hin]; [discriminate|].
    apply list_elem_of_singleton in Hin. injection Hin as ->.
    split; [reflexivity | by apply Z.ltb_lt].
  - not_among Hin.
  - destruct r; repeat case_match; not_among Hin.
Qed.

Lemma sleep_budget_nonneg remaining : forall attempt, 0 <= attempt -> 0 <= sleep_budget remaining attempt.
Proof.
  induction remaining as [|remaining IH]; intros attempt Ha; [cbn; lia|].
  cbn [sleep_budget]. destruct remaining as [|r]; [lia|].
  specialize (IH (attempt + 1) ltac:(lia)). lia.
Qed.

(** The loop from any of its states: what it sleeps in all, and the
    longest it sleeps at once. *)
Lemma download_attempts_sleep_bound remaining : forall url img_fn attempt retry_delay w,
  0 <= attempt -> retry_delay <= 100 * attempt ->
  exists tr,
    w_trace (world_after (download_attempts E remaining url img_fn attempt retry_delay) w)
      = w_trace w ++ tr /\
    total_sleep tr <= Z.max 0 retry_delay + sleep_budget remaining attempt /\
    sleeps_within (100 * (attempt + Z.of_nat remaining - 1)) tr.
Proof.
  induction remaining as [|remaining IH]; intros url img_fn attempt retry_delay w Ha Hd.
  - exists []. split; [by rewrite app_nil_r|]. split; [cbn; lia|].
    intros secs Hin. by apply elem_of_nil in Hin.
  - unfold world_after. rewrite download_attempts_step. cbn zeta.
    set (r := requests_get E url (w_requests w)).
    set (w1 := after_attempt E url img_fn attempt retry_delay w).
    assert (Hone : total_sleep (attempt_events url img_fn attempt retry_delay r)
                   = Z.max 0 retry_delay).
    { rewrite total_sleep_attempt. destruct (0 <? retry_delay) eqn:Hpos; [|lia].
      apply Z.ltb_lt in Hpos. lia. }
    assert (Hin1 : sleeps_within (100 * (attempt + Z.of_nat (S remaining) - 1))
                     (attempt_events url img_fn attempt retry_delay r)).
    { intros secs [-> Hpos]%sleep_in_attempt. lia. }
    pose proof (sleep_budget_nonneg (S remaining) attempt Ha) as Hnn.
    destruct (outcome_of r).
    + exists (attempt_events url img_fn attempt retry_delay r).
      split; [reflexivity|]. split; [rewrite Hone; lia | exact Hin1].
    + pose proof (draw_range E (w_draws w)) as Hdraw.
      destruct (IH url img_fn (attempt + 1) (draw E (w_draws w) * (attempt + 1)) w1
                  ltac:(lia) ltac:(nia)) as (tr & Htr & Hsum & Hmax).
      exists (attempt_events url img_fn attempt retry_delay r ++ tr).
      unfold world_after in Htr. rewrite Htr. subst w1. cbn [after_attempt w_trace].
      fold r. rewrite <- app_assoc. split; [reflexivity|]. split.
      * rewrite total_sleep_app, Hone.
        destruct remaining as [|remaining'].
        -- cbn [download_attempts] in Htr. unfold ret in Htr. cbn [snd after_attempt w_trace] in Htr.
           fold r in Htr.
           apply (f_equal length) in Htr. rewrite !length_app in Htr.
           destruct tr; [|cbn in Htr; lia]. cbn [total_sleep sleep_budget]. lia.
        -- change (sleep_budget (S (S remaining')) attempt)
             with (100 * (attempt + 1) + sleep_budget (S remaining') (attempt + 1)).
           nia.
      * intros secs [Hin|Hin]%elem_of_app.
        -- by apply Hin1.
        -- apply Hmax in Hin. lia.
    + exists (attempt_events url img_fn attempt retry_delay r).
      split; [reflexivity|]. split; [rewrite Hone; lia | exact Hin1].
Qed.

(** X20: [download_pipeline_logo] sleeps at most 900 seconds at once and at
    most 4500 seconds in all, whatever the endpoint answers and whatever
    the random source gives. *)
Theorem download_logo_sleeps_at_most url img_fn w :
  total_sleep (new_events (download_pipeline_logo E url img_fn) w) <= 4500 /\
  sleeps_within 900 (new_events (download_pipeline_logo E url img_fn) w).
Proof.
  unfold new_events, world_after. rewrite download_pipeline_logo_unfold.
  match goal with |- context [download_attempts E 10 url img_fn 0 0 ?w0] =>
    destruct (download_attempts_sleep_bound 10 url img_fn 0 0 w0 ltac:(lia) ltac:(lia))
      as (tr & Htr & Hsum & Hmax) end.
  unfold world_after in Htr. rewrite Htr. cbn [w_trace].
  rewrite drop_app_length. split; [exact Hsum | exact Hmax].
Qed.

(** The loop writes nothing as long as no answer has status 200. *)
Lemma download_attempts_no_200 remaining : forall url img_fn attempt retry_delay w,
  (forall i content, (i < remaining)%nat ->
     requests_get E url (w_requests w + i) <> Response 200 content) ->
  w_fs (world_after (download_attempts E remaining url img_fn attempt retry_delay) w) = w_fs w.
Proof.
  induction remaining as [|remaining IH]; intros url img_fn attempt retry_delay w Hno;
    [reflexivity|].
  unfold world_after. rewrite download_attempts_step. cbn zeta.
  set (w1 := after_attempt E url img_fn attempt retry_delay w).
  assert (Hfs : w_fs w1 = w_fs w).
  { subst w1. cbn [after_attempt w_fs]. unfold attempt_fs.
    destruct (requests_get E url (w_requests w)) as [status_code content|e] eqn:Hr; [|done].
    case_bool_decide as Hs; [done|]. exfalso.
    apply (Hno 0%nat content); [lia|]. rewrite Nat.add_0_r, Hr. f_equal.
    destruct (decide (status_code = 200)); [done | by destruct Hs]. }
  destruct (outcome_of _); cbn [snd]; try exact Hfs.
  rewrite <- Hfs. apply IH. intros i content Hi. subst w1. rewrite after_attempt_requests.
  replace (S (w_requests w) + i)%nat with (w_requests w + S i)%nat by lia.
  apply Hno. lia.
Qed.

(** X21: Without an answer of status 200 among its ten requests,
    [download_pipeline_logo] creates the directory of the image and
    nothing else: no regular file appears or changes. *)
Theorem download_logo_writes_only_on_200 url img_fn w :
  (forall i content, (i < 10)%nat ->
     requests_get E url (w_requests w + i) <> Response 200 content) ->
  let fs' := w_fs (world_after (download_pipeline_logo E url img_fn) w) in
  fs' = foldr Os.mkdir_missing (w_fs w) (Path.dirname img_fn :: Path.parents (Path.dirname img_fn)) /\
  same_files (w_fs w) fs'.
Proof.
  intros Hno. cbn zeta. unfold world_after. rewrite download_pipeline_logo_unfold.
  match goal with |- context [download_attempts E 10 url img_fn 0 0 ?w0] =>
    pose proof (download_attempts_no_200 10 url img_fn 0 0 w0 Hno) as Hfs end.
  unfold world_after in Hfs. rewrite Hfs. cbn [w_fs].
  split; [reflexivity | apply makedirs_same_files].
Qed.

(** As long as the answers have status 200 and are no PNG, the loop goes
    on, and the file holds the last answer received. *)
Lemma download_attempts_not_png remaining : forall url img_fn attempt retry_delay w,
  (forall i, (i < S remaining)%nat -> exists content,
     requests_get E url (w_requests w + i) = Response 200 content /\
     PyStr.startswith png_magic content = false) ->
  exists content mode,
    requests_get E url (w_requests w + remaining) = Response 200 content /\
    result_of (download_attempts E (S remaining) url img_fn attempt retry_delay) w = Ok tt /\
    w_fs (world_after (download_attempts E (S remaining) url img_fn attempt retry_delay) w)
      !! img_fn = Some (NFile (File content mode)).
Proof.
  induction remaining as [|remaining IH]; intros url img_fn attempt retry_delay w Hall.
  - destruct (Hall 0%nat ltac:(lia)) as (content & Hr & Hpng).
    exists content. unfold result_of, world_after. rewrite download_attempts_step. cbn zeta.
    rewrite Nat.add_0_r in Hr. rewrite Hr. unfold outcome_of. rewrite Hpng.
    rewrite bool_decide_eq_false_2 by (intros H; by apply H).
    cbn [download_attempts ret fst snd after_attempt w_fs]. rewrite Hr. unfold attempt_fs.
    rewrite bool_decide_eq_false_2 by (intros H; by apply H).
    eexists. rewrite Nat.add_0_r. split; [exact Hr|]. split; [reflexivity|].
    apply lookup_insert_eq.
  - destruct (Hall 0%nat ltac:(lia)) as (content0 & Hr & Hpng).
    rewrite Nat.add_0_r in Hr.
    set (w1 := after_attempt E url img_fn attempt retry_delay w).
    destruct (IH url img_fn (attempt + 1) (draw E (w_draws w) * (attempt + 1)) w1)
      as (content & mode & Hlast & Hres & Hfile).
    { intros i Hi. subst w1. rewrite after_attempt_requests.
      replace (S (w_requests w) + i)%nat with (w_requests w + S i)%nat by lia.
      apply Hall. lia. }
    exists content, mode. split.
    { subst w1. rewrite after_attempt_requests in Hlast.
      by replace (w_requests w + S remaining)%nat with (S (w_requests w) + remaining)%nat by lia. }
    unfold result_of, world_after in *. rewrite download_attempts_step. cbn zeta.
    rewrite Hr. unfold outcome_of. rewrite Hpng.
    rewrite bool_decide_eq_false_2 by (intros H; by apply H).
    fold w1. split; [exact Hres | exact Hfile].
Qed.

(** X22: Ten answers of status 200 that are no PNG: [download_pipeline_logo]
    makes its ten requests and returns normally, and the image file holds
    the tenth answer, which is no PNG. *)
Theorem download_logo_keeps_last_non_image url img_fn w :
  (forall i, (i < 10)%nat -> exists content,
     requests_get E url (w_requests w + i) = Response 200 content /\
     PyStr.startswith png_magic content = false) ->
  exists content mode,
    requests_get E url (w_requests w + 9) = Response 200 content /\
    PyStr.startswith png_magic content = false /\
    result_of (download_pipeline_logo E url img_fn) w = Ok tt /\
    count_gets (new_events (download_pipeline_logo E url img_fn) w) = 10%nat /\
    w_fs (world_after (download_pipeline_logo E url img_fn) w) !! img_fn
      = Some (NFile (File content mode)).
Proof.
  intros Hall.
  assert (Hretry : forall i, (i < 10)%nat ->
            outcome_of (requests_get E url (w_requests w + i)) = Retries).
  { intros i Hi. destruct (Hall i Hi) as (content & -> & Hpng). unfold outcome_of.
    rewrite Hpng. by rewrite bool_decide_eq_false_2 by (intros H; by apply H). }
  destruct (download_logo_exhausted E url img_fn w Hretry) as [Hok Hcount].
  unfold result_of, new_events, world_after in *.
  rewrite download_pipeline_logo_unfold in *.
  match goal with |- context [download_attempts E 10 url img_fn 0 0 ?w0] =>
    destruct (download_attempts_not_png 9 url img_fn 0 0 w0 Hall)
      as (content & mode & Hlast & _ & Hfile) end.
  exists content, mode. cbn [w_requests] in Hlast. split; [exact Hlast|].
  split.
  { destruct (Hall 9%nat ltac:(lia)) as (content' & Hr & Hpng). congruence. }
  split; [exact Hok|]. split; [exact Hcount | exact Hfile].
Qed.

End DownloadMore.

(** ** The three logos *)

Section LogoFacts.

Variable E : env.

Lemma gets_of_app tr1 tr2 : gets_of (tr1 ++ tr2) = gets_of tr1 ++ gets_of tr2.
Proof.
  induction tr1 as [|e tr1 IH]; [reflexivity|].
  destruct e; cbn [app gets_of]; by rewrite IH.
Qed.




Lemma bind_assoc_run {A B C} (m : M A) (k : A -> M B) (k' : B -> M C) w :
  bind (bind m k) k' w = bind m (fun a => bind (k a) k') w.
Proof. unfold bind. by destruct (m w) as [[a|e] w']. Qed.

Lemma bind_run {A B} (m : M A) (k : A -> M B) w a w' :
  m w = (Ok a, w') -> bind m k w = k a w'.
Proof. intros H. unfold bind. by rewrite H. Qed.



End LogoFacts.

(** ** Whole runs of [render_template], [init_pipeline] and [git_init_pipeline] *)

Lemma no_request_ret {A} (a : A) : no_request (ret a).
Proof. intros w. exists []. by rewrite app_nil_r. Qed.

Lemma no_request_raise {A} e : no_request (@raise A e).
Proof. intros w. exists []. by rewrite app_nil_r. Qed.

Lemma no_request_lift {A} (r : res A) : no_request (lift r).
Proof. intros w. exists []. by rewrite app_nil_r. Qed.

Lemma no_request_get_fs : no_request get_fs.
Proof. intros w. exists []. by rewrite app_nil_r. Qed.

Lemma no_request_set_fs fs : no_request (set_fs fs).
Proof. intros w. exists []. by rewrite app_nil_r. Qed.

Lemma no_request_log l msg : no_request (log l msg).
Proof. intros w. by exists [Log l msg]. Qed.

Lemma no_request_bind {A B} (m : M A) (k : A -> M B) :
  no_request m -> (forall a, no_request (k a)) -> no_request (bind m k).
Proof.
  intros Hm Hk w. destruct (Hm w) as (tr1 & Htr1 & Hg1). unfold world_after, bind in *.
  destruct (m w) as [[a|e] w1]; cbn [snd] in *; [|by exists tr1].
  destruct (Hk a w1) as (tr2 & Htr2 & Hg2). unfold world_after in Htr2.
  exists (tr1 ++ tr2). rewrite Htr2, Htr1, <- app_assoc. split; [done|].
  by rewrite gets_of_app, Hg1, Hg2.
Qed.

Lemma no_request_try_except {A} (m : M A) handles handler :
  no_request m -> (forall e, no_request (handler e)) -> no_request (try_except m handles handler).
Proof.
  intros Hm Hh w. destruct (Hm w) as (tr1 & Htr1 & Hg1). unfold world_after, try_except in *.
  destruct (m w) as [[a|e] w1]; cbn [snd] in *; [by exists tr1|].
  destruct (handles e); [|by exists tr1].
  destruct (Hh e w1) as (tr2 & Htr2 & Hg2). unfold world_after in Htr2.
  exists (tr1 ++ tr2). rewrite Htr2, Htr1, <- app_assoc. split; [done|].
  by rewrite gets_of_app, Hg1, Hg2.
Qed.

Lemma no_request_for_each {A} (l : list A) (body : A -> M unit) :
  (forall x, no_request (body x)) -> no_request (for_each l body).
Proof.
  intros Hbody. induction l as [|x l IH]; cbn [for_each].
  - apply no_request_ret.
  - apply no_request_bind; [apply Hbody | intros _; exact IH].
Qed.

Ltac quiet_step :=
  first
    [ apply no_request_ret | apply no_request_raise | apply no_request_lift
    | apply no_request_log | apply no_request_get_fs | apply no_request_set_fs
    | apply no_request_bind | apply no_request_try_except | apply no_request_for_each
    | assumption
    | intros ?
    | case_match ].

Ltac solve_quiet := repeat quiet_step.

Section RenderMore.

Variable E : env.

Lemma no_request_process_entry outdir attrs renames entry :
  no_request (process_entry E outdir attrs renames entry).
Proof.
  unfold process_entry, render_to, copy_instead, Os.makedirs, Os.write_file, Os.copy, Os.chmod.
  solve_quiet.
Qed.

(** The walk completes, and sends no request. *)
Lemma walk_run outdir attrs renames entries w :
  exists w1 tr,
    for_each entries (process_entry E outdir attrs renames) w = (Ok tt, w1) /\
    w_trace w1 = w_trace w ++ tr /\ gets_of tr = [].
Proof.
  pose proof (for_each_entries_ok E outdir attrs renames entries w) as Hok.
  destruct (no_request_for_each entries (process_entry E outdir attrs renames)
              (no_request_process_entry outdir attrs renames) w) as (tr & Htr & Hg).
  unfold result_of, world_after in *.
  destruct (for_each entries (process_entry E outdir attrs renames) w) as [r w1].
  cbn [fst snd] in *. subst r. by exists w1, tr.
Qed.

(** What [__init__] leaves in [template_params], as far as
    [render_template] reads it. *)
Lemma init_fields name description author version no_git_arg force_arg outdir_arg path w0 self w :
  init E name description author version no_git_arg force_arg outdir_arg path w0 = (Ok self, w) ->
  exists nm s,
    template_params self !! "name" = Some nm /\
    template_params self !! "short_name" = Some (PStr s) /\
    template_params self !! "outdir" = None.
Proof.
  intros Hinit. pose proof (init_no_outdir E _ _ _ _ _ _ _ _ _ _ _ Hinit) as Hno.
  unfold init in Hinit.
  apply bind_Ok_inv in Hinit as (params & w1 & Hparams & H).
  apply bind_Ok_inv in H as (od & w2 & _ & H).
  injection H as <- _. cbn [template_params] in *.
  apply create_param_dict_derived in Hparams as (pd & yaml & v & Hd & _).
  apply derive_params_fields in Hd as (prefix & short & _ & _ & Hs & Hname & _).
  eauto.
Qed.

(** Without the ["outdir"] entry the run ends in [make_pipeline_logo]
    before any request. *)
Lemma walk_and_logos_no_outdir_run self w s c :
  template_params self !! "short_name" = Some (PStr s) ->
  PyStr.first_char s = Some c ->
  template_params self !! "outdir" = None ->
  exists w' tr,
    walk_and_logos E self w = (Raise (KeyError "outdir"), w') /\
    w_trace w' = w_trace w ++ tr /\ gets_of tr = [].
Proof.
  intros Hs Hc Hno. unfold walk_and_logos. cbn [template_params outdir].
  erewrite rename_files_nonempty; [|by rewrite lookup_insert_ne|exact Hc].
  erewrite bind_run by reflexivity. cbn beta.
  match goal with |- context [for_each ?l ?body] =>
    destruct (walk_run (outdir self)
                (<["nf_core_version" := PStr (nf_core_version E)]> (template_params self))
                (<["lib/WorkflowPipeline.groovy" :=
                     "lib/Workflow" +:+ String (PyStr.upper_char c) (PyStr.tail s) +:+ ".groovy"]>
                   (<["workflows/pipeline.nf" := "workflows/" +:+ s +:+ ".nf"]> ∅))
                l w) as (w1 & tr & Hwalk & Htr & Hg) end.
  rewrite (bind_run _ _ _ _ _ Hwalk). cbn beta.
  unfold make_pipeline_logo. cbn [template_params].
  unfold bind, lift, getitem, log, emit.
  rewrite !lookup_insert_ne by done. rewrite Hs, Hno.
  eexists _, _. split; [reflexivity|]. cbn [w_trace]. rewrite Htr, <- app_assoc.
  split; [reflexivity|]. by rewrite gets_of_app, Hg.
Qed.

(** [render_template] on an object as [__init__] builds it. *)
Lemma render_template_after_init
    name description author version no_git_arg force_arg outdir_arg path w0 self w :
  init E name description author version no_git_arg force_arg outdir_arg path w0 = (Ok self, w) ->
  exists w' tr,
    render_template E self w =
      (Raise (if bool_decide (w_fs w !! outdir self = None /\
                              template_params self !! "short_name" = Some (PStr ""))
              then IndexError else KeyError "outdir"), w') /\
    w_trace w' = w_trace w ++ tr /\ gets_of tr = [].
Proof.
  intros Hinit. destruct (init_fields _ _ _ _ _ _ _ _ _ _ _ Hinit) as (nm & s & Hname & Hs & Hno).
  rewrite (render_template_cases E self w nm Hname), Hno.
  destruct (w_fs w !! outdir self) as [nd|] eqn:Hdest.
  - rewrite bool_decide_eq_false_2 by (by intros [? _]).
    eexists _, _. split; [reflexivity|]. cbn [with_events w_trace]. by split.
  - destruct s as [|c s].
    + rewrite bool_decide_eq_true_2 by done.
      rewrite walk_and_logos_empty_short_name by done.
      eexists _, _. split; [reflexivity|]. cbn [with_fs with_events w_trace]. by split.
    + rewrite bool_decide_eq_false_2 by (rewrite Hs; by intros [_ ?]).
      match goal with |- context [walk_and_logos E self ?w1] =>
        destruct (walk_and_logos_no_outdir_run self w1 (String c s) c Hs eq_refl Hno)
          as (w' & tr & Hrun & Htr & Hg) end.
      rewrite Hrun. eexists _, _. split; [reflexivity|].
      rewrite Htr. cbn [with_fs with_events w_trace]. rewrite <- app_assoc.
      split; [reflexivity|]. by rewrite gets_of_app, Hg.
Qed.


(** [render_template] hands back the object it was called on, with
    [nf_core_version] added to its parameters. *)
Lemma render_template_returns self w self' w' :
  render_template E self w = (Ok self', w') ->
  self' = Self (<["nf_core_version" := PStr (nf_core_version E)]> (template_params self))
               (no_git self) (force self) (outdir self).
Proof.
  unfold render_template. intros H.
  apply bind_Ok_inv in H as (nm & w1 & _ & H).
  apply bind_Ok_inv in H as (? & w2 & _ & H).
  apply bind_Ok_inv in H as (dest_exists & w3 & _ & H).
  apply bind_Ok_inv in H as (? & w4 & _ & H).
  cbn zeta in H.
  apply bind_Ok_inv in H as (renames & w5 & _ & H).
  apply bind_Ok_inv in H as (? & w6 & _ & H).
  apply bind_Ok_inv in H as (? & w7 & _ & H).
  unfold ret in H. by injection H as <- _.
Qed.


Section WithGit.

Variable G : git_lib.

(** X23: [init_pipeline] on an object built by [__init__] ends where
    [render_template] ends: whatever the Git library is, it is not
    called, and the closing message is not logged. *)
Theorem init_pipeline_never_reaches_git
    name description author version no_git_arg force_arg outdir_arg path w0 self w :
  init E name description author version no_git_arg force_arg outdir_arg path w0 = (Ok self, w) ->
  (exists e, result_of (init_pipeline E G self) w = Raise e /\
             result_of (render_template E self) w = Raise e) /\
  world_after (init_pipeline E G self) w = world_after (render_template E self) w.
Proof.
  intros Hinit.
  destruct (render_template_after_init _ _ _ _ _ _ _ _ _ _ _ Hinit) as (w' & tr & Hrun & _).
  unfold result_of, world_after, init_pipeline, bind. rewrite Hrun. cbn [fst snd]. eauto.
Qed.

(** X24: With [no_git], [init_pipeline] is [render_template] followed by one
    log record: the Git library makes no difference. *)
Theorem init_pipeline_no_git_ignores_git self w :
  no_git self = true ->
  init_pipeline E G self w = init_pipeline E quiet_git self w /\
  forall self' w',
    render_template E self w = (Ok self', w') ->
    result_of (init_pipeline E G self) w = Ok tt /\
    w_fs (world_after (init_pipeline E G self) w) = w_fs w' /\
    exists msg, w_trace (world_after (init_pipeline E G self) w) = w_trace w' ++ [Log INFO msg].
Proof.
  intros Hno.
  assert (Hself : forall self' w', render_template E self w = (Ok self', w') ->
            no_git self' = true).
  { intros self' w' Hrun. apply render_template_returns in Hrun. by subst self'. }
  unfold result_of, world_after, init_pipeline.
  destruct (render_template E self w) as [[self'|e] w'] eqn:Hrun.
  - pose proof (Hself self' w' eq_refl) as Hs'.
    do 2 rewrite (bind_run _ _ _ _ _ Hrun). cbn beta. rewrite Hs'.
    split; [reflexivity|]. intros ? ? [= <- <-].
    unfold bind, ret, log, emit. cbn. eauto.
  - split; [|intros ? ? [=]]. unfold bind. by rewrite Hrun.
Qed.

(** X25: Called on an object without the ["outdir"] entry, as [__init__]
    builds them, [git_init_pipeline] creates the repository, commits and
    branches, and then raises [KeyError("outdir")] while it formats its
    closing message. *)
Theorem git_init_pipeline_raises_after_commit self w :
  template_params self !! "outdir" = None ->
  git_never_fails G ->
  result_of (git_init_pipeline E G self) w = Raise (KeyError "outdir") /\
  world_after (git_init_pipeline E G self) w =
  world_after
    (log INFO "Initialising pipeline git repository" ;;;
     repo_init G (outdir self) ;;;
     git_add_all G (outdir self) ;;;
     index_commit G (outdir self)
       ("initial template build from nf-core/tools, version " +:+ nf_core_version E) ;;;
     git_branch G (outdir self) "TEMPLATE" ;;;
     git_branch G (outdir self) "dev") w.
Proof.
  intros Hno (Hinit & Hadd & Hcommit & Hbranch).
  assert (Hchain : forall (call : M unit) B (k k' : unit -> M B) w1,
            (forall w2, result_of call w2 = Ok tt) ->
            (forall w2, (k tt w2).1 = Raise (KeyError "outdir") /\ (k tt w2).2 = (k' tt w2).2) ->
            (bind call k w1).1 = Raise (KeyError "outdir") /\
            (bind call k w1).2 = (bind call k' w1).2).
  { intros call B k k' w1 Hcall Hk. specialize (Hcall w1). unfold result_of, bind in *.
    destruct (call w1) as [[[]|e] w2]; [apply Hk | discriminate]. }
  unfold result_of, world_after, git_init_pipeline.
  apply Hchain; [done|]. intros w1.
  apply Hchain; [apply Hinit|]. intros w2.
  apply Hchain; [apply Hadd|]. intros w3.
  apply Hchain; [apply Hcommit|]. intros w4.
  apply Hchain; [apply Hbranch|]. intros w5.
  specialize (Hbranch (outdir self) "dev" w5).
  unfold result_of, bind, lift, getitem in *. rewrite Hno.
  destruct (git_branch G (outdir self) "dev" w5) as [[[]|e] w6]; [by split | discriminate].
Qed.

End WithGit.

End RenderMore.

(** ** Names and the output directory *)

Lemma lower_char_not_upper c : PyStr.is_upper c = false -> PyStr.lower_char c = c.
Proof. unfold PyStr.lower_char. by intros ->. Qed.

Lemma lower_no_upper s :
  PyStr.all_chars (fun c => negb (PyStr.is_upper c)) s = true -> PyStr.lower s = s.
Proof.
  induction s as [|c s IH]; [reflexivity|].
  cbn [PyStr.all_chars PyStr.lower]. intros [Hc Hs]%andb_true_iff.
  apply negb_true_iff in Hc. by rewrite lower_char_not_upper, IH.
Qed.

Lemma is_lower_not_upper c : PyStr.is_lower c = true -> negb (PyStr.is_upper c) = true.
Proof.
  unfold PyStr.is_lower, PyStr.is_upper. cbn zeta.
  intros [H1 H2]%andb_true_iff. apply Nat.leb_le in H1.
  apply negb_true_iff, andb_false_iff. right. apply Nat.leb_gt. lia.
Qed.

Lemma match_wf_name_lower s : match_wf_name s = true -> PyStr.lower s = s.
Proof.
  unfold match_wf_name. intros [_ H]%andb_true_iff. apply lower_no_upper.
  apply chomp_all_chars; [reflexivity|].
  revert H. apply all_chars_impl, is_lower_not_upper.
Qed.

Lemma startswith_all_chars (P : ascii -> bool) old s :
  PyStr.startswith old s = true -> PyStr.all_chars P s = true -> PyStr.all_chars P old = true.
Proof.
  revert s. induction old as [|a old IH]; intros s; [done|].
  destruct s as [|b s]; [discriminate|]. cbn [PyStr.startswith PyStr.all_chars].
  destruct (decide (a = b)) as [->|]; [|discriminate].
  intros Hst [Hb Hs]%andb_true_iff. apply andb_true_iff. split; [done|]. by eapply IH.
Qed.

(** [s.replace(old, new)] is [s] when [old] has a character that [s]
    has not. *)
Lemma replace_absent (P : ascii -> bool) old new s :
  PyStr.all_chars P old = false -> PyStr.all_chars P s = true ->
  PyStr.replace old new s = s.
Proof.
  intros Hold. unfold PyStr.replace. destruct old as [|a old]; [discriminate|].
  induction s as [|c s IH]; [reflexivity|].
  intros Hs. cbn [PyStr.replace_scan].
  destruct (PyStr.startswith (String a old) (String c s)) eqn:Hst.
  - apply (startswith_all_chars P) in Hst; [congruence | exact Hs].
  - f_equal. apply IH. cbn [PyStr.all_chars] in Hs. by apply andb_true_iff in Hs as [_ ?].
Qed.

(** A name that matches [^[a-z]+$] goes through the three replacements
    and [lower] unchanged. *)
Lemma short_name_of_valid_name prefix nm :
  match_wf_name nm = true ->
  PyStr.replace "/" "-"
    (PyStr.replace (prefix +:+ "/") "" (PyStr.replace "/\s+/" "-" (PyStr.lower nm))) = nm.
Proof.
  intros Hnm. pose proof (match_wf_name_no_slash nm Hnm) as Hns.
  rewrite (match_wf_name_lower nm Hnm).
  rewrite (replace_absent (fun c => negb (Path.is_slash c)) "/\s+/" "-" nm) by done.
  rewrite (replace_absent (fun c => negb (Path.is_slash c)) (prefix +:+ "/") "" nm);
    [by apply replace_slash_no_slash | | exact Hns].
  rewrite all_chars_app. apply andb_false_iff. by right.
Qed.

(** A value passed for a field the document does not define is what
    [get_param] returns, without a question. *)
Lemma get_param_passed param_name s template_yaml path w :
  template_yaml !! param_name = None ->
  get_param param_name (Some s) template_yaml path w = (Ok (PStr s), w).
Proof.
  intros Hno. unfold get_param.
  rewrite bool_decide_eq_false_2 by (rewrite Hno; intros [? ?]; discriminate).
  reflexivity.
Qed.

Section NamesMore.

Variable E : env.

(** X7: A workflow name that matches [^[a-z]+$], passed for a run whose
    document, if any, gives no name: it is the short name as it stands,
    and the full name is the prefix, a slash and that name. *)
Theorem valid_name_is_short_name
    nm description author version outdir_arg path w params w' :
  create_param_dict E (Some nm) description author version outdir_arg path w = (Ok params, w') ->
  match path with
  | Some p => exists document, yaml_safe_load E p = Ok document /\ document !! "name" = None
  | None => True
  end ->
  match_wf_name nm = true ->
  exists prefix,
    params !! "prefix" = Some (PStr prefix) /\
    params !! "short_name" = Some (PStr nm) /\
    params !! "name" = Some (PStr (prefix +:+ "/" +:+ nm)).
Proof.
  intros H Hdoc Hnm. apply create_param_dict_inv in H
    as (document & customized & nv & dv & av & vv & Hload & (wa & wb & Hget) & _ & Hd).
  assert (Hnone : document !! "name" = None).
  { destruct path as [p|]; [|by subst document].
    destruct Hdoc as (document' & Hload' & Hno). destruct Hload as [Hload _]. congruence. }
  rewrite get_param_passed in Hget by exact Hnone. injection Hget as <- _.
  pose proof (derive_params_fields _ _ _ _ Hd) as (prefix' & short & Hp' & Hprefix & _).
  apply derive_params_inv in Hd as (prefix & nm' & areas & Hp & Hname & _ & ->).
  rewrite !lookup_insert_ne in Hname by done. rewrite lookup_insert_eq in Hname.
  injection Hname as <-. cbn zeta in *.
  assert (prefix' = prefix) as -> by congruence.
  exists prefix. rewrite short_name_of_valid_name in * by exact Hnm.
  split; [exact Hprefix|]. split; by lookup_inserted.
Qed.

Lemma no_slash_not_absolute n : no_slash n = true -> PyStr.startswith "/" n = false.
Proof.
  destruct n as [|c n]; [done|]. unfold no_slash. cbn [PyStr.all_chars PyStr.startswith].
  intros [Hc _]%andb_true_iff. apply negb_true_iff, bool_decide_eq_false in Hc.
  destruct (decide ("/"%char = c)); [congruence | done].
Qed.

(** X12: [__init__] keeps the flags it is given and an output directory that
    is passed; without one, the output directory is [name_noslash] inside
    the working directory: that name has no ["/"], so [os.path.join]
    never drops the working directory. *)
Theorem init_output_directory
    name description author version no_git_arg force_arg outdir_arg path w0 self w :
  init E name description author version no_git_arg force_arg outdir_arg path w0 = (Ok self, w) ->
  no_git self = no_git_arg /\ force self = force_arg /\
  match outdir_arg with
  | Some o => outdir self = o
  | None =>
      exists n,
        template_params self !! "name_noslash" = Some (PStr n) /\
        no_slash n = true /\
        outdir self = Path.join (cwd E) n /\
        outdir self = (if bool_decide (cwd E = "") || Path.endswith_slash (cwd E)
                       then cwd E +:+ n else cwd E +:+ "/" +:+ n)
  end.
Proof.
  unfold init. intros H.
  apply bind_Ok_inv in H as (params & w1 & Hparams & H).
  apply bind_Ok_inv in H as (od & w2 & Hod & H).
  injection H as <- _. cbn [no_git force outdir template_params].
  split; [reflexivity|]. split; [reflexivity|].
  destruct outdir_arg as [o|].
  - unfold ret in Hod. by injection Hod as <- _.
  - apply create_param_dict_derived in Hparams as (pd & yaml & v & Hd & _).
    apply derive_params_fields in Hd as (prefix & short & _ & _ & _ & _ & Hn & _).
    unfold bind, lift, getitem, ret in Hod. rewrite Hn in Hod. injection Hod as <- _.
    cbn [py_str]. eexists. split; [exact Hn|].
    assert (Hns : no_slash (PyStr.replace "/" "-" (prefix +:+ "/" +:+ short)) = true).
    { apply (replace_char_gone "/"%char "-"). reflexivity. }
    split; [exact Hns|]. split; [reflexivity|].
    unfold Path.join. by rewrite no_slash_not_absolute.
Qed.

(** [derive_params] succeeds as soon as the name is a string and the
    document gives a string for the prefix and a list for the skipped
    areas, or leaves them out. *)
Lemma derive_params_succeeds param_dict template_yaml version nm prefix skip :
  param_dict !! "name" = Some (PStr nm) ->
  default (PStr "nf-core") (template_yaml !! "prefix") = PStr prefix ->
  default (PList []) (template_yaml !! "skip") = PList skip ->
  exists params, derive_params param_dict template_yaml version = Ok params.
Proof.
  intros Hname Hprefix Hskip. unfold derive_params. rewrite Hprefix, Hskip.
  unfold set_areas. cbn [template_areas fmap list_fmap snd foldl py_in res_bind].
  unfold getitem. rewrite !lookup_insert_ne by done. rewrite Hname.
  cbn [res_bind as_str]. eauto.
Qed.

(** X8: Name, description and author passed, no document, and the user
    declines to customize: the one question asked is that one, the prefix
    is ["nf-core"], the pipeline is branded, and every template area is
    enabled. *)
Theorem declined_customization_gives_defaults
    nm description author version outdir_arg w rest :
  w_confirms w = false :: rest ->
  let m := create_param_dict E (Some nm) (Some description) (Some author) version outdir_arg None in
  new_events m w = [Ask "Do you want to customize which parts of the template are used?"] /\
  w_texts (world_after m w) = w_texts w /\
  exists params,
    result_of m w = Ok params /\
    params !! "prefix" = Some (PStr "nf-core") /\
    params !! "branded" = Some (PBool true) /\
    params !! "description" = Some (PStr description) /\
    params !! "author" = Some (PStr author) /\
    forall key, key ∈ template_areas.*2 -> params !! key = Some (PBool true).
Proof.
  intros Hconf. cbn zeta.
  set (pd := (<["version" := of_option version]>
                (<["author" := PStr author]>
                   (<["description" := PStr description]> (<["name" := PStr nm]> ∅)))
              : gmap string pyval)).
  assert (Hrun : create_param_dict E (Some nm) (Some description) (Some author) version
                   outdir_arg None w =
                 (derive_params pd ∅ (of_option version),
                  World (w_fs w) (w_texts w) rest (w_checkboxes w) (w_draws w) (w_requests w)
                    (w_trace w ++ [Ask "Do you want to customize which parts of the template are used?"]))).
  { unfold create_param_dict.
    erewrite bind_run by reflexivity. cbn beta.
    erewrite bind_run by (by apply get_param_passed). cbn beta.
    erewrite bind_run by (by apply get_param_passed). cbn beta.
    erewrite bind_run by (by apply get_param_passed). cbn beta.
    rewrite bool_decide_eq_false_2 by (rewrite lookup_empty; intros [? ?]; discriminate).
    erewrite bind_run by reflexivity. cbn beta.
    unfold bind, ask_confirm, bind, emit. cbn. rewrite Hconf. reflexivity. }
  unfold new_events, result_of, world_after. rewrite Hrun. cbn [fst snd w_trace w_texts].
  rewrite drop_app_length. split; [reflexivity|]. split; [reflexivity|].
  destruct (derive_params_succeeds pd ∅ (of_option version) nm "nf-core" [])
    as [params Hd]; [by (subst pd; lookup_inserted) | done | done |].
  exists params. split; [exact Hd|].
  pose proof (derive_params_fields _ _ _ _ Hd) as (prefix' & short & Hp' & Hprefix & _ & _ & _ & Hb & _).
  rewrite lookup_empty in Hp'. cbn in Hp'. injection Hp' as <-.
  split; [exact Hprefix|]. split; [exact Hb|].
  apply derive_params_inv in Hd as (prefix & nm' & areas & _ & _ & Hareas & ->).
  rewrite lookup_empty in Hareas. cbn [default] in Hareas.
  assert (Hother : forall key, key <> "ci" -> key <> "github_badges" -> key <> "igenomes" ->
            areas !! key = (<["skip" := PList []]> (<["prefix" := PStr prefix]> pd)) !! key).
  { intros key ? ? ?. apply (set_areas_other _ _ _ key Hareas). by apply not_area_key. }
  split; [|split].
  - rewrite !lookup_insert_ne by done. rewrite Hother by done. subst pd. by lookup_inserted.
  - rewrite !lookup_insert_ne by done. rewrite Hother by done. subst pd. by lookup_inserted.
  - intros key Hkey.
    destruct (set_areas_flags _ _ _ key Hareas Hkey) as (skipped & Hin & Hflag).
    cbn [py_in] in Hin. injection Hin as <-.
    assert (Hne : key <> "branded" /\ key <> "version" /\ key <> "logo_dark" /\
                  key <> "logo_light" /\ key <> "name_docker" /\ key <> "prefix_nodash" /\
                  key <> "name_noslash" /\ key <> "name" /\ key <> "short_name").
    { cbn in Hkey. repeat (apply elem_of_cons in Hkey as [->|Hkey]; [by repeat split|]).
      by apply elem_of_nil in Hkey. }
    destruct Hne as (? & ? & ? & ? & ? & ? & ? & ? & ?).
    rewrite !lookup_insert_ne by done. by rewrite Hflag.
Qed.

End NamesMore.

(** ** What the run does to the file system *)

Lemma paths_kept_ret {A} (a : A) : paths_kept (ret a).
Proof. by intros w p. Qed.

Lemma paths_kept_raise {A} e : paths_kept (@raise A e).
Proof. by intros w p. Qed.

Lemma paths_kept_lift {A} (r : res A) : paths_kept (lift r).
Proof. by intros w p. Qed.

Lemma paths_kept_log l msg : paths_kept (log l msg).
Proof. by intros w p. Qed.

Lemma paths_kept_bind {A B} (m : M A) (k : A -> M B) :
  paths_kept m -> (forall a, paths_kept (k a)) -> paths_kept (bind m k).
Proof.
  intros Hm Hk w p Hp. specialize (Hm w p Hp). unfold world_after, bind in *.
  destruct (m w) as [[a|e] w1]; cbn [snd] in *; [|done]. by apply (Hk a w1 p).
Qed.

Lemma paths_kept_try_except {A} (m : M A) handles handler :
  paths_kept m -> (forall e, paths_kept (handler e)) -> paths_kept (try_except m handles handler).
Proof.
  intros Hm Hh w p Hp. specialize (Hm w p Hp). unfold world_after, try_except in *.
  destruct (m w) as [[a|e] w1]; cbn [snd] in *; [done|].
  destruct (handles e); [|done]. by apply (Hh e w1 p).
Qed.

Lemma paths_kept_for_each {A} (l : list A) (body : A -> M unit) :
  (forall x, paths_kept (body x)) -> paths_kept (for_each l body).
Proof.
  intros Hbody. induction l as [|x l IH]; cbn [for_each].
  - apply paths_kept_ret.
  - apply paths_kept_bind; [apply Hbody | intros _; exact IH].
Qed.

Lemma insert_keeps (fs : gmap string node) p q nd :
  is_Some (fs !! p) -> is_Some (<[q := nd]> fs !! p).
Proof.
  intros Hp. destruct (decide (q = p)) as [->|Hne]; [by rewrite lookup_insert_eq|].
  by rewrite lookup_insert_ne.
Qed.

Lemma makedirs_keeps dirs fs p :
  is_Some (fs !! p) -> is_Some (foldr Os.mkdir_missing fs dirs !! p).
Proof.
  intros Hp. induction dirs as [|d dirs IH]; [done|]. cbn [foldr]. by apply mkdir_missing_keeps.
Qed.

Lemma paths_kept_exists p : paths_kept (Os.exists_ p).
Proof. by intros w q. Qed.

Lemma paths_kept_makedirs p : paths_kept (Os.makedirs p).
Proof.
  intros w q Hq. unfold world_after, Os.makedirs, bind, get_fs, set_fs. cbn [snd w_fs].
  by apply makedirs_keeps.
Qed.

Lemma paths_kept_write_file mode p text : paths_kept (Os.write_file mode p text).
Proof.
  intros w q Hq. unfold world_after, Os.write_file, bind, get_fs, set_fs. cbn [snd w_fs].
  by apply insert_keeps.
Qed.

Lemma paths_kept_copy content st_mode p : paths_kept (Os.copy content st_mode p).
Proof.
  intros w q Hq. unfold world_after, Os.copy, bind, get_fs, set_fs. cbn [snd w_fs].
  by apply insert_keeps.
Qed.

Lemma paths_kept_chmod p mode : paths_kept (Os.chmod p mode).
Proof.
  intros w q Hq. unfold world_after, Os.chmod, bind, get_fs, set_fs. cbn.
  destruct (w_fs w !! p) as [[|f]|]; cbn; try done. by apply insert_keeps.
Qed.

Ltac kept_step :=
  lazymatch goal with
  | |- forall _, _ => intros ?
  | |- paths_kept (bind _ _) => apply paths_kept_bind
  | |- paths_kept (try_except _ _ _) => apply paths_kept_try_except
  | |- paths_kept (for_each _ _) => apply paths_kept_for_each
  | |- paths_kept (ret _) => apply paths_kept_ret
  | |- paths_kept (raise _) => apply paths_kept_raise
  | |- paths_kept (lift _) => apply paths_kept_lift
  | |- paths_kept (log _ _) => apply paths_kept_log
  | |- paths_kept (Os.exists_ _) => apply paths_kept_exists
  | |- paths_kept (Os.makedirs _) => apply paths_kept_makedirs
  | |- paths_kept (Os.write_file _ _ _) => apply paths_kept_write_file
  | |- paths_kept (Os.copy _ _ _) => apply paths_kept_copy
  | |- paths_kept (Os.chmod _ _) => apply paths_kept_chmod
  | |- paths_kept (let _ := _ in _) => cbv zeta
  | |- paths_kept _ => case_match
  end.

Ltac solve_kept := repeat kept_step.

Section FilesMore.

Variable E : env.

Lemma paths_kept_randint a b : paths_kept (randint E a b).
Proof. by intros w p. Qed.

Lemma paths_kept_http_get url : paths_kept (http_get E url).
Proof.
  intros w p Hp. unfold world_after, http_get, bind, emit. cbn.
  by destruct (requests_get E url (w_requests w)).
Qed.

Lemma paths_kept_imghdr img_fn : paths_kept (imghdr_is_png img_fn).
Proof.
  intros w p Hp. unfold world_after, imghdr_is_png, bind, get_fs. cbn.
  by destruct (w_fs w !! img_fn) as [[|f]|].
Qed.

Lemma paths_kept_process_entry outdir attrs renames entry :
  paths_kept (process_entry E outdir attrs renames entry).
Proof. unfold process_entry, render_to, copy_instead. solve_kept. Qed.

Lemma paths_kept_download_attempts remaining : forall url img_fn attempt retry_delay,
  paths_kept (download_attempts E remaining url img_fn attempt retry_delay).
Proof.
  induction remaining as [|remaining IH]; intros url img_fn attempt retry_delay;
    cbn [download_attempts].
  - apply paths_kept_ret.
  - apply paths_kept_bind; [solve_kept; by intros w p|]. intros _.
    apply paths_kept_bind; [apply paths_kept_randint|]. intros r.
    apply paths_kept_bind; [apply paths_kept_log|]. intros _.
    apply paths_kept_bind.
    + apply paths_kept_try_except; [|solve_kept].
      apply paths_kept_bind; [apply paths_kept_http_get | solve_kept].
    + intros [content|]; [|apply IH].
      apply paths_kept_bind; [apply paths_kept_write_file|]. intros _.
      apply paths_kept_bind; [apply paths_kept_imghdr|]. intros [|]; [apply paths_kept_ret|].
      apply paths_kept_bind; [apply paths_kept_log | intros _; apply IH].
Qed.

Lemma paths_kept_make_pipeline_logo self : paths_kept (make_pipeline_logo E self).
Proof.
  unfold make_pipeline_logo, download_pipeline_logo.
  repeat lazymatch goal with
         | |- paths_kept (download_attempts _ _ _ _ _ _) => apply paths_kept_download_attempts
         | |- _ => kept_step
         end.
Qed.

Lemma paths_kept_render_template self : paths_kept (render_template E self).
Proof.
  unfold render_template.
  repeat lazymatch goal with
         | |- paths_kept (process_entry _ _ _ _ _) => apply paths_kept_process_entry
         | |- paths_kept (make_pipeline_logo _ _) => apply paths_kept_make_pipeline_logo
         | |- _ => kept_step
         end.
Qed.

(** X16: [render_template] removes no path from the file system, however it
    ends: with [force] the files already in the destination that the
    template does not overwrite stay where they are. *)
Theorem render_template_removes_nothing self w p :
  is_Some (w_fs w !! p) ->
  is_Some (w_fs (world_after (render_template E self) w) !! p).
Proof. apply paths_kept_render_template. Qed.

Lemma makedirs_existing dirs (fs : gmap string node) :
  (forall d, d ∈ dirs -> is_Some (fs !! d)) -> foldr Os.mkdir_missing fs dirs = fs.
Proof.
  induction dirs as [|d dirs IH]; [done|]. intros Hall. cbn [foldr].
  rewrite IH by (intros d' Hd'; apply Hall; by apply elem_of_cons; right).
  unfold Os.mkdir_missing. destruct (Hall d ltac:(by apply elem_of_cons; left)) as [nd ->].
  reflexivity.
Qed.

(** X13: Processing a template entry a second time changes nothing in the
    file system: the top-level files, which the list of template files
    holds twice, are written twice with the same result. *)
Theorem process_entry_twice outdir attrs renames entry w :
  let m := process_entry E outdir attrs renames entry in
  w_fs (world_after (m ;;; m) w) = w_fs (world_after m w).
Proof.
  cbn zeta. set (m := process_entry E outdir attrs renames entry).
  pose proof (process_entry_ok E outdir attrs renames entry w) as Hok. fold m in Hok.
  unfold world_after, result_of in *. unfold bind.
  destruct (m w) as [r w1] eqn:Hstep. cbn [fst snd] in *. subst r.
  assert (Hw1 : w1 = world_after m w) by (unfold world_after; by rewrite Hstep).
  subst m. destruct entry as [template_fn [|content st_mode]].
  - reflexivity.
  - destruct (ignored E template_fn) eqn:Hign.
    + unfold process_entry. cbn [fst snd]. unfold ignored in Hign. by rewrite Hign.
    + destruct (process_entry_file E outdir attrs renames template_fn content st_mode w Hign)
        as (_ & Hfs & _).
      destruct (process_entry_file E outdir attrs renames template_fn content st_mode w1 Hign)
        as (_ & Hfs1 & _).
      cbn zeta in Hfs, Hfs1. unfold world_after in Hfs1. rewrite Hfs1.
      rewrite <- Hw1 in Hfs. rewrite Hfs at 2.
      rewrite makedirs_existing.
      * rewrite Hfs. apply insert_insert_eq.
      * intros d Hd. rewrite Hfs. apply insert_keeps. by apply makedirs_creates.
Qed.

Lemma last_st_mode_none outdir renames p entries :
  (forall entry, entry ∈ entries -> emitted_to E outdir renames p entry = false) ->
  last_st_mode E outdir renames p entries = None.
Proof.
  induction entries as [|entry entries IH]; [done|]. intros Hall. cbn [last_st_mode].
  rewrite IH by (intros e He; apply Hall; by apply elem_of_cons; right).
  by rewrite (Hall entry) by (by apply elem_of_cons; left).
Qed.

(** X14: The walk creates and changes regular files at the output paths of
    the template files it does not ignore, and nowhere else. *)
Theorem walk_touches_output_paths_only outdir attrs renames entries w p :
  (forall entry, entry ∈ entries -> emitted_to E outdir renames p entry = false) ->
  forall f,
    w_fs (world_after (for_each entries (process_entry E outdir attrs renames)) w) !! p
      = Some (NFile f) <->
    w_fs w !! p = Some (NFile f).
Proof.
  intros Hnone. pose proof (walk_last_mode E outdir attrs renames entries w p) as Hwalk.
  cbn zeta in Hwalk. by rewrite last_st_mode_none in Hwalk.
Qed.

(** X15: After the walk, the directory of every file written, and each
    directory above it, exists. *)
Theorem walk_creates_parent_directories outdir attrs renames entries w template_fn content st_mode d :
  (template_fn, TFile content st_mode) ∈ entries ->
  ignored E template_fn = false ->
  d ∈ Path.dirname (output_path_of outdir renames template_fn)
      :: Path.parents (Path.dirname (output_path_of outdir renames template_fn)) ->
  is_Some (w_fs (world_after (for_each entries (process_entry E outdir attrs renames)) w) !! d).
Proof.
  intros Hin Hign Hd. revert w. induction entries as [|entry entries IH]; intros w;
    [by apply elem_of_nil in Hin|].
  unfold world_after. cbn [for_each]. unfold bind.
  pose proof (process_entry_ok E outdir attrs renames entry w) as Hok.
  unfold result_of in Hok.
  destruct (process_entry E outdir attrs renames entry w) as [r w1] eqn:Hstep.
  cbn [fst] in Hok. subst r.
  apply elem_of_cons in Hin as [<-|Hin]; [|by apply IH].
  apply (paths_kept_for_each entries _ (paths_kept_process_entry outdir attrs renames) w1 d).
  destruct (process_entry_file E outdir attrs renames template_fn content st_mode w Hign)
    as (_ & Hfs & _).
  cbn zeta in Hfs. unfold world_after in Hfs. rewrite Hstep in Hfs. cbn [snd] in Hfs.
  rewrite Hfs. apply insert_keeps. by apply makedirs_creates.
Qed.

End FilesMore.

(** ** Documents and customization *)

Lemma with_events_app tr1 tr2 w : with_events tr2 (with_events tr1 w) = with_events (tr1 ++ tr2) w.
Proof. unfold with_events. cbn. by rewrite <- app_assoc. Qed.

Lemma with_events_nil w : with_events [] w = w.
Proof. destruct w. unfold with_events. cbn. by rewrite app_nil_r. Qed.

Lemma no_question_app tr1 tr2 : no_question tr1 -> no_question tr2 -> no_question (tr1 ++ tr2).
Proof. intros H1 H2 q [?|?]%elem_of_app; [by eapply H1 | by eapply H2]. Qed.

Lemma no_question_nil : no_question [].
Proof. intros q Hq. by apply elem_of_nil in Hq. Qed.

Lemma no_question_log l msg : no_question [Log l msg].
Proof. intros q Hq. apply list_elem_of_singleton in Hq. discriminate. Qed.

(** A field the document defines is read from the document, under the
    key ["name"], with at most a log record. *)
Lemma get_param_from_document param_name passed_value template_yaml path w v :
  is_Some (template_yaml !! param_name) ->
  template_yaml !! "name" = Some v ->
  v <> PNone ->
  exists tr,
    get_param param_name passed_value template_yaml path w = (Ok v, with_events tr w) /\
    no_question tr.
Proof.
  intros Hdef Hname Hv. unfold get_param. rewrite bool_decide_eq_true_2 by exact Hdef.
  unfold getitem. rewrite Hname.
  destruct passed_value as [s|].
  - eexists. split; [|apply no_question_log].
    unfold bind, log, emit, lift, with_events. cbn. by destruct v.
  - exists []. split; [|apply no_question_nil]. rewrite with_events_nil.
    unfold bind, ret, lift. by destruct v.
Qed.

Lemma ask_until_checkboxes valid err question fuel : forall answer w,
  w_checkboxes (world_after (ask_until valid err question fuel answer) w) = w_checkboxes w.
Proof.
  induction fuel as [|fuel IH]; intros answer w; cbn [ask_until];
    (destruct (valid answer); [reflexivity|]);
    destruct (w_texts w) as [|a rest] eqn:Htexts;
    unfold world_after; unfold bind at 1; unfold log, emit; unfold bind at 1;
    rewrite ask_text_run; cbn [w_texts]; rewrite Htexts; try reflexivity.
  match goal with |- context [ask_until valid err question fuel a ?w0] =>
    apply (IH a w0) end.
Qed.

(** [customize_template], read back from a normal return. *)
Lemma customize_template_inv areas w d w' :
  customize_template areas w = (Ok d, w') ->
  exists prefix ticked more,
    first_valid match_prefix (w_texts w) = Ok prefix /\
    w_checkboxes w = ticked :: more /\
    d = <["skip" := PList (filter (fun v => v ∈ areas.*2) ticked)]>
          (<["prefix" := PStr prefix]> ∅).
Proof.
  unfold customize_template. unfold bind at 1. rewrite ask_text_run.
  destruct (w_texts w) as [|a rest] eqn:Htexts; [discriminate|].
  unfold bind at 1. unfold pending_texts at 1. cbn [w_texts].
  unfold bind at 1.
  match goal with |- context [ask_until ?v ?e ?q ?n a ?w0] =>
    destruct (ask_until_first_valid v e q rest n a w0 eq_refl ltac:(lia))
      as (w1 & Hrun & _);
    pose proof (ask_until_checkboxes v e q n a w0) as Hboxes end.
  unfold world_after in Hboxes. rewrite Hrun in *. cbn [snd w_checkboxes] in Hboxes.
  destruct (first_valid match_prefix (a :: rest)) as [prefix|e] eqn:Hfirst; [|discriminate].
  unfold bind at 1. unfold ask_checkbox, bind, emit. cbn [fst snd w_checkboxes].
  rewrite Hboxes.
  destruct (w_checkboxes w) as [|ticked more]; [discriminate|].
  cbn. intros H. injection H as <- _. by exists prefix, ticked, more.
Qed.

Section ResolverLast.

Variable E : env.

(** X10: A document that defines the three fields and gives a name makes
    [create_param_dict] silent towards the user: no question is asked and
    no answer is consumed, whatever the run returns. *)
Theorem document_makes_run_non_interactive
    name description author version outdir_arg p w document v :
  yaml_safe_load E p = Ok document ->
  document !! "name" = Some v ->
  v <> PNone ->
  is_Some (document !! "description") ->
  is_Some (document !! "author") ->
  let m := create_param_dict E name description author version outdir_arg (Some p) in
  no_question (new_events m w) /\
  w_texts (world_after m w) = w_texts w /\
  w_confirms (world_after m w) = w_confirms w /\
  w_checkboxes (world_after m w) = w_checkboxes w.
Proof.
  intros Hload Hname Hv Hdesc Hauth. cbn zeta.
  assert (Hrun : exists r tr,
    create_param_dict E name description author version outdir_arg (Some p) w
      = (r, with_events tr w) /\ no_question tr).
  { unfold create_param_dict. rewrite Hload.
    erewrite bind_run by reflexivity. cbn beta.
    destruct (get_param_from_document "name" name document (Some p) w v)
      as (tr1 & Hg1 & Hq1); [eauto | done | done |].
    rewrite (bind_run _ _ _ _ _ Hg1). cbn beta.
    destruct (get_param_from_document "description" description document (Some p)
                (with_events tr1 w) v) as (tr2 & Hg2 & Hq2); [done..|].
    rewrite (bind_run _ _ _ _ _ Hg2). cbn beta.
    destruct (get_param_from_document "author" author document (Some p)
                (with_events tr2 (with_events tr1 w)) v) as (tr3 & Hg3 & Hq3); [done..|].
    rewrite (bind_run _ _ _ _ _ Hg3). cbn beta zeta.
    assert (Hver : forall w0, exists vv tr4,
      (if bool_decide (is_Some (document !! "version")) then
         (if version is Some _ then
            log INFO ("Overriding --version with version found in " +:+ path_str (Some p))
          else ret tt) ;;;
         lift (getitem document "version")
       else ret (of_option version)) w0
      = (Ok vv, with_events tr4 w0) /\ no_question tr4).
    { intros w0. destruct (document !! "version") as [vv|] eqn:Hvv.
      - rewrite bool_decide_eq_true_2 by eauto. unfold getitem. rewrite Hvv.
        destruct version as [s|].
        + eexists _, _. split; [reflexivity | apply no_question_log].
        + exists vv, []. split; [|apply no_question_nil]. by rewrite with_events_nil.
      - rewrite bool_decide_eq_false_2 by (intros [? ?]; discriminate).
        eexists _, []. split; [|apply no_question_nil]. by rewrite with_events_nil. }
    match goal with |- context [bind _ _ ?w0] => destruct (Hver w0) as (vv & tr4 & Hv4 & Hq4) end.
    rewrite (bind_run _ _ _ _ _ Hv4). cbn beta zeta.
    erewrite bind_run by reflexivity. cbn beta.
    rewrite !with_events_app.
    eexists _, _. split; [reflexivity|].
    repeat apply no_question_app; assumption. }
  destruct Hrun as (r & tr & Hrun & Hq).
  unfold new_events, world_after. rewrite Hrun. cbn [snd with_events w_trace w_texts w_confirms w_checkboxes].
  rewrite drop_app_length. done.
Qed.

(** X11: A document that cannot be loaded stops [__init__] at once: the
    exception of the loader comes out, and nothing was asked, logged or
    written. *)
Theorem unreadable_document_stops_init
    name description author version no_git_arg force_arg outdir_arg p w e :
  yaml_safe_load E p = Raise e ->
  init E name description author version no_git_arg force_arg outdir_arg (Some p) w = (Raise e, w).
Proof.
  intros Hload. unfold init, create_param_dict, bind, lift. by rewrite Hload.
Qed.

(** X9: Name, description and author passed, no document, and the user
    asks to customize: the prefix is the first answer that matches the
    prefix pattern, the pipeline is branded exactly when that answer is
    ["nf-core"], and an area is enabled exactly when it was not ticked. *)
Theorem customized_prefix_and_areas
    nm description author version outdir_arg w rest params :
  w_confirms w = true :: rest ->
  result_of (create_param_dict E (Some nm) (Some description) (Some author) version
               outdir_arg None) w = Ok params ->
  exists prefix ticked more,
    first_valid match_prefix (w_texts w) = Ok prefix /\
    w_checkboxes w = ticked :: more /\
    params !! "prefix" = Some (PStr prefix) /\
    params !! "branded" = Some (PBool (bool_decide (prefix = "nf-core"))) /\
    forall key, key ∈ template_areas.*2 ->
      params !! key = Some (PBool (bool_decide (key ∉ ticked))).
Proof.
  intros Hconf. unfold result_of, create_param_dict.
  erewrite bind_run by reflexivity. cbn beta.
  erewrite bind_run by (by apply get_param_passed). cbn beta.
  erewrite bind_run by (by apply get_param_passed). cbn beta.
  erewrite bind_run by (by apply get_param_passed). cbn beta zeta.
  rewrite bool_decide_eq_false_2 by (rewrite lookup_empty; intros [? ?]; discriminate).
  erewrite bind_run by reflexivity. cbn beta zeta.
  rewrite bind_assoc_run.
  erewrite bind_run
    by (unfold ask_confirm, bind, emit; cbn [fst snd w_confirms]; rewrite Hconf; reflexivity).
  cbn beta iota. rewrite bind_assoc_run.
  match goal with |- context [bind (customize_template template_areas) _ ?w0] =>
    destruct (customize_template template_areas w0) as [[chosen|e] w2] eqn:Hcust end.
  2: { unfold bind at 1. rewrite Hcust. discriminate. }
  rewrite (bind_run _ _ _ _ _ Hcust). cbn beta.
  erewrite bind_run by reflexivity. cbn beta.
  apply customize_template_inv in Hcust as (prefix & ticked & more & Hfirst & Hboxes & ->).
  cbn [w_texts w_checkboxes] in Hfirst, Hboxes.
  unfold lift. cbn [fst]. rewrite (right_id_L ∅ (∪)). intros Hd.
  exists prefix, ticked, more. split; [exact Hfirst|]. split; [exact Hboxes|].
  pose proof (derive_params_fields _ _ _ _ Hd)
    as (prefix' & short & Hp' & Hprefix & _ & _ & _ & Hb & _).
  rewrite lookup_insert_ne, lookup_insert_eq in Hp' by done. cbn in Hp'. injection Hp' as <-.
  split; [exact Hprefix|]. split; [exact Hb|].
  apply derive_params_inv in Hd as (prefix0 & nm' & areas & _ & _ & Hareas & ->).
  rewrite lookup_insert_eq in Hareas. cbn [default] in Hareas.
  intros key Hkey.
  destruct (set_areas_flags _ _ _ key Hareas Hkey) as (skipped & Hin & Hflag).
  cbn [py_in] in Hin. injection Hin as <-.
  assert (Hne : key <> "branded" /\ key <> "version" /\ key <> "logo_dark" /\
                key <> "logo_light" /\ key <> "name_docker" /\ key <> "prefix_nodash" /\
                key <> "name_noslash" /\ key <> "name" /\ key <> "short_name").
  { cbn in Hkey. repeat (apply elem_of_cons in Hkey as [->|Hkey]; [by repeat split|]).
    by apply elem_of_nil in Hkey. }
  destruct Hne as (? & ? & ? & ? & ? & ? & ? & ? & ?).
  rewrite !lookup_insert_ne by done. rewrite Hflag. f_equal. f_equal.
  apply eq_true_iff_eq. rewrite negb_true_iff, bool_decide_eq_false, bool_decide_eq_true.
  rewrite list_elem_of_filter. tauto.
Qed.

End ResolverLast.

(** ** The further properties on the sample inputs *)

(** A run that returns normally, written with the value it returns. *)
Lemma run_eta {A} (run : res A * world) (d : A) :
  is_ok run.1 = true ->
  run = (Ok (match run.1 with Ok a => a | Raise _ => d end), run.2).
Proof. destruct run as [[a|e] w]; cbn; [reflexivity | discriminate]. Qed.


Lemma customize_template_valid_witness :
  result_of (customize_template template_areas) world_typing = Ok typed_customization /\
  exists prefix skip,
    typed_customization = <["skip" := PList skip]> (<["prefix" := PStr prefix]> ∅) /\
    first_valid match_prefix (w_texts world_typing) = Ok prefix /\
    match_prefix prefix = true /\
    forall key, key ∈ skip -> key ∈ template_areas.*2.
Proof.
  split; [vm_compute; reflexivity|].
  apply (customize_template_valid template_areas world_typing typed_customization).
  vm_compute; reflexivity.
Defined.

Lemma version_from_document_or_argument_witness :
  let E := sample_env unreachable in
  run_with_document E = (Ok (params_of (run_with_document E)), (run_with_document E).2) /\
  exists document,
    yaml_safe_load E "template.yml" = Ok document /\
    params_of (run_with_document E) !! "version"
      = Some (default (of_option (Some "1.0dev")) (document !! "version")).
Proof.
  cbn zeta.
  assert (Hrun : run_with_document (sample_env unreachable)
                 = (Ok (params_of (run_with_document (sample_env unreachable))),
                    (run_with_document (sample_env unreachable)).2))
    by (apply run_eta; vm_compute; reflexivity).
  split; [exact Hrun|].
  exact (version_from_document_or_argument (sample_env unreachable)
           None None None (Some "1.0dev") (Some "out") (Some "template.yml") empty_world
           _ _ Hrun).
Defined.

Lemma areas_enabled_unless_skipped_witness :
  let E := sample_env unreachable in
  run_with_document E = (Ok (params_of (run_with_document E)), (run_with_document E).2) /\
  yaml_safe_load E "template.yml" = Ok sample_yaml /\
  default (PList []) (sample_yaml !! "skip") = PList ["ci"; "igenomes"] /\
  params_of (run_with_document E) !! "skip" = Some (PList []) /\
  forall key, key ∈ template_areas.*2 ->
    params_of (run_with_document E) !! key
      = Some (PBool (bool_decide (key ∉ ["ci"; "igenomes"]))).
Proof.
  cbn zeta.
  assert (Hrun : run_with_document (sample_env unreachable)
                 = (Ok (params_of (run_with_document (sample_env unreachable))),
                    (run_with_document (sample_env unreachable)).2))
    by (apply run_eta; vm_compute; reflexivity).
  split; [exact Hrun|]. split; [reflexivity|]. split; [reflexivity|].
  exact (areas_enabled_unless_skipped (sample_env unreachable)
           None None None (Some "1.0dev") (Some "out") "template.yml" empty_world
           _ _ sample_yaml ["ci"; "igenomes"] Hrun eq_refl eq_refl).
Defined.

Lemma derived_names_have_no_separator_witness :
  let E := sample_env unreachable in
  run_with_document E = (Ok (params_of (run_with_document E)), (run_with_document E).2) /\
  exists short_name name_noslash prefix_nodash,
    params_of (run_with_document E) !! "short_name" = Some (PStr short_name) /\
    no_slash short_name = true /\
    params_of (run_with_document E) !! "name_noslash" = Some (PStr name_noslash) /\
    no_slash name_noslash = true /\
    params_of (run_with_document E) !! "logo_light"
      = Some (PStr (name_noslash +:+ "_logo_light.png")) /\
    params_of (run_with_document E) !! "logo_dark"
      = Some (PStr (name_noslash +:+ "_logo_dark.png")) /\
    no_slash (name_noslash +:+ "_logo_light.png") = true /\
    no_slash (name_noslash +:+ "_logo_dark.png") = true /\
    params_of (run_with_document E) !! "prefix_nodash" = Some (PStr prefix_nodash) /\
    no_hyphen prefix_nodash = true.
Proof.
  cbn zeta.
  assert (Hrun : run_with_document (sample_env unreachable)
                 = (Ok (params_of (run_with_document (sample_env unreachable))),
                    (run_with_document (sample_env unreachable)).2))
    by (apply run_eta; vm_compute; reflexivity).
  split; [exact Hrun|].
  exact (derived_names_have_no_separator (sample_env unreachable)
           None None None (Some "1.0dev") (Some "out") (Some "template.yml") empty_world
           _ _ Hrun).
Defined.

Lemma download_logo_writes_only_on_200_witness :
  let E := sample_env always_404 in
  let m := download_pipeline_logo E "https://nf-co.re/logo/foo" "out/assets/logo.png" in
  (forall i content, (i < 10)%nat ->
     requests_get E "https://nf-co.re/logo/foo" (w_requests world_with_notes + i)
       <> Response 200 content) /\
  w_fs (world_after m world_with_notes) =
    foldr Os.mkdir_missing (w_fs world_with_notes)
      (Path.dirname "out/assets/logo.png" :: Path.parents (Path.dirname "out/assets/logo.png")) /\
  same_files (w_fs world_with_notes) (w_fs (world_after m world_with_notes)).
Proof.
  cbn zeta.
  assert (Hno : forall i content, (i < 10)%nat ->
            requests_get (sample_env always_404) "https://nf-co.re/logo/foo"
              (w_requests world_with_notes + i) <> Response 200 content)
    by (intros i content _; discriminate).
  split; [exact Hno|].
  exact (download_logo_writes_only_on_200 (sample_env always_404)
           "https://nf-co.re/logo/foo" "out/assets/logo.png" world_with_notes Hno).
Defined.

Lemma download_logo_keeps_last_non_image_witness :
  let E := sample_env always_html in
  let m := download_pipeline_logo E "https://nf-co.re/logo/foo" "out/assets/logo.png" in
  (forall i, (i < 10)%nat -> exists content,
     requests_get E "https://nf-co.re/logo/foo" (w_requests empty_world + i)
       = Response 200 content /\
     PyStr.startswith png_magic content = false) /\
  exists content mode,
    requests_get E "https://nf-co.re/logo/foo" (w_requests empty_world + 9)
      = Response 200 content /\
    PyStr.startswith png_magic content = false /\
    result_of m empty_world = Ok tt /\
    count_gets (new_events m empty_world) = 10%nat /\
    w_fs (world_after m empty_world) !! "out/assets/logo.png"
      = Some (NFile (File content mode)).
Proof.
  cbn zeta.
  assert (Hall : forall i, (i < 10)%nat -> exists content,
            requests_get (sample_env always_html) "https://nf-co.re/logo/foo"
              (w_requests empty_world + i) = Response 200 content /\
            PyStr.startswith png_magic content = false)
    by (intros i _; eexists; split; reflexivity).
  split; [exact Hall|].
  exact (download_logo_keeps_last_non_image (sample_env always_html)
           "https://nf-co.re/logo/foo" "out/assets/logo.png" empty_world Hall).
Defined.




Lemma init_pipeline_never_reaches_git_witness :
  let E := sample_env always_png in
  let self := built E false "template.yml" empty_world in
  let w := (run_init E false "template.yml" empty_world).2 in
  run_init E false "template.yml" empty_world = (Ok self, w) /\
  no_git self = false /\
  (exists e, result_of (init_pipeline E failing_git self) w = Raise e /\
             result_of (render_template E self) w = Raise e) /\
  world_after (init_pipeline E failing_git self) w = world_after (render_template E self) w.
Proof.
  cbn zeta.
  assert (Hinit : run_init (sample_env always_png) false "template.yml" empty_world
                  = (Ok (built (sample_env always_png) false "template.yml" empty_world),
                     (run_init (sample_env always_png) false "template.yml" empty_world).2))
    by (apply run_eta; vm_compute; reflexivity).
  split; [exact Hinit|]. split; [vm_compute; reflexivity|].
  exact (init_pipeline_never_reaches_git (sample_env always_png) failing_git
           _ _ _ _ _ _ _ _ _ _ _ Hinit).
Defined.

Lemma init_pipeline_no_git_ignores_git_witness :
  let E := sample_env always_png in
  no_git self_no_git = true /\
  init_pipeline E failing_git self_no_git empty_world
    = init_pipeline E quiet_git self_no_git empty_world /\
  result_of (init_pipeline E failing_git self_no_git) empty_world = Ok tt.
Proof.
  cbn zeta. split; [reflexivity|].
  destruct (init_pipeline_no_git_ignores_git (sample_env always_png) failing_git
              self_no_git empty_world eq_refl) as [Hsame _].
  split; [exact Hsame|]. vm_compute; reflexivity.
Defined.

Lemma git_init_pipeline_raises_after_commit_witness :
  let E := sample_env always_png in
  let self := built E false "template.yml" empty_world in
  template_params self !! "outdir" = None /\
  git_never_fails quiet_git /\
  result_of (git_init_pipeline E quiet_git self) empty_world = Raise (KeyError "outdir").
Proof.
  cbn zeta.
  assert (Hno : template_params (built (sample_env always_png) false "template.yml" empty_world)
                  !! "outdir" = None) by (vm_compute; reflexivity).
  assert (Hgit : git_never_fails quiet_git) by (repeat split).
  split; [exact Hno|]. split; [exact Hgit|].
  exact (proj1 (git_init_pipeline_raises_after_commit (sample_env always_png) quiet_git
                  _ empty_world Hno Hgit)).
Defined.

Lemma valid_name_is_short_name_witness :
  let E := sample_env unreachable in
  let run := run_with_name E world_declining in
  run = (Ok (params_of run), run.2) /\
  match_wf_name "rnaseq" = true /\
  exists prefix,
    params_of run !! "prefix" = Some (PStr prefix) /\
    params_of run !! "short_name" = Some (PStr "rnaseq") /\
    params_of run !! "name" = Some (PStr (prefix +:+ "/" +:+ "rnaseq")).
Proof.
  cbn zeta.
  assert (Hrun : run_with_name (sample_env unreachable) world_declining
                 = (Ok (params_of (run_with_name (sample_env unreachable) world_declining)),
                    (run_with_name (sample_env unreachable) world_declining).2))
    by (apply run_eta; vm_compute; reflexivity).
  split; [exact Hrun|]. split; [reflexivity|].
  exact (valid_name_is_short_name (sample_env unreachable) "rnaseq"
           (Some "A pipeline") (Some "Ada") (Some "1.0dev") None None world_declining
           _ _ Hrun I eq_refl).
Defined.

Lemma init_output_directory_witness :
  let E := sample_env unreachable in
  init_default E = (Ok (self_default E), (init_default E).2) /\
  outdir (self_default E) = "/home/ada/nf-core-rnaseq" /\
  exists n,
    template_params (self_default E) !! "name_noslash" = Some (PStr n) /\
    no_slash n = true /\
    outdir (self_default E) = Path.join (cwd E) n /\
    outdir (self_default E) = (if bool_decide (cwd E = "") || Path.endswith_slash (cwd E)
                               then cwd E +:+ n else cwd E +:+ "/" +:+ n).
Proof.
  cbn zeta.
  assert (Hinit : init_default (sample_env unreachable)
                  = (Ok (self_default (sample_env unreachable)),
                     (init_default (sample_env unreachable)).2))
    by (apply run_eta; vm_compute; reflexivity).
  split; [exact Hinit|]. split; [vm_compute; reflexivity|].
  exact (proj2 (proj2 (init_output_directory (sample_env unreachable)
                         _ _ _ _ _ _ None _ _ _ _ Hinit))).
Defined.

Lemma declined_customization_gives_defaults_witness :
  let E := sample_env unreachable in
  let m := create_param_dict E (Some "rnaseq") (Some "A pipeline") (Some "Ada") (Some "1.0dev")
             None None in
  w_confirms world_declining = false :: [] /\
  new_events m world_declining
    = [Ask "Do you want to customize which parts of the template are used?"] /\
  exists params,
    result_of m world_declining = Ok params /\
    params !! "prefix" = Some (PStr "nf-core") /\
    params !! "branded" = Some (PBool true).
Proof.
  cbn zeta. split; [reflexivity|].
  destruct (declined_customization_gives_defaults (sample_env unreachable)
              "rnaseq" "A pipeline" "Ada" (Some "1.0dev") None world_declining [] eq_refl)
    as (Hev & _ & params & Hres & Hprefix & Hbranded & _).
  split; [exact Hev|]. exists params. split; [exact Hres|]. split; [exact Hprefix | exact Hbranded].
Defined.

Lemma render_template_removes_nothing_witness :
  let E := sample_env always_png in
  is_Some (w_fs world_with_notes !! "out/notes.txt") /\
  is_Some (w_fs (world_after (render_template E (Self (template_params self_with_outdir)
                                                       false true "out"))
                   world_with_notes) !! "out/notes.txt").
Proof.
  cbn zeta.
  assert (Hthere : is_Some (w_fs world_with_notes !! "out/notes.txt")) by (vm_compute; eauto).
  split; [exact Hthere|].
  exact (render_template_removes_nothing (sample_env always_png) _ world_with_notes
           "out/notes.txt" Hthere).
Defined.

Lemma walk_touches_output_paths_only_witness :
  let E := sample_env unreachable in
  (forall entry, entry ∈ sample_tree -> emitted_to E "out" ∅ "out/notes.txt" entry = false) /\
  w_fs (world_after (for_each sample_tree (process_entry E "out" ∅ ∅)) world_with_notes)
    !! "out/notes.txt" = Some (NFile (File "keep me" 420)).
Proof.
  cbn zeta.
  assert (Hnone : forall entry, entry ∈ sample_tree ->
            emitted_to (sample_env unreachable) "out" ∅ "out/notes.txt" entry = false).
  { intros entry Hin. unfold sample_tree in Hin.
    repeat (apply elem_of_cons in Hin as [->|Hin]; [vm_compute; reflexivity|]).
    by apply elem_of_nil in Hin. }
  split; [exact Hnone|].
  apply (walk_touches_output_paths_only (sample_env unreachable) "out" ∅ ∅ sample_tree
           world_with_notes "out/notes.txt" Hnone).
  vm_compute; reflexivity.
Defined.

Lemma walk_creates_parent_directories_witness :
  let E := sample_env unreachable in
  ignored E ".github/workflows/ci.yml" = false /\
  is_Some (w_fs (world_after (for_each sample_tree (process_entry E "out" ∅ ∅)) empty_world)
             !! "out/.github").
Proof.
  cbn zeta. split; [reflexivity|].
  apply (walk_creates_parent_directories (sample_env unreachable) "out" ∅ ∅ sample_tree
           empty_world ".github/workflows/ci.yml" "name: {{ name }} CI" 33188 "out/.github").
  - unfold sample_tree. set_solver.
  - reflexivity.
  - vm_compute. set_solver.
Defined.

Lemma document_makes_run_non_interactive_witness :
  let E := sample_env unreachable in
  let m := create_param_dict E None None None (Some "1.0dev") (Some "out") (Some "template.yml") in
  yaml_safe_load E "template.yml" = Ok sample_yaml /\
  sample_yaml !! "name" = Some (PStr "foo") /\
  no_question (new_events m world_typing) /\
  w_texts (world_after m world_typing) = w_texts world_typing.
Proof.
  cbn zeta. split; [reflexivity|]. split; [reflexivity|].
  destruct (document_makes_run_non_interactive (sample_env unreachable)
              None None None (Some "1.0dev") (Some "out") "template.yml" world_typing
              sample_yaml (PStr "foo") eq_refl eq_refl)
    as (Hq & Ht & _); [discriminate | vm_compute; eauto | vm_compute; eauto |].
  split; [exact Hq | exact Ht].
Defined.

Lemma unreadable_document_stops_init_witness :
  let E := sample_env unreachable in
  yaml_safe_load E "missing.yml" = Raise OSError /\
  init E None None None None false false None (Some "missing.yml") world_typing
    = (Raise OSError, world_typing).
Proof.
  cbn zeta. split; [reflexivity|].
  apply (unreadable_document_stops_init (sample_env unreachable)). reflexivity.
Defined.

Lemma customized_prefix_and_areas_witness :
  let E := sample_env unreachable in
  let run := run_with_name E world_customizing in
  w_confirms world_customizing = true :: [] /\
  run.1 = Ok (params_of run) /\
  params_of run !! "prefix" = Some (PStr "acme") /\
  params_of run !! "igenomes" = Some (PBool false) /\
  params_of run !! "ci" = Some (PBool true) /\
  exists prefix ticked more,
    first_valid match_prefix (w_texts world_customizing) = Ok prefix /\
    w_checkboxes world_customizing = ticked :: more /\
    params_of run !! "prefix" = Some (PStr prefix) /\
    params_of run !! "branded" = Some (PBool (bool_decide (prefix = "nf-core"))) /\
    forall key, key ∈ template_areas.*2 ->
      params_of run !! key = Some (PBool (bool_decide (key ∉ ticked))).
Proof.
  cbn zeta.
  assert (Hok : is_ok (run_with_name (sample_env unreachable) world_customizing).1 = true)
    by (vm_compute; reflexivity).
  assert (Hrun : (run_with_name (sample_env unreachable) world_customizing).1
                 = Ok (params_of (run_with_name (sample_env unreachable) world_customizing)))
    by exact (f_equal fst (run_eta _ ∅ Hok)).
  split; [reflexivity|]. split; [exact Hrun|].
  split; [vm_compute; reflexivity|]. split; [vm_compute; reflexivity|].
  split; [vm_compute; reflexivity|].
  exact (customized_prefix_and_areas (sample_env unreachable) "rnaseq" "A pipeline" "Ada"
           (Some "1.0dev") None world_customizing [] _ eq_refl Hrun).
Defined.
